(** * Clinic scheduler: the scheduling core, embedded and verified

    A shallow embedding of [data/models.py], [scheduler/constraints.py],
    [scheduler/ortools_scheduler.py] and the availability parser of
    [data/sheets_manager.py], followed by the properties the specification
    states about them.

    Conventions of the embedding:
    - a Python [int] is a [Z]; [len] and the generator sums that count
      elements are [Z.of_nat (length _)];
    - a [datetime.date] is its proleptic Gregorian ordinal
      ([date.toordinal()], 0001-01-01 is day 1 and a Monday), so adding a
      [timedelta] of whole days is addition and [date.weekday()] is
      [(ordinal + 6) mod 7]; the [OverflowError] at the two ends of
      Python's date range is not modelled;
    - a [str] is a [string] of its UTF-8 bytes;
    - a [dict] that is only read by key is a [gmap]; a [defaultdict(list)]
      that is iterated is an association list in insertion order;
    - the [print] calls are left out. *)

From stdpp Require Import gmap strings list fin_maps fin_sets sorting pretty.
From Stdlib Require Import ZArith Lia Ascii.

Local Open Scope Z_scope.

Abbreviation date := Z.

(** [date.weekday()]: 0 is Monday, 6 is Sunday. *)
Definition weekday (d : date) : Z := (d + 6) mod 7.

(** [enumerate(l)], as the list of (index, element) pairs. *)
Definition enumerate {A} (l : list A) : list (nat * A) :=
  zip (seq 0 (length l)) l.

(** [len(l)]. *)
Definition len {A} (l : list A) : Z := Z.of_nat (length l).

(** [d[k].append(v)] on a [defaultdict(list)] kept in insertion order. *)
Fixpoint dd_append {V} (k : Z) (v : V) (d : list (Z * list V))
  : list (Z * list V) :=
  match d with
  | [] => [(k, [v])]
  | (k', vs) :: rest =>
      if k' =? k then (k', vs ++ [v]) :: rest
      else (k', vs) :: dd_append k v rest
  end.

(** [d[k] = f(d.get(k))] on a dictionary kept in insertion order: a key
    already there keeps its place, a new key goes to the end. *)
Fixpoint dict_update {K V} (eqb : K → K → bool) (k : K) (f : option V → V)
  (d : list (K * V)) : list (K * V) :=
  match d with
  | [] => [(k, f None)]
  | (k', v) :: rest =>
      if eqb k' k then (k', f (Some v)) :: rest
      else (k', v) :: dict_update eqb k f rest
  end.

(** ** data/models.py *)

Module Employee.
Record t := mk {
  name : string;
  is_leader : bool;
  can_inject : bool;
  available_shifts : gmap Z (list string);
  is_fulltime : bool
}.

Definition can_work_on (self : t) (day_of_week : Z) (shift_time : string)
  : bool :=
  match available_shifts self !! day_of_week with
  | None => false
  | Some shifts => existsb (String.eqb shift_time) shifts
  end.
End Employee.

Module ShiftRequirement.
Record t := mk {
  day_of_week : Z;
  shift_time : string;
  num_people : Z;
  num_leaders : Z;
  num_injectors : Z;
  num_leader_or_injector : Z
}.
End ShiftRequirement.

Module TimeOffRequest.
Record t := mk {
  employee_name : string;
  date : date;
  shift_time : string
}.
End TimeOffRequest.

Module PreAssignedShift.
Record t := mk {
  employee_name : string;
  date : date;
  shift_time : string
}.
End PreAssignedShift.

Module Shift.
Record t := mk {
  date : date;
  shift_time : string;
  assigned_employees : list Employee.t
}.

Definition has_employee (self : t) (employee_name : string) : bool :=
  existsb (fun emp => String.eqb (Employee.name emp) employee_name)
          (assigned_employees self).

Definition count_leaders (self : t) : Z :=
  len (List.filter Employee.is_leader (assigned_employees self)).

Definition count_injectors (self : t) : Z :=
  len (List.filter Employee.can_inject (assigned_employees self)).

Definition count_leader_or_injector (self : t) : Z :=
  len (List.filter (fun emp => Employee.is_leader emp || Employee.can_inject emp)
                   (assigned_employees self)).
End Shift.

Module Schedule.
Record t := mk { shifts : list Shift.t }.

(** The [for] loop of [get_shift]: the first hit is returned, and falling
    off the end of the list returns [None]. *)
Fixpoint get_shift_loop (l : list Shift.t) (target_date : date)
  (shift_time : string) : option Shift.t :=
  match l with
  | [] => None
  | shift :: rest =>
      if (Shift.date shift =? target_date)
         && String.eqb (Shift.shift_time shift) shift_time
      then Some shift
      else get_shift_loop rest target_date shift_time
  end.

Definition get_shift (self : t) (target_date : date) (shift_time : string)
  : option Shift.t :=
  get_shift_loop (shifts self) target_date shift_time.

Definition get_employee_shifts (self : t) (employee_name : string)
  : list Shift.t :=
  List.filter (fun shift => Shift.has_employee shift employee_name)
              (shifts self).
End Schedule.

(** ** scheduler/constraints.py *)

Module constraints.

Definition validate_shift_requirements (shift : Shift.t)
  (requirement : ShiftRequirement.t) (relaxed : bool) : bool :=
  if negb (len (Shift.assigned_employees shift)
           =? ShiftRequirement.num_people requirement)
  then false
  else
    let leader_count := Shift.count_leaders shift in
    if (if relaxed
        then leader_count <? ShiftRequirement.num_leaders requirement / 2
        else leader_count <? ShiftRequirement.num_leaders requirement)
    then false
    else
      let injector_count := Shift.count_injectors shift in
      if (if relaxed
          then injector_count <? ShiftRequirement.num_injectors requirement / 2
          else injector_count <? ShiftRequirement.num_injectors requirement)
      then false
      else
        let leader_or_injector_count := Shift.count_leader_or_injector shift in
        if (if relaxed
            then leader_or_injector_count
                 <? ShiftRequirement.num_leader_or_injector requirement / 2
            else leader_or_injector_count
                 <? ShiftRequirement.num_leader_or_injector requirement)
        then false
        else true.

(** [weekly_shifts]: the employee's shifts grouped by the Monday of their
    week ([shift.date - timedelta(days=shift.date.weekday())]). *)
Definition weekly_shifts (employee_shifts : list Shift.t)
  : list (date * list Shift.t) :=
  fold_left
    (fun acc shift =>
       let week_start := Shift.date shift - weekday (Shift.date shift) in
       dd_append week_start shift acc)
    employee_shifts [].

(** The body of the loop over [weekly_shifts.items()]: [false] where the
    source returns [False], [true] where it goes on to the next week. *)
Definition week_passes (relaxed_shifts relaxed_days_off : bool)
  (week_start : date) (shifts : list Shift.t) : bool :=
  if (if relaxed_shifts
      then (len shifts <? 8) || (len shifts >? 10)
      else negb (len shifts =? 10))
  then false
  else
    let work_days : gset Z :=
      fold_left (fun s shift => s ∪ {[ Shift.date shift ]}) shifts ∅ in
    let week_dates : gset Z :=
      fold_left (fun s i => s ∪ {[ week_start + i ]}) (seqZ 0 7) ∅ in
    let days_off := Z.of_nat (size (week_dates ∖ work_days)) in
    if relaxed_days_off
    then (if days_off <? 1 then false else true)
    else (if negb (days_off =? 2) then false else true).

Definition validate_fulltime_constraints (schedule : Schedule.t)
  (employee : Employee.t) (relaxed_shifts relaxed_days_off : bool) : bool :=
  if negb (Employee.is_fulltime employee) then true
  else
    let employee_shifts :=
      Schedule.get_employee_shifts schedule (Employee.name employee) in
    forallb (fun '(week_start, shifts) =>
               week_passes relaxed_shifts relaxed_days_off week_start shifts)
            (weekly_shifts employee_shifts).

Definition validate_availability (shift : Shift.t) (employee : Employee.t)
  (time_off_requests : list TimeOffRequest.t) : bool :=
  let day_of_week := weekday (Shift.date shift) + 1 in
  if negb (Employee.can_work_on employee day_of_week (Shift.shift_time shift))
  then false
  else
    negb (existsb
            (fun request =>
               String.eqb (TimeOffRequest.employee_name request)
                          (Employee.name employee)
               && (TimeOffRequest.date request =? Shift.date shift)
               && String.eqb (TimeOffRequest.shift_time request)
                             (Shift.shift_time shift))
            time_off_requests).

Definition validate_pre_assignments (shift : Shift.t)
  (pre_assigned_shifts : list PreAssignedShift.t) : bool :=
  let required_employees :=
    map PreAssignedShift.employee_name
        (List.filter
           (fun pre =>
              (PreAssignedShift.date pre =? Shift.date shift)
              && String.eqb (PreAssignedShift.shift_time pre)
                            (Shift.shift_time shift))
           pre_assigned_shifts) in
  let assigned_names := map Employee.name (Shift.assigned_employees shift) in
  forallb (fun required => existsb (fun name => String.eqb name required)
                                   assigned_names)
          required_employees.

(** [daily_shifts[employee.name][shift.date] += 1] over every assignment
    of the schedule: a [defaultdict] of [defaultdict(int)]. *)
Definition daily_shift_counts (schedule : Schedule.t)
  : list (string * list (date * Z)) :=
  fold_left
    (fun daily_shifts shift =>
       fold_left
         (fun daily_shifts employee =>
            dict_update String.eqb (Employee.name employee)
              (fun date_shifts =>
                 dict_update Z.eqb (Shift.date shift)
                   (fun count => default 0 count + 1)
                   (default [] date_shifts))
              daily_shifts)
         (Shift.assigned_employees shift) daily_shifts)
    (Schedule.shifts schedule) [].

(** The score starts at [0.0] and only ever has 10 or 0 added and 5 taken
    away: every value it takes is a whole number that a float carries
    exactly, and it is kept here as an integer. *)
Definition calculate_schedule_score (schedule : Schedule.t) : Z :=
  fold_left
    (fun score '(employee_name, date_shifts) =>
       fold_left
         (fun score '(shift_date, count) =>
            if count =? 2 then score + 10
            else if count =? 1 then score + 0
            else score - 5)
         date_shifts score)
    (daily_shift_counts schedule) 0.

Definition check_employee_day_limit (schedule : Schedule.t)
  (employee_name : string) (target_date : date) (max_shifts_per_day : Z)
  : bool :=
  let count :=
    len (List.filter
           (fun shift =>
              (Shift.date shift =? target_date)
              && Shift.has_employee shift employee_name)
           (Schedule.shifts schedule)) in
  count <? max_shifts_per_day.

End constraints.

(** ** ortools.sat.python.cp_model, as far as the scheduler uses it

    The library is not part of the repository. What the scheduler builds
    with it is kept as data: variables, linear expressions, constraints and
    an objective, with the arithmetic meaning CP-SAT gives them. *)

Module cp_model.

(** A variable is identified by the name [NewBoolVar] is given:
    [e{emp_idx}_s{shift_idx}], [e{emp_idx}_week{week_key}_d{date_val}_working]
    and [bonus_e{emp_idx}_d{date_val}]. *)
Inductive IntVar :=
| ShiftVar (emp_idx shift_idx : nat)
| WorkingVar (emp_idx : nat) (week_key : Z) (date_val : date)
| BonusVar (emp_idx : nat) (date_val : date).

#[export] Instance IntVar_inhabited : Inhabited IntVar :=
  populate (ShiftVar 0 0).

#[export] Instance IntVar_eq_dec : EqDecision IntVar.
Proof. solve_decision. Defined.

(** Expressions built with [+], [-] and [*] by an integer. *)
Inductive LinearExpr :=
| Const (k : Z)
| Var (v : IntVar)
| Plus (a b : LinearExpr)
| Minus (a b : LinearExpr)
| Times (k : Z) (a : LinearExpr).

(** The comparisons [==], [>=] and [<=] between expressions. *)
Inductive BoundedLinearExpression :=
| ExprEq (a b : LinearExpr)
| ExprGe (a b : LinearExpr)
| ExprLe (a b : LinearExpr).

Inductive Constraint :=
| Linear (ct : BoundedLinearExpression)
| MaxEquality (target : IntVar) (exprs : list IntVar).

Record CpModel := mkModel {
  variables : list IntVar;
  constraints : list Constraint;
  objective : option LinearExpr
}.

(** [CpModel()]. *)
Definition empty : CpModel := mkModel [] [] None.

Definition NewBoolVar (m : CpModel) (v : IntVar) : CpModel :=
  mkModel (variables m ++ [v]) (constraints m) (objective m).

Definition Add (m : CpModel) (ct : BoundedLinearExpression) : CpModel :=
  mkModel (variables m) (constraints m ++ [Linear ct]) (objective m).

Definition AddMaxEquality (m : CpModel) (target : IntVar)
  (exprs : list IntVar) : CpModel :=
  mkModel (variables m) (constraints m ++ [MaxEquality target exprs])
          (objective m).

Definition Maximize (m : CpModel) (obj : LinearExpr) : CpModel :=
  mkModel (variables m) (constraints m) (Some obj).

(** Python's [sum(vars)]: [0 + v1 + v2 + ...]. On an empty list it is the
    integer [0], and the comparison posted with it is a constant, true or
    false as the integers compare. *)
Definition py_sum (vars : list IntVar) : LinearExpr :=
  fold_left (fun acc v => Plus acc (Var v)) vars (Const 0).

(** *** Meaning *)

Fixpoint eval (σ : IntVar → Z) (e : LinearExpr) : Z :=
  match e with
  | Const k => k
  | Var v => σ v
  | Plus a b => eval σ a + eval σ b
  | Minus a b => eval σ a - eval σ b
  | Times k a => k * eval σ a
  end.

(** A linear constraint holds when its two sides compare as asked;
    [AddMaxEquality] asks the target to be the largest of the values. The
    scheduler never posts it over an empty list, which is given no
    solution here. *)
Definition holds (σ : IntVar → Z) (c : Constraint) : bool :=
  match c with
  | Linear (ExprEq a b) => eval σ a =? eval σ b
  | Linear (ExprGe a b) => eval σ a >=? eval σ b
  | Linear (ExprLe a b) => eval σ a <=? eval σ b
  | MaxEquality target exprs =>
      match exprs with
      | [] => false
      | v :: vs => σ target =? fold_left Z.max (map σ vs) (σ v)
      end
  end.

Definition is_bool (x : Z) : bool := (x =? 0) || (x =? 1).

(** An assignment is a solution when every variable of the model takes the
    value 0 or 1 and every posted constraint holds. *)
Definition satisfies (σ : IntVar → Z) (m : CpModel) : bool :=
  forallb (fun v => is_bool (σ v)) (variables m)
  && forallb (holds σ) (constraints m).

Definition feasible (m : CpModel) : Prop := ∃ σ, satisfies σ m = true.

(** The value of the objective at an assignment (0 when none was set). *)
Definition objective_value (σ : IntVar → Z) (m : CpModel) : Z :=
  match objective m with
  | Some obj => eval σ obj
  | None => 0
  end.

(** *** The solver *)

Inductive CpSolverStatus :=
| UNKNOWN | MODEL_INVALID | FEASIBLE | INFEASIBLE | OPTIMAL.

#[export] Instance CpSolverStatus_eq_dec : EqDecision CpSolverStatus.
Proof. solve_decision. Defined.

Definition StatusName (status : CpSolverStatus) : string :=
  match status with
  | UNKNOWN => "UNKNOWN"
  | MODEL_INVALID => "MODEL_INVALID"
  | FEASIBLE => "FEASIBLE"
  | INFEASIBLE => "INFEASIBLE"
  | OPTIMAL => "OPTIMAL"
  end.

(** [solver.parameters], the two the scheduler sets. *)
Record SatParameters := mkParams {
  max_time_in_seconds : Z;
  log_search_progress : bool
}.

(** What the solver object answers after [Solve]. *)
Record CpSolver (float : Type) := mkSolver {
  status : CpSolverStatus;
  Value : IntVar → Z;
  NumConflicts : Z;
  NumBranches : Z;
  WallTime : float
}.
Arguments status {float}.
Arguments Value {float}.
Arguments NumConflicts {float}.
Arguments NumBranches {float}.
Arguments WallTime {float}.

End cp_model.

(** What a call of [generate_schedules] takes from outside the program:
    the floating-point numbers, which stay abstract, the two readings of
    [time.time()], and the search itself. *)
Record Runtime := mkRuntime {
  float : Type;
  float_sub : float → float → float;
  time_start : float;
  time_end : float;
  Solve : cp_model.SatParameters → cp_model.CpModel → cp_model.CpSolver float
}.

(** A search is sound when it reports [INFEASIBLE] only for a model without
    solution, and [OPTIMAL] or [FEASIBLE] only with a solution in hand. *)
Definition sound (rt : Runtime) : Prop :=
  ∀ p m,
    (cp_model.status (Solve rt p m) = cp_model.INFEASIBLE →
     ¬ cp_model.feasible m) ∧
    (cp_model.status (Solve rt p m) = cp_model.OPTIMAL ∨
     cp_model.status (Solve rt p m) = cp_model.FEASIBLE →
     cp_model.satisfies (cp_model.Value (Solve rt p m)) m = true).

(** The fatal error kinds the specification names. The source defines no
    exception and has no [raise]; the type is here so that what the
    specification says about these errors can be stated of the code. *)
Inductive FatalError :=
| InvalidStart
| UnknownEmployeeReference
| InconsistentRequirement.

(** How a call ends: with its return value, or with a fatal error. *)
Inductive outcome (A : Type) :=
| Returned (a : A)
| Failed (e : FatalError).
Arguments Returned {A}.
Arguments Failed {A}.

(** ** scheduler/ortools_scheduler.py *)

Module ORToolsScheduler.
Import cp_model.

Record t := mk {
  employees : list Employee.t;
  requirements : list ShiftRequirement.t;
  time_off_requests : list TimeOffRequest.t;
  pre_assigned_shifts : list PreAssignedShift.t;
  start_date : date;
  num_weeks : Z;
  max_time_seconds : Z;
  relaxed_requirements : bool;
  relaxed_shifts : bool;
  relaxed_days_off : bool;
  requirement_map : gmap (Z * string) ShiftRequirement.t;
  employee_map : gmap string Employee.t;
  model : CpModel
}.

(** The keys of the [diagnostics] dictionary; the three flags carry a
    prefix here because the scheduler's own fields have their names. *)
Record Diagnostics (float : Type) := mkDiagnostics {
  solver_status : string;
  solve_time : float;
  num_conflicts : Z;
  num_branches : Z;
  wall_time : float;
  diag_relaxed_requirements : bool;
  diag_relaxed_shifts : bool;
  diag_relaxed_days_off : bool;
  valid_count : Z
}.
Arguments solver_status {float}.
Arguments solve_time {float}.
Arguments num_conflicts {float}.
Arguments num_branches {float}.
Arguments wall_time {float}.
Arguments diag_relaxed_requirements {float}.
Arguments diag_relaxed_shifts {float}.
Arguments diag_relaxed_days_off {float}.
Arguments valid_count {float}.

(** The constructor; [num_weeks] and [max_time_seconds] are passed
    explicitly (their defaults are 4 and 300). *)
Definition __init__ (employees : list Employee.t)
  (requirements : list ShiftRequirement.t)
  (time_off_requests : list TimeOffRequest.t)
  (pre_assigned_shifts : list PreAssignedShift.t)
  (start_date : date) (num_weeks : Z) (max_time_seconds : Z) : t :=
  mk employees requirements time_off_requests pre_assigned_shifts
     start_date num_weeks max_time_seconds
     false false false
     (fold_left
        (fun acc req =>
           <[ (ShiftRequirement.day_of_week req,
               ShiftRequirement.shift_time req) := req ]> acc)
        requirements ∅)
     (fold_left (fun acc emp => <[ Employee.name emp := emp ]> acc)
                employees ∅)
     cp_model.empty.

(** [relax_constraints(requirements=False, shifts=False, days_off=False)]:
    an argument the caller leaves out is [None] here and takes the default. *)
Definition relax_constraints (self : t)
  (requirements shifts days_off : option bool) : t :=
  mk (employees self) (ORToolsScheduler.requirements self)
     (time_off_requests self) (pre_assigned_shifts self)
     (start_date self) (num_weeks self) (max_time_seconds self)
     (default false requirements)
     (default false shifts)
     (default false days_off)
     (requirement_map self) (employee_map self) (model self).

Definition shift_times : list string := ["早"; "中"; "晚"]%string.

(** [generate_month_template]. A date is its ordinal and the ordinals are
    all of [Z]: where [start_date + timedelta(weeks=week, days=day)] would
    pass [date.max] Python raises [OverflowError], which has no
    counterpart here, so a statement about the dates of every template
    keeps the window within the dates Python has. *)
Definition generate_month_template (self : t) : list Shift.t :=
  flat_map
    (fun week =>
       flat_map
         (fun day =>
            let current_date := start_date self + (7 * week + day) in
            map (fun shift_time => Shift.mk current_date shift_time [])
                shift_times)
         (seqZ 0 7))
    (seqZ 0 (num_weeks self)).

(** [shift_vars[emp_idx][shift_idx]]: the table is a list of rows. Every
    lookup in the source is at indices that [enumerate] or [range]
    produced over the lists the table was built from, so none misses; the
    value given here outside the table is never read. *)
Definition var_at (shift_vars : list (list IntVar)) (emp_idx shift_idx : nat)
  : IntVar :=
  (shift_vars !!! emp_idx) !!! shift_idx.

(** One Boolean variable for every employee and every slot. *)
Definition _create_variables (self : t) (shifts : list Shift.t) (m : CpModel)
  : list (list IntVar) * CpModel :=
  fold_left
    (fun '(shift_vars, m) '(emp_idx, employee) =>
       let '(row, m) :=
         fold_left
           (fun '(row, m) '(shift_idx, shift) =>
              let v := ShiftVar emp_idx shift_idx in
              (row ++ [v], NewBoolVar m v))
           (enumerate shifts) ([], m) in
       (shift_vars ++ [row], m))
    (enumerate (employees self)) ([], m).

Definition _add_availability_constraints (self : t) (shifts : list Shift.t)
  (shift_vars : list (list IntVar)) (m : CpModel) : CpModel :=
  fold_left
    (fun m '(emp_idx, employee) =>
       fold_left
         (fun m '(shift_idx, shift) =>
            if negb (constraints.validate_availability
                       shift employee (time_off_requests self))
            then Add m (ExprEq (Var (var_at shift_vars emp_idx shift_idx))
                           (Const 0))
            else m)
         (enumerate shifts) m)
    (enumerate (employees self)) m.

(** The two inner loops end at their first hit ([break]). *)
Definition _add_pre_assignment_constraints (self : t) (shifts : list Shift.t)
  (shift_vars : list (list IntVar)) (m : CpModel) : CpModel :=
  fold_left
    (fun m pre =>
       match List.find
               (fun '(shift_idx, shift) =>
                  (Shift.date shift =? PreAssignedShift.date pre)
                  && String.eqb (Shift.shift_time shift)
                                (PreAssignedShift.shift_time pre))
               (enumerate shifts) with
       | Some (shift_idx, shift) =>
           match List.find
                   (fun '(emp_idx, employee) =>
                      String.eqb (Employee.name employee)
                                 (PreAssignedShift.employee_name pre))
                   (enumerate (employees self)) with
           | Some (emp_idx, employee) =>
               Add m (ExprEq (Var (var_at shift_vars emp_idx shift_idx))
                         (Const 1))
           | None => m
           end
       | None => m
       end)
    (pre_assigned_shifts self) m.

(** [if pool: self.model.Add(sum(pool) >= minimum)]. *)
Definition add_minimum (m : CpModel) (pool : list IntVar) (minimum : Z)
  : CpModel :=
  match pool with
  | [] => m
  | _ :: _ => Add m (ExprGe (py_sum pool) (Const minimum))
  end.

Definition _add_shift_requirement_constraints (self : t)
  (shifts : list Shift.t) (shift_vars : list (list IntVar)) (m : CpModel)
  : CpModel :=
  fold_left
    (fun m '(shift_idx, shift) =>
       let day_of_week := weekday (Shift.date shift) + 1 in
       match requirement_map self !! (day_of_week, Shift.shift_time shift) with
       | None => m
       | Some requirement =>
           let leader_indices :=
             map fst (List.filter (fun '(i, emp) => Employee.is_leader emp)
                                  (enumerate (employees self))) in
           let injector_indices :=
             map fst (List.filter (fun '(i, emp) => Employee.can_inject emp)
                                  (enumerate (employees self))) in
           let leader_or_injector_indices :=
             map fst (List.filter
                        (fun '(i, emp) =>
                           Employee.is_leader emp || Employee.can_inject emp)
                        (enumerate (employees self))) in
           let total_assigned :=
             map (fun i => var_at shift_vars i shift_idx)
                 (seq 0 (length (employees self))) in
           let m := Add m (ExprEq (py_sum total_assigned)
                              (Const (ShiftRequirement.num_people requirement))) in
           let min_leaders :=
             if relaxed_requirements self
             then ShiftRequirement.num_leaders requirement / 2
             else ShiftRequirement.num_leaders requirement in
           let leader_assigned :=
             map (fun i => var_at shift_vars i shift_idx) leader_indices in
           let m := add_minimum m leader_assigned min_leaders in
           let min_injectors :=
             if relaxed_requirements self
             then ShiftRequirement.num_injectors requirement / 2
             else ShiftRequirement.num_injectors requirement in
           let injector_assigned :=
             map (fun i => var_at shift_vars i shift_idx) injector_indices in
           let m := add_minimum m injector_assigned min_injectors in
           let min_leader_or_injector :=
             if relaxed_requirements self
             then ShiftRequirement.num_leader_or_injector requirement / 2
             else ShiftRequirement.num_leader_or_injector requirement in
           let leader_or_injector_assigned :=
             map (fun i => var_at shift_vars i shift_idx)
                 leader_or_injector_indices in
           add_minimum m leader_or_injector_assigned min_leader_or_injector
       end)
    (enumerate shifts) m.

(** [shifts_by_date]: the slot indices grouped by date, dates in the order
    of their first slot. *)
Definition shifts_by_date (shifts : list Shift.t) : list (date * list nat) :=
  fold_left
    (fun acc '(shift_idx, shift) => dd_append (Shift.date shift) shift_idx acc)
    (enumerate shifts) [].

Definition _add_daily_limit_constraints (self : t) (shifts : list Shift.t)
  (shift_vars : list (list IntVar)) (m : CpModel) : CpModel :=
  let shifts_by_date := shifts_by_date shifts in
  fold_left
    (fun m emp_idx =>
       fold_left
         (fun m '(date_val, shift_indices) =>
            let daily_shifts :=
              map (fun s_idx => var_at shift_vars emp_idx s_idx)
                  shift_indices in
            Add m (ExprLe (py_sum daily_shifts) (Const 3)))
         shifts_by_date m)
    (seq 0 (length (employees self))) m.

(** [shift.date.isocalendar()[:2]], the ISO (year, week number) of a date.
    The pair is only a dictionary key and a part of a variable's name: it
    names the Monday-to-Sunday week the date lies in, and is kept here as
    the ordinal of that week's Monday. *)
Definition iso_week_key (d : date) : Z := d - weekday d.

(** The loop over the dates of one week of one full-time employee: one
    [..._working] variable a date, tied to the day's slots by
    [AddMaxEquality]; [is_working_on_day.values()] is returned with the
    model. *)
Definition add_working_days (shift_vars : list (list IntVar))
  (emp_idx : nat) (week_key : Z) (shifts_by_date : list (date * list nat))
  (m : CpModel) : list IntVar * CpModel :=
  fold_left
    (fun '(work_days, m) '(date_val, day_shift_indices) =>
       let day_var := WorkingVar emp_idx week_key date_val in
       let m := NewBoolVar m day_var in
       let day_shift_vars :=
         map (fun s_idx => var_at shift_vars emp_idx s_idx)
             day_shift_indices in
       (work_days ++ [day_var], AddMaxEquality m day_var day_shift_vars))
    shifts_by_date ([], m).

Definition _add_fulltime_weekly_constraints (self : t)
  (shifts : list Shift.t) (shift_vars : list (list IntVar)) (m : CpModel)
  : CpModel :=
  let weeks : list (Z * list (nat * Shift.t)) :=
    fold_left
      (fun acc '(shift_idx, shift) =>
         dd_append (iso_week_key (Shift.date shift)) (shift_idx, shift) acc)
      (enumerate shifts) [] in
  fold_left
    (fun m '(emp_idx, employee) =>
       if negb (Employee.is_fulltime employee) then m
       else
         fold_left
           (fun m '(week_key, week_shifts) =>
              let shift_indices := map fst week_shifts in
              let weekly_shift_vars :=
                map (fun s_idx => var_at shift_vars emp_idx s_idx)
                    shift_indices in
              let m :=
                if relaxed_shifts self
                then Add (Add m (ExprGe (py_sum weekly_shift_vars) (Const 8)))
                         (ExprLe (py_sum weekly_shift_vars) (Const 10))
                else Add m (ExprEq (py_sum weekly_shift_vars) (Const 10)) in
              let shifts_by_date : list (date * list nat) :=
                fold_left
                  (fun acc '(s_idx, shift) =>
                     dd_append (Shift.date shift) s_idx acc)
                  week_shifts [] in
              let '(work_days, m) :=
                add_working_days shift_vars emp_idx week_key shifts_by_date m in
              if relaxed_days_off self
              then Add m (ExprLe (py_sum work_days) (Const 6))
              else Add m (ExprLe (py_sum work_days) (Const 5)))
           weeks m)
    (enumerate (employees self)) m.

Definition _add_constraints (self : t) (shifts : list Shift.t)
  (shift_vars : list (list IntVar)) (m : CpModel) : CpModel :=
  let m := _add_availability_constraints self shifts shift_vars m in
  let m := _add_pre_assignment_constraints self shifts shift_vars m in
  let m := _add_shift_requirement_constraints self shifts shift_vars m in
  let m := _add_daily_limit_constraints self shifts shift_vars m in
  _add_fulltime_weekly_constraints self shifts shift_vars m.

(** The two constraints that tie a bonus variable to the day's sum:
    [daily_sum >= 2 * bonus_var] and
    [daily_sum <= 2 + (len(shift_indices) - 2) * (1 - bonus_var)]. *)
Definition bonus_at_least (daily_shifts : list IntVar) (bonus_var : IntVar)
  : BoundedLinearExpression :=
  ExprGe (py_sum daily_shifts) (Times 2 (Var bonus_var)).

Definition bonus_at_most (daily_shifts : list IntVar) (n : Z)
  (bonus_var : IntVar) : BoundedLinearExpression :=
  ExprLe (py_sum daily_shifts)
     (Plus (Const 2) (Times (n - 2) (Minus (Const 1) (Var bonus_var)))).

(** The body of the two nested loops of [_add_objective], for one employee
    and one date. *)
Definition add_bonus (shift_vars : list (list IntVar)) (emp_idx : nat)
  (st : list IntVar * CpModel) (group : date * list nat)
  : list IntVar * CpModel :=
  let '(bonus_vars, m) := st in
  let '(date_val, shift_indices) := group in
  if len shift_indices <? 2 then (bonus_vars, m)
  else
    let daily_shifts :=
      map (fun s_idx => var_at shift_vars emp_idx s_idx) shift_indices in
    let bonus_var := BonusVar emp_idx date_val in
    let m := NewBoolVar m bonus_var in
    let m := Add m (bonus_at_least daily_shifts bonus_var) in
    let m := Add m (bonus_at_most daily_shifts (len shift_indices) bonus_var) in
    (bonus_vars ++ [bonus_var], m).

(** The loops of [_add_objective]: the bonus variables created, and the
    model with their linking constraints. *)
Definition add_bonuses (self : t) (shifts : list Shift.t)
  (shift_vars : list (list IntVar)) (m : CpModel) : list IntVar * CpModel :=
  let shifts_by_date := shifts_by_date shifts in
  fold_left
    (fun st emp_idx => fold_left (add_bonus shift_vars emp_idx) shifts_by_date st)
    (seq 0 (length (employees self))) ([], m).

Definition _add_objective (self : t) (shifts : list Shift.t)
  (shift_vars : list (list IntVar)) (m : CpModel) : CpModel :=
  let '(bonus_vars, m) := add_bonuses self shifts shift_vars m in
  match bonus_vars with
  | [] => m
  | _ :: _ => Maximize m (Times 10 (py_sum bonus_vars))
  end.

(** [if self.solver.Value(var):] holds for a value other than 0. *)
Definition _parse_solution {float} (self : t) (solver : CpSolver float)
  (shifts : list Shift.t) (shift_vars : list (list IntVar)) : Schedule.t :=
  Schedule.mk
    (map
       (fun '(shift_idx, shift) =>
          let assigned_employees :=
            map snd
                (List.filter
                   (fun '(emp_idx, employee) =>
                      negb (Value solver (var_at shift_vars emp_idx shift_idx)
                            =? 0))
                   (enumerate (employees self))) in
          Shift.mk (Shift.date shift) (Shift.shift_time shift)
                   assigned_employees)
       (enumerate shifts)).

(** The model [generate_schedules] hands to the solver: the variables, the
    hard constraints and the objective, posted on [self.model]. *)
Definition build_model (self : t) : list (list IntVar) * CpModel :=
  let template_shifts := generate_month_template self in
  let '(shift_vars, m) :=
    _create_variables self template_shifts (model self) in
  let m := _add_constraints self template_shifts shift_vars m in
  let m := _add_objective self template_shifts shift_vars m in
  (shift_vars, m).

(** [generate_schedules]: the body has no [raise] and no [try], so the
    value is always [Returned]. An exception that a called library lets
    through (the date addition of the template, [model.Add] on a number
    outside the solver's integers) is outside the model: what is stated
    of the value returned is stated for the solver's answer on the model
    that was built. *)
Definition generate_schedules (rt : Runtime) (self : t)
  : outcome (list Schedule.t * Diagnostics (float rt)) :=
  let template_shifts := generate_month_template self in
  let '(shift_vars, m) := build_model self in
  let parameters := mkParams (max_time_seconds self) true in
  let solver := Solve rt parameters m in
  let elapsed := float_sub rt (time_end rt) (time_start rt) in
  let valid_schedules :=
    if bool_decide (status solver = OPTIMAL)
       || bool_decide (status solver = FEASIBLE)
    then [_parse_solution self solver template_shifts shift_vars]
    else [] in
  let diagnostics :=
    mkDiagnostics (float rt)
      (StatusName (status solver))
      elapsed
      (NumConflicts solver)
      (NumBranches solver)
      (WallTime solver)
      (relaxed_requirements self)
      (relaxed_shifts self)
      (relaxed_days_off self)
      (len valid_schedules) in
  Returned (valid_schedules, diagnostics).

End ORToolsScheduler.

(** ** data/sheets_manager.py: the availability column of an employee row

    The separators are ASCII characters, which never occur inside the
    UTF-8 encoding of another character, so splitting the bytes splits the
    text where Python splits it. *)

Module SheetsManager.

(** [c in s] for a one-character [c]. *)
Fixpoint contains (c : ascii) (s : string) : bool :=
  match s with
  | EmptyString => false
  | String x rest => Ascii.eqb x c || contains c rest
  end.

(** [s.split(sep)] for a one-character [sep]: the pieces between the
    separators, one more than there are separators. *)
Fixpoint split (sep : ascii) (s : string) : list string :=
  match s with
  | EmptyString => [EmptyString]
  | String x rest =>
      if Ascii.eqb x sep then EmptyString :: split sep rest
      else match split sep rest with
           | piece :: pieces => String x piece :: pieces
           | [] => [String x EmptyString]
           end
  end.

(** [s.split(sep, 1)] when [sep] occurs in [s]: what is before the first
    separator and what is after it; [None] when [sep] does not occur. *)
Fixpoint split_once (sep : ascii) (s : string) : option (string * string) :=
  match s with
  | EmptyString => None
  | String x rest =>
      if Ascii.eqb x sep then Some (EmptyString, rest)
      else match split_once sep rest with
           | Some (before, after) => Some (String x before, after)
           | None => None
           end
  end.

Section Parser.

(** Python's [str.strip()] and [int(str)] are taken as they are: [py_int]
    answers [None] where [int] raises [ValueError]. *)
Variable py_strip : string → string.
Variable py_int : string → option Z.

(** The body of the loop over [day_entries]: an entry without a colon and
    an entry whose day does not parse are passed over ([continue]). *)
Definition add_day_entry (available_shifts : gmap Z (list string))
  (entry : string) : gmap Z (list string) :=
  if negb (contains ":"%char entry) then available_shifts
  else
    match split_once ":"%char entry with
    | None => available_shifts
    | Some (day_str, shifts_str) =>
        match py_int (py_strip day_str) with
        | Some day_num =>
            let shifts := map py_strip (split ","%char shifts_str) in
            <[ day_num := shifts ]> available_shifts
        | None => available_shifts
        end
    end.

(** Lines 163 to 186 of [get_employees]: from the text of the availability
    cell ([str(record[...])]) to [available_shifts]. *)
Definition parse_available_shifts (cell : string) : gmap Z (list string) :=
  let availability_str := py_strip cell in
  if contains ":"%char availability_str
  then
    let day_entries := split ";"%char availability_str in
    fold_left add_day_entry day_entries ∅
  else
    let shifts := map py_strip (split ","%char availability_str) in
    fold_left (fun available_shifts day => <[ day := shifts ]> available_shifts)
              (seqZ 1 7) ∅.

End Parser.

(** [strip] and [int] on ASCII text, for running the parser on examples.
    Whitespace is what [str.isspace] accepts below 128; a number is an
    optional sign and decimal digits. Underscores between digits and
    characters outside ASCII are not covered. *)
Definition is_space (c : ascii) : bool :=
  let n := nat_of_ascii c in
  ((9 <=? n) && (n <=? 13) || (28 <=? n) && (n <=? 32))%nat.

Fixpoint drop_spaces (l : list ascii) : list ascii :=
  match l with
  | c :: rest => if is_space c then drop_spaces rest else l
  | [] => []
  end.

Definition ascii_strip (s : string) : string :=
  String.string_of_list_ascii
    (rev (drop_spaces (rev (drop_spaces (String.list_ascii_of_string s))))).

Definition digit_of (c : ascii) : option Z :=
  let n := nat_of_ascii c in
  if ((48 <=? n) && (n <=? 57))%nat then Some (Z.of_nat n - 48) else None.

Fixpoint digits_value (acc : Z) (s : string) : option Z :=
  match s with
  | EmptyString => Some acc
  | String c rest =>
      match digit_of c with
      | Some d => digits_value (10 * acc + d) rest
      | None => None
      end
  end.

Definition ascii_int (s : string) : option Z :=
  match ascii_strip s with
  | EmptyString => None
  | String c rest =>
      if Ascii.eqb c "-"%char then
        match rest with
        | EmptyString => None
        | _ => Z.opp <$> digits_value 0 rest
        end
      else if Ascii.eqb c "+"%char then
        match rest with
        | EmptyString => None
        | _ => digits_value 0 rest
        end
      else digits_value 0 (String c rest)
  end.

(** *** The availability column, written back

    Lines 216 to 235 of [update_employees]. *)

(** [sep.join(l)] for a one-character [sep]. *)
Fixpoint join (sep : ascii) (l : list string) : string :=
  match l with
  | [] => EmptyString
  | [piece] => piece
  | piece :: rest => String.append piece (String sep (join sep rest))
  end.

Section Formatter.

(** [f"{day}"] for an integer is taken as it is. *)
Variable py_str : Z → string.

(** The body of the loop over [sorted(emp.available_shifts.keys())]: a day
    without shifts adds no part. *)
Definition format_day (available_shifts : gmap Z (list string)) (day : Z)
  : option string :=
  match default [] (available_shifts !! day) with
  | [] => None
  | shifts =>
      Some (String.append (py_str day) (String ":" (join "," shifts)))
  end.

(** An empty dictionary gives the empty text. Otherwise [all_days] is not
    empty; its order plays no part, since the test asks whether all its
    members are equal and, when they are, any of them is [all_days[0]]. *)
Definition format_available_shifts (available_shifts : gmap Z (list string))
  : string :=
  let all_days := (map_to_list available_shifts).*2 in
  match all_days with
  | [] => EmptyString
  | first :: _ =>
      if forallb (fun day_shifts => bool_decide (day_shifts = first)) all_days
      then join "," first
      else
        let parts :=
          omap (format_day available_shifts)
               (merge_sort Z.le (map_to_list available_shifts).*1) in
        join ";" parts
  end.

End Formatter.

(** *** Worksheets

    A worksheet is the list of its rows as [get_all_values] returns them,
    the header first; a row is the list of its cells. The calls that reach
    Google Sheets and fail are outside this model. *)

(** [sheet.delete_rows(i)]: rows are numbered from 1. *)
Definition delete_rows (row_index : nat) (sheet : list (list string))
  : list (list string) :=
  delete (row_index - 1)%nat sheet.

(** [enumerate(l, start=start)]. *)
Definition enumerate_from {A} (start : nat) (l : list A) : list (nat * A) :=
  zip (seq start (length l)) l.

(** [row[i]], read after a test of [len(row)]. *)
Definition cell (row : list string) (i : nat) : string :=
  nth i row EmptyString.

(** [l.sort(reverse=True)] on row numbers. *)
Fixpoint insert_descending (x : nat) (l : list nat) : list nat :=
  match l with
  | [] => [x]
  | y :: rest =>
      if (y <=? x)%nat then x :: l else y :: insert_descending x rest
  end.

Definition sort_reverse (l : list nat) : list nat :=
  foldr insert_descending [] l.

(** The test of [delete_schedule] on a row. *)
Definition is_schedule_row (schedule_name saved_at : string)
  (row : list string) : bool :=
  (2 <=? len row)
  && String.eqb (cell row 0) schedule_name
  && String.eqb (cell row 1) saved_at.

(** [delete_schedule]: the value returned and the worksheet left. *)
Definition delete_schedule (sheet : list (list string))
  (schedule_name saved_at : string) : bool * list (list string) :=
  let all_values := sheet in
  if len all_values <=? 1 then (false, sheet)
  else
    let rows_to_delete :=
      map fst (List.filter
                 (fun '(i, row) => is_schedule_row schedule_name saved_at row)
                 (enumerate_from 2 (tail all_values))) in
    let rows_to_delete := sort_reverse rows_to_delete in
    (0 <? len rows_to_delete,
     fold_left (fun sheet row_index => delete_rows row_index sheet)
               rows_to_delete sheet).

(** [row[0] == a and row[1] == b and row[2] == c], with the short circuit
    of [and]; [None] where a cell that is read is missing and Python raises
    [IndexError]. *)
Definition is_request_row (employee_name request_date shift_time : string)
  (row : list string) : option bool :=
  match row !! 0%nat with
  | None => None
  | Some c0 =>
      if negb (String.eqb c0 employee_name) then Some false
      else match row !! 1%nat with
           | None => None
           | Some c1 =>
               if negb (String.eqb c1 request_date) then Some false
               else match row !! 2%nat with
                    | None => None
                    | Some c2 => Some (String.eqb c2 shift_time)
                    end
           end
  end.

(** The loop of [remove_time_off_request] and of
    [remove_pre_assigned_shift], which differ in the worksheet they open:
    the first hit is deleted and ends the call; an [IndexError] is caught
    by the [except] and the call returns [False]. *)
Fixpoint remove_request_loop (employee_name request_date shift_time : string)
  (rows : list (nat * list string)) (sheet : list (list string))
  : bool * list (list string) :=
  match rows with
  | [] => (false, sheet)
  | (i, row) :: rest =>
      match is_request_row employee_name request_date shift_time row with
      | None => (false, sheet)
      | Some true => (true, delete_rows i sheet)
      | Some false =>
          remove_request_loop employee_name request_date shift_time rest sheet
      end
  end.

Definition remove_time_off_request (sheet : list (list string))
  (employee_name request_date shift_time : string)
  : bool * list (list string) :=
  let records := sheet in
  remove_request_loop employee_name request_date shift_time
    (enumerate_from 2 (tail records)) sheet.

Section Schedules.

(** [d.strftime('%Y-%m-%d')] and [datetime.strptime(s, '%Y-%m-%d').date()]
    are taken as they are: [strptime] answers [None] where Python raises. *)
Variable strftime : date → string.
Variable strptime : string → option date.

Definition headers : list string :=
  ["排班名稱"; "儲存時間"; "日期"; "星期"; "班次";
   "員工1"; "員工2"; "員工3"; "員工4"; "員工5"]%string.

Definition weekday_names : list string :=
  ["週一"; "週二"; "週三"; "週四"; "週五"; "週六"; "週日"]%string.

(** The row [save_schedule] writes for a shift: five cells, the first
    five names, and empty cells up to ten. *)
Definition schedule_row (schedule_name saved_at : string) (shift : Shift.t)
  : list string :=
  let day_of_week := weekday (Shift.date shift) + 1 in
  let weekday_str :=
    nth (Z.to_nat (day_of_week - 1)) weekday_names EmptyString in
  let employee_names := map Employee.name (Shift.assigned_employees shift) in
  let row :=
    [schedule_name; saved_at; strftime (Shift.date shift); weekday_str;
     Shift.shift_time shift] ++ take 5 employee_names in
  row ++ replicate (10 - length row) EmptyString.

(** [save_schedule]: the worksheet left. [sheet] is [None] when the
    workbook has no such worksheet yet; [now] is the text of
    [datetime.now()]. *)
Definition save_schedule (sheet : option (list (list string)))
  (schedule : Schedule.t) (start_date : date) (now : string)
  : list (list string) :=
  let sheet :=
    match sheet with
    | Some sheet => sheet
    | None => [headers]
    end in
  let schedule_name := strftime start_date in
  let saved_at := now in
  let data_rows :=
    map (schedule_row schedule_name saved_at) (Schedule.shifts schedule) in
  match data_rows with
  | [] => sheet
  | _ :: _ => sheet ++ data_rows
  end.

(** The body of the loop of [load_schedule] over the rows: [None] for a
    row that is passed over. *)
Definition load_row (employee_dict : gmap string Employee.t)
  (schedule_name saved_at : string) (row : list string) : option Shift.t :=
  if (5 <=? len row)
     && String.eqb (cell row 0) schedule_name
     && String.eqb (cell row 1) saved_at
  then
    match strptime (cell row 2) with
    | None => None
    | Some shift_date =>
        let shift_time := cell row 4 in
        let assigned_employees :=
          omap (fun name =>
                  match name with
                  | EmptyString => None
                  | _ => employee_dict !! name
                  end)
               (drop 5 row) in
        Some (Shift.mk shift_date shift_time assigned_employees)
    end
  else None.

(** [load_schedule], given the roster [get_employees] returns. *)
Definition load_schedule (sheet : list (list string))
  (employees : list Employee.t) (schedule_name saved_at : string)
  : option Schedule.t :=
  let records := sheet in
  if len records <=? 1 then None
  else
    let employee_dict :=
      fold_left (fun acc emp => <[ Employee.name emp := emp ]> acc)
                employees (∅ : gmap string Employee.t) in
    let shifts :=
      omap (load_row employee_dict schedule_name saved_at) (tail records) in
    match shifts with
    | [] => None
    | _ :: _ => Some (Schedule.mk shifts)
    end.

End Schedules.

End SheetsManager.

(** ** datetime, for running the examples

    [date.fromordinal(n).strftime('%Y-%m-%d')] and
    [datetime.strptime(s, '%Y-%m-%d').date().toordinal()] for years of four
    digits, after the arithmetic of the standard library ([_ord2ymd],
    [_ymd2ord]). *)

Module datetime.

Definition is_leap (year : Z) : bool :=
  (year mod 4 =? 0) && (negb (year mod 100 =? 0) || (year mod 400 =? 0)).

Definition days_in_month (year month : Z) : Z :=
  if month =? 2 then (if is_leap year then 29 else 28)
  else if (month =? 4) || (month =? 6) || (month =? 9) || (month =? 11)
       then 30 else 31.

Definition days_before_year (year : Z) : Z :=
  let y := year - 1 in
  y * 365 + y / 4 - y / 100 + y / 400.

Definition days_before_month (year month : Z) : Z :=
  fold_left (fun acc m => acc + days_in_month year m) (seqZ 1 (month - 1)) 0.

Definition ymd2ord (year month day : Z) : Z :=
  days_before_year year + days_before_month year month + day.

Definition ord2ymd (n : Z) : Z * Z * Z :=
  let n := n - 1 in
  let n400 := n / 146097 in
  let n := n mod 146097 in
  let n100 := n / 36524 in
  let n := n mod 36524 in
  let n4 := n / 1461 in
  let n := n mod 1461 in
  let n1 := n / 365 in
  let n := n mod 365 in
  let year := n400 * 400 + 1 + n100 * 100 + n4 * 4 + n1 in
  if (n1 =? 4) || (n100 =? 4) then (year - 1, 12, 31)
  else
    let month := Z.shiftr (n + 50) 5 in
    let preceding := days_before_month year month in
    if n <? preceding
    then (year, month - 1,
          n - (preceding - days_in_month year (month - 1)) + 1)
    else (year, month, n - preceding + 1).

Definition digit (n : Z) : ascii := ascii_of_nat (Z.to_nat (48 + n mod 10)).

Definition two_digits (n : Z) : string :=
  String (digit (n / 10)) (String (digit n) EmptyString).

Definition four_digits (n : Z) : string :=
  String (digit (n / 1000)) (String (digit (n / 100)) (two_digits n)).

Definition strftime (d : date) : string :=
  let '(year, month, day) := ord2ymd d in
  String.append (four_digits year)
    (String "-" (String.append (two_digits month)
                   (String "-" (two_digits day)))).

Definition strptime (s : string) : option date :=
  match SheetsManager.split "-"%char s with
  | [year_str; month_str; day_str] =>
      if negb (String.length year_str =? 4)%nat
         || negb ((1 <=? String.length month_str)%nat
                  && (String.length month_str <=? 2)%nat)
         || negb ((1 <=? String.length day_str)%nat
                  && (String.length day_str <=? 2)%nat)
      then None
      else
        match SheetsManager.digits_value 0 year_str,
              SheetsManager.digits_value 0 month_str,
              SheetsManager.digits_value 0 day_str with
        | Some year, Some month, Some day =>
            if (1 <=? year) && (1 <=? month) && (month <=? 12)
               && (1 <=? day) && (day <=? days_in_month year month)
            then Some (ymd2ord year month day)
            else None
        | _, _, _ => None
        end
  | _ => None
  end.

End datetime.

(** ** ui/schedule_generator.py: the scheduler the form sets up *)

Module schedule_generator.

(** Lines 189 to 191 of [render_schedule_generator]: a start date that is
    not a Monday is moved back to the Monday before it. *)
Definition adjusted_start (start_date : date) : date :=
  if negb (weekday start_date =? 0)
  then start_date - weekday start_date
  else start_date.

(** Lines 185 to 206: one week, from the adjusted date, five minutes. *)
Definition scheduler (employees : list Employee.t)
  (requirements : list ShiftRequirement.t)
  (time_off_requests : list TimeOffRequest.t)
  (pre_assigned_shifts : list PreAssignedShift.t) (start_date : date)
  : ORToolsScheduler.t :=
  let num_weeks := 1 in
  let start_date := adjusted_start start_date in
  ORToolsScheduler.__init__ employees requirements time_off_requests
    pre_assigned_shifts start_date num_weeks 300.

End schedule_generator.

(** ** ui/calendar_view.py: the weeks and the cells of the calendar *)

Module calendar_view.

(** Lines 20 to 27 of [render_calendar_view]: [None] where the function
    returns early for want of dates. Of the set [all_dates] only the
    smallest and the largest member are used. *)
Definition num_weeks (schedule : Schedule.t) : option Z :=
  let all_dates := map Shift.date (Schedule.shifts schedule) in
  match all_dates with
  | [] => None
  | d :: ds =>
      let min_date := fold_left Z.min ds d in
      let max_date := fold_left Z.max ds d in
      Some ((max_date - min_date) / 7 + 1)
  end.

(** The date of the cell for day [day_idx] of week [week]. *)
Definition cell_date (start_date : date) (week day_idx : Z) : date :=
  let week_start := start_date + 7 * week in
  week_start + day_idx.

(** Lines 60 to 64: the first shift of the schedule with the cell's date
    and shift time. *)
Definition matching_shift (schedule : Schedule.t) (current_date : date)
  (shift_time : string) : option Shift.t :=
  List.find
    (fun shift =>
       (Shift.date shift =? current_date)
       && String.eqb (Shift.shift_time shift) shift_time)
    (Schedule.shifts schedule).

End calendar_view.

(** * The vocabulary of the statements, and the inputs of the examples *)

Import cp_model.

(** What it is for a shift to be the one asked for. *)
Definition is_slot (target_date : date) (shift_time : string) (s : Shift.t)
  : Prop :=
  Shift.date s = target_date ∧ Shift.shift_time s = shift_time.

(** The minimum a category is held to: the requirement's own, or half of
    it rounded down under relaxation. *)
Definition required_minimum (relaxed : bool) (minimum : Z) : Z :=
  if relaxed then minimum / 2 else minimum.

(** The three empty slots of one date, as the template lists them. *)
Definition day_slots (current_date : date) : list Shift.t :=
  map (fun shift_time => Shift.mk current_date shift_time [])
      ORToolsScheduler.shift_times.

(** The parameters [generate_schedules] sets on the solver. *)
Definition parameters_of (self : ORToolsScheduler.t) : SatParameters :=
  mkParams (ORToolsScheduler.max_time_seconds self) true.

(** The solver's answer on the model [generate_schedules] builds. *)
Definition answer (rt : Runtime) (self : ORToolsScheduler.t)
  : CpSolver (float rt) :=
  Solve rt (parameters_of self) (snd (ORToolsScheduler.build_model self)).

(** A runtime whose search gives every model the same answer, with the
    clock and the counters at zero. *)
Definition fixed_answer (st : CpSolverStatus) (σ : IntVar → Z) : Runtime :=
  mkRuntime Z Z.sub 0 0 (fun _ _ => mkSolver Z st σ 0 0 0).

(** Monday 2025-01-06 and Tuesday 2025-01-07, as ordinals. *)
Definition monday_2025_01_06 : date := 739257.
Definition tuesday_2025_01_07 : date := 739258.

(** The last date Python has, 9999-12-31, as an ordinal
    ([date.max.toordinal()]); the first, 0001-01-01, is 1. The dates of
    this development range over all of [Z], while the date additions of
    the source raise [OverflowError] outside these bounds: a statement
    about every start date keeps its window within them. *)
Definition date_max : date := 3652059.

(** Available in every shift of every day: the legacy form of the
    availability cell. *)
Definition always_available : gmap Z (list string) :=
  SheetsManager.parse_available_shifts
    SheetsManager.ascii_strip SheetsManager.ascii_int "早,中,晚".

(** An employee without capability, outside the weekly rules. *)
Definition part_timer (name : string) : Employee.t :=
  Employee.mk name false false always_available false.

(** One part-time employee, no requirement, a week that starts on a
    Tuesday. *)
Definition tuesday_scheduler : ORToolsScheduler.t :=
  ORToolsScheduler.__init__ [part_timer "E1"] [] [] []
                            tuesday_2025_01_07 1 300.

(** The name is the name of some employee of the roster. *)
Definition in_roster (employees : list Employee.t) (name : string) : bool :=
  existsb (fun emp => String.eqb (Employee.name emp) name) employees.

(** The same scheduler with other time-off and pre-assignment lists. *)
Definition with_requests (self : ORToolsScheduler.t)
  (time_off_requests : list TimeOffRequest.t)
  (pre_assigned_shifts : list PreAssignedShift.t) : ORToolsScheduler.t :=
  ORToolsScheduler.mk
    (ORToolsScheduler.employees self) (ORToolsScheduler.requirements self)
    time_off_requests pre_assigned_shifts
    (ORToolsScheduler.start_date self) (ORToolsScheduler.num_weeks self)
    (ORToolsScheduler.max_time_seconds self)
    (ORToolsScheduler.relaxed_requirements self)
    (ORToolsScheduler.relaxed_shifts self)
    (ORToolsScheduler.relaxed_days_off self)
    (ORToolsScheduler.requirement_map self)
    (ORToolsScheduler.employee_map self) (ORToolsScheduler.model self).

(** The time-off records that name an employee of the roster. *)
Definition known_time_off (self : ORToolsScheduler.t)
  : list TimeOffRequest.t :=
  List.filter
    (fun request => in_roster (ORToolsScheduler.employees self)
                              (TimeOffRequest.employee_name request))
    (ORToolsScheduler.time_off_requests self).

(** The pre-assignments that name an employee of the roster. *)
Definition known_pre_assigned (self : ORToolsScheduler.t)
  : list PreAssignedShift.t :=
  List.filter
    (fun pre => in_roster (ORToolsScheduler.employees self)
                          (PreAssignedShift.employee_name pre))
    (ORToolsScheduler.pre_assigned_shifts self).

(** The same requirement for each of the 21 (weekday, shift time) pairs. *)
Definition uniform_requirements
  (num_people num_leaders num_injectors num_leader_or_injector : Z)
  : list ShiftRequirement.t :=
  flat_map
    (fun day_of_week =>
       map (fun shift_time =>
              ShiftRequirement.mk day_of_week shift_time num_people
                num_leaders num_injectors num_leader_or_injector)
           ORToolsScheduler.shift_times)
    (seqZ 1 7).

(** Five part-time employees, [E1] to [E5]. *)
Definition five_part_timers : list Employee.t :=
  map part_timer ["E1"; "E2"; "E3"; "E4"; "E5"]%string.

(** Five part-time employees, two people wanted in every slot of the week
    of Monday 2025-01-06, and a time-off record and a pre-assignment that
    both name ["Ghost"], who is not in the roster. *)
Definition ghost_scheduler : ORToolsScheduler.t :=
  ORToolsScheduler.__init__ five_part_timers (uniform_requirements 2 0 0 0)
    [TimeOffRequest.mk "Ghost" monday_2025_01_06 "中"]
    [PreAssignedShift.mk "Ghost" monday_2025_01_06 "早"]
    monday_2025_01_06 1 300.

(** The same scheduler without the two records. *)
Definition ghostless_scheduler : ORToolsScheduler.t :=
  ORToolsScheduler.__init__ five_part_timers (uniform_requirements 2 0 0 0)
    [] [] monday_2025_01_06 1 300.

(** The requirement with every minimum that no employee of the roster can
    count towards put to zero. *)
Definition without_unbacked_minima (employees : list Employee.t)
  (req : ShiftRequirement.t) : ShiftRequirement.t :=
  ShiftRequirement.mk
    (ShiftRequirement.day_of_week req) (ShiftRequirement.shift_time req)
    (ShiftRequirement.num_people req)
    (if existsb Employee.is_leader employees
     then ShiftRequirement.num_leaders req else 0)
    (if existsb Employee.can_inject employees
     then ShiftRequirement.num_injectors req else 0)
    (if existsb (fun emp => Employee.is_leader emp || Employee.can_inject emp)
                employees
     then ShiftRequirement.num_leader_or_injector req else 0).

(** The same scheduler with every requirement passed through [f]. *)
Definition with_requirements (self : ORToolsScheduler.t)
  (f : ShiftRequirement.t → ShiftRequirement.t) : ORToolsScheduler.t :=
  ORToolsScheduler.mk
    (ORToolsScheduler.employees self)
    (map f (ORToolsScheduler.requirements self))
    (ORToolsScheduler.time_off_requests self)
    (ORToolsScheduler.pre_assigned_shifts self)
    (ORToolsScheduler.start_date self) (ORToolsScheduler.num_weeks self)
    (ORToolsScheduler.max_time_seconds self)
    (ORToolsScheduler.relaxed_requirements self)
    (ORToolsScheduler.relaxed_shifts self)
    (ORToolsScheduler.relaxed_days_off self)
    (f <$> ORToolsScheduler.requirement_map self)
    (ORToolsScheduler.employee_map self) (ORToolsScheduler.model self).

(** Four part-time employees, none of them a leader, and every slot of the
    week of Monday 2025-01-06 asking for two people, one of them a
    leader. *)
Definition leaderless_scheduler : ORToolsScheduler.t :=
  ORToolsScheduler.__init__
    (map part_timer ["E1"; "E2"; "E3"; "E4"]%string)
    (uniform_requirements 2 1 0 0) [] [] monday_2025_01_06 1 300.

(** The first two employees take every slot; no day earns a bonus. *)
Definition first_two_everywhere (v : IntVar) : Z :=
  match v with
  | ShiftVar emp_idx shift_idx => if (emp_idx <? 2)%nat then 1 else 0
  | WorkingVar _ _ _ => 0
  | BonusVar _ _ => 0
  end.

(** The model with more variables and constraints posted. *)
Definition extend (m : CpModel) (vars : list IntVar) (cs : list Constraint)
  : CpModel :=
  mkModel (variables m ++ vars) (constraints m ++ cs) (objective m).

(** The sum of the values of a list of variables. *)
Definition total (σ : IntVar → Z) (vars : list IntVar) : Z :=
  foldr (fun v acc => σ v + acc) 0 vars.

(** The dates that get a bonus variable: those with two slots or more. *)
Definition bonus_dates (shifts : list Shift.t) : list (date * list nat) :=
  List.filter (fun '(date_val, shift_indices) => negb (len shift_indices <? 2))
              (ORToolsScheduler.shifts_by_date shifts).

(** The two linking constraints of one employee and one date. *)
Definition bonus_links (shift_vars : list (list IntVar)) (emp_idx : nat)
  (group : date * list nat) : list Constraint :=
  let daily_shifts :=
    map (fun s_idx => ORToolsScheduler.var_at shift_vars emp_idx s_idx)
        (snd group) in
  [Linear (ORToolsScheduler.bonus_at_least daily_shifts
             (BonusVar emp_idx (fst group)));
   Linear (ORToolsScheduler.bonus_at_most daily_shifts (len (snd group))
             (BonusVar emp_idx (fst group)))].

Section AvailabilityTerms.

Variable py_strip : string → string.
Variable py_int : string → option Z.

(** The weekday an entry of the per-day form names, if it names one: the
    text before its first colon, stripped, read as an integer. *)
Definition entry_day (entry : string) : option Z :=
  match SheetsManager.split_once ":"%char entry with
  | Some (day_str, shifts_str) => py_int (py_strip day_str)
  | None => None
  end.

(** Every label after the entry's first colon, stripped. *)
Definition entry_labels (entry : string) : list string :=
  match SheetsManager.split_once ":"%char entry with
  | Some (day_str, shifts_str) =>
      map py_strip (SheetsManager.split ","%char shifts_str)
  | None => []
  end.

End AvailabilityTerms.

Section GroupingTerms.

Context {V : Type} (key : V → Z).

(** A [defaultdict(list)] filled by appending every element under its key. *)
Definition grouped (l : list V) : list (Z * list V) :=
  fold_left (fun acc v => dd_append (key v) v acc) l [].

(** The elements with a given key, in order. *)
Definition members (k : Z) (l : list V) : list V :=
  List.filter (fun v => key v =? k) l.

(** [d] holds the elements of [l] by key: no key twice, under every key
    its members, which are not none, and every element's key present. *)
Definition grouping_of (l : list V) (d : list (Z * list V)) : Prop :=
  NoDup (d.*1)
  ∧ (∀ k g, (k, g) ∈ d → g = members k l ∧ g ≠ [])
  ∧ (∀ v, v ∈ l → key v ∈ d.*1).

End GroupingTerms.

(** The Monday of the week a date lies in. *)
Definition monday_of (d : date) : date := d - weekday d.

(** The shifts the schedule gives the employee in the week that starts on
    [week_start]. *)
Definition week_of (schedule : Schedule.t) (employee : Employee.t)
  (week_start : date) : list Shift.t :=
  members (fun shift => monday_of (Shift.date shift)) week_start
          (Schedule.get_employee_shifts schedule (Employee.name employee)).

(** The distinct dates of a list of shifts. *)
Definition worked_dates (week : list Shift.t) : gset Z :=
  list_to_set (Shift.date <$> week).

(** The weekly count test: 10 shifts when strict, 8 to 10 when relaxed. *)
Definition shift_count_ok (relaxed_shifts : bool) (n : Z) : Prop :=
  if relaxed_shifts then 8 ≤ n ≤ 10 else n = 10.

(** The days-worked test of the code: exactly five days when strict (two
    days off, no more and no fewer), at most six when relaxed. *)
Definition worked_days_ok (relaxed_days_off : bool) (n : nat) : Prop :=
  if relaxed_days_off then (n ≤ 6)%nat else n = 5%nat.

(** The days-worked test as the specification words it: at most five days
    when strict, at most six when relaxed. *)
Definition worked_days_at_most (relaxed_days_off : bool) (n : nat) : Prop :=
  if relaxed_days_off then (n ≤ 6)%nat else (n ≤ 5)%nat.

(** An employee without capability, under the weekly rules. *)
Definition full_timer (name : string) : Employee.t :=
  Employee.mk name false false always_available true.

(** Ten shifts of the full-time employee ["A"] in the week of Monday
    2025-01-06: all three on Monday, Tuesday and Wednesday, and Thursday
    morning. Four days worked, three days off. *)
Definition four_day_week : Schedule.t :=
  Schedule.mk
    (map (fun '(offset, shift_time) =>
            Shift.mk (monday_2025_01_06 + offset) shift_time [full_timer "A"])
         [(0, "早"); (0, "中"); (0, "晚");
          (1, "早"); (1, "中"); (1, "晚");
          (2, "早"); (2, "中"); (2, "晚");
          (3, "早")]%string).

(** ** What each step of the model posts *)

(** [x[e,s] == 0] for every employee and slot that fail the availability
    check. *)
Definition posted_availability (self : ORToolsScheduler.t)
  (shifts : list Shift.t) (shift_vars : list (list IntVar))
  : list Constraint :=
  flat_map
    (fun '(emp_idx, employee) =>
       flat_map
         (fun '(shift_idx, shift) =>
            if negb (constraints.validate_availability shift employee
                       (ORToolsScheduler.time_off_requests self))
            then [Linear (ExprEq
                            (Var (ORToolsScheduler.var_at shift_vars
                                    emp_idx shift_idx))
                            (Const 0))]
            else [])
         (enumerate shifts))
    (enumerate (ORToolsScheduler.employees self)).

(** The first slot of the list with the date and shift time of a
    pre-assignment, and the first employee with its name. *)
Definition pre_slot (shifts : list Shift.t) (pre : PreAssignedShift.t)
  : option (nat * Shift.t) :=
  List.find
    (fun '(shift_idx, shift) =>
       (Shift.date shift =? PreAssignedShift.date pre)
       && String.eqb (Shift.shift_time shift) (PreAssignedShift.shift_time pre))
    (enumerate shifts).

Definition pre_employee (employees : list Employee.t)
  (pre : PreAssignedShift.t) : option (nat * Employee.t) :=
  List.find
    (fun '(emp_idx, employee) =>
       String.eqb (Employee.name employee) (PreAssignedShift.employee_name pre))
    (enumerate employees).

(** [x[e,s] == 1] for every pre-assignment whose slot and employee are
    both found. *)
Definition posted_pre_assignments (self : ORToolsScheduler.t)
  (shifts : list Shift.t) (shift_vars : list (list IntVar))
  : list Constraint :=
  flat_map
    (fun pre =>
       match pre_slot shifts pre with
       | Some (shift_idx, shift) =>
           match pre_employee (ORToolsScheduler.employees self) pre with
           | Some (emp_idx, employee) =>
               [Linear (ExprEq
                          (Var (ORToolsScheduler.var_at shift_vars
                                  emp_idx shift_idx))
                          (Const 1))]
           | None => []
           end
       | None => []
       end)
    (ORToolsScheduler.pre_assigned_shifts self).

(** The decision variables, at one slot, of the employees with a flag. *)
Definition pool_vars (flag : Employee.t → bool) (employees : list Employee.t)
  (shift_vars : list (list IntVar)) (shift_idx : nat) : list IntVar :=
  map (fun i => ORToolsScheduler.var_at shift_vars i shift_idx)
      (map fst (List.filter (fun '(i, emp) => flag emp) (enumerate employees))).

(** The decision variables of all employees at one slot. *)
Definition slot_vars (employees : list Employee.t)
  (shift_vars : list (list IntVar)) (shift_idx : nat) : list IntVar :=
  map (fun i => ORToolsScheduler.var_at shift_vars i shift_idx)
      (seq 0 (length employees)).

(** What [add_minimum] posts. *)
Definition posted_minimum (pool : list IntVar) (minimum : Z)
  : list Constraint :=
  match pool with
  | [] => []
  | _ :: _ => [Linear (ExprGe (py_sum pool) (Const minimum))]
  end.

Definition is_leader_or_injector (emp : Employee.t) : bool :=
  Employee.is_leader emp || Employee.can_inject emp.

(** The headcount and the minima of one slot with a requirement. *)
Definition posted_requirement (self : ORToolsScheduler.t)
  (shift_vars : list (list IntVar)) (shift_idx : nat)
  (requirement : ShiftRequirement.t) : list Constraint :=
  let employees := ORToolsScheduler.employees self in
  let relaxed := ORToolsScheduler.relaxed_requirements self in
  Linear (ExprEq (py_sum (slot_vars employees shift_vars shift_idx))
                 (Const (ShiftRequirement.num_people requirement)))
  :: posted_minimum
       (pool_vars Employee.is_leader employees shift_vars shift_idx)
       (required_minimum relaxed (ShiftRequirement.num_leaders requirement))
  ++ posted_minimum
       (pool_vars Employee.can_inject employees shift_vars shift_idx)
       (required_minimum relaxed (ShiftRequirement.num_injectors requirement))
  ++ posted_minimum
       (pool_vars is_leader_or_injector employees shift_vars shift_idx)
       (required_minimum relaxed
          (ShiftRequirement.num_leader_or_injector requirement)).

(** The requirement of a slot: the one filed under its weekday and shift
    time. *)
Definition requirement_of (self : ORToolsScheduler.t) (shift : Shift.t)
  : option ShiftRequirement.t :=
  ORToolsScheduler.requirement_map self
    !! (weekday (Shift.date shift) + 1, Shift.shift_time shift).

Definition posted_requirements (self : ORToolsScheduler.t)
  (shifts : list Shift.t) (shift_vars : list (list IntVar))
  : list Constraint :=
  flat_map
    (fun '(shift_idx, shift) =>
       match requirement_of self shift with
       | None => []
       | Some requirement =>
           posted_requirement self shift_vars shift_idx requirement
       end)
    (enumerate shifts).

(** At most three shifts a day, for every employee and date. *)
Definition posted_daily_limits (self : ORToolsScheduler.t)
  (shifts : list Shift.t) (shift_vars : list (list IntVar))
  : list Constraint :=
  flat_map
    (fun emp_idx =>
       flat_map
         (fun '(date_val, shift_indices) =>
            [Linear (ExprLe
                       (py_sum (map (fun s_idx =>
                                       ORToolsScheduler.var_at shift_vars
                                         emp_idx s_idx) shift_indices))
                       (Const 3))])
         (ORToolsScheduler.shifts_by_date shifts))
    (seq 0 (length (ORToolsScheduler.employees self))).

(** The slots of the list by ISO week, as [_add_fulltime_weekly_constraints]
    groups them. *)
Definition weeks_of (shifts : list Shift.t)
  : list (Z * list (nat * Shift.t)) :=
  grouped (fun p : nat * Shift.t =>
             ORToolsScheduler.iso_week_key (Shift.date (snd p)))
          (enumerate shifts).

(** The slot indices of one week by date. *)
Definition week_by_date (week_shifts : list (nat * Shift.t))
  : list (date * list nat) :=
  fold_left
    (fun acc '(s_idx, shift) => dd_append (Shift.date shift) s_idx acc)
    week_shifts [].

(** The [..._working] variables of one employee and week. *)
Definition working_vars (emp_idx : nat) (week_key : Z)
  (week_shifts : list (nat * Shift.t)) : list IntVar :=
  map (fun group => WorkingVar emp_idx week_key (fst group))
      (week_by_date week_shifts).

(** The weekly count of one employee's week. *)
Definition posted_week_count (relaxed_shifts : bool)
  (weekly_shift_vars : list IntVar) : list Constraint :=
  if relaxed_shifts
  then [Linear (ExprGe (py_sum weekly_shift_vars) (Const 8));
        Linear (ExprLe (py_sum weekly_shift_vars) (Const 10))]
  else [Linear (ExprEq (py_sum weekly_shift_vars) (Const 10))].

(** Everything posted for one full-time employee and one week: the count,
    the tie of each date's working variable to the date's slots, and the
    bound on the days worked. *)
Definition posted_week (self : ORToolsScheduler.t)
  (shift_vars : list (list IntVar)) (emp_idx : nat)
  (week : Z * list (nat * Shift.t)) : list Constraint :=
  posted_week_count (ORToolsScheduler.relaxed_shifts self)
    (map (fun s_idx => ORToolsScheduler.var_at shift_vars emp_idx s_idx)
         (map fst (snd week)))
  ++ map (fun group =>
            MaxEquality (WorkingVar emp_idx (fst week) (fst group))
              (map (fun s_idx =>
                      ORToolsScheduler.var_at shift_vars emp_idx s_idx)
                   (snd group)))
         (week_by_date (snd week))
  ++ [Linear (ExprLe (py_sum (working_vars emp_idx (fst week) (snd week)))
                     (Const (if ORToolsScheduler.relaxed_days_off self
                             then 6 else 5)))].

Definition posted_fulltime (self : ORToolsScheduler.t)
  (shifts : list Shift.t) (shift_vars : list (list IntVar))
  : list Constraint :=
  flat_map
    (fun '(emp_idx, employee) =>
       if negb (Employee.is_fulltime employee) then []
       else flat_map (posted_week self shift_vars emp_idx) (weeks_of shifts))
    (enumerate (ORToolsScheduler.employees self)).

Definition fulltime_working_vars (self : ORToolsScheduler.t)
  (shifts : list Shift.t) : list IntVar :=
  flat_map
    (fun '(emp_idx, employee) =>
       if negb (Employee.is_fulltime employee) then []
       else flat_map (fun week => working_vars emp_idx (fst week) (snd week))
                     (weeks_of shifts))
    (enumerate (ORToolsScheduler.employees self)).

(** The bonus variables and their links. *)
Definition posted_bonus_vars (self : ORToolsScheduler.t)
  (shifts : list Shift.t) : list IntVar :=
  flat_map (fun emp_idx => map (fun group => BonusVar emp_idx (fst group))
                               (bonus_dates shifts))
           (seq 0 (length (ORToolsScheduler.employees self))).

Definition posted_bonus_links (self : ORToolsScheduler.t)
  (shifts : list Shift.t) (shift_vars : list (list IntVar))
  : list Constraint :=
  flat_map (fun emp_idx =>
              flat_map (bonus_links shift_vars emp_idx) (bonus_dates shifts))
           (seq 0 (length (ORToolsScheduler.employees self))).

(** The table [_create_variables] builds. *)
Definition created_rows (self : ORToolsScheduler.t) (shifts : list Shift.t)
  : list (list IntVar) :=
  map (fun emp_idx => map (ShiftVar emp_idx) (seq 0 (length shifts)))
      (seq 0 (length (ORToolsScheduler.employees self))).

(** ** The outcome of a solve *)

(** The solver reports a solution, and its values are one of the model
    that was built. A sound solver that reports success gives this. *)
Definition solution_found (rt : Runtime) (self : ORToolsScheduler.t) : Prop :=
  (status (answer rt self) = OPTIMAL ∨ status (answer rt self) = FEASIBLE)
  ∧ satisfies (Value (answer rt self))
              (snd (ORToolsScheduler.build_model self)) = true.

(** The schedule read off the solver's values. *)
Definition solved_schedule (rt : Runtime) (self : ORToolsScheduler.t)
  : Schedule.t :=
  ORToolsScheduler._parse_solution self (answer rt self)
    (ORToolsScheduler.generate_month_template self)
    (fst (ORToolsScheduler.build_model self)).

(** The employees the solver's values put on slot [shift_idx]. *)
Definition assigned_at (rt : Runtime) (self : ORToolsScheduler.t)
  (shift_idx : nat) : list Employee.t :=
  map snd
      (List.filter
         (fun '(emp_idx, employee) =>
            negb (Value (answer rt self)
                    (ORToolsScheduler.var_at
                       (fst (ORToolsScheduler.build_model self))
                       emp_idx shift_idx) =? 0))
         (enumerate (ORToolsScheduler.employees self))).

(** ** A week at the clinic, for the examples *)

Definition staff (name : string) (is_leader can_inject is_fulltime : bool)
  : Employee.t :=
  Employee.mk name is_leader can_inject always_available is_fulltime.

(** A leader, an injector, one who is both and two who are neither, all
    part-time. Every slot asks for two people, a leader and an injector
    among them. [A] is off on Monday midday and pre-assigned to Monday
    morning. *)
Definition clinic_roster : list Employee.t :=
  [staff "A" true false false; staff "B" false true false;
   staff "C" true true false; staff "D" false false false;
   staff "E" false false false].

Definition clinic_scheduler : ORToolsScheduler.t :=
  ORToolsScheduler.__init__ clinic_roster (uniform_requirements 2 1 1 2)
    [TimeOffRequest.mk "A" monday_2025_01_06 "中"]
    [PreAssignedShift.mk "A" monday_2025_01_06 "早"]
    monday_2025_01_06 1 300.

(** [B] and [C] take Monday midday, [A] and [B] every other slot; no day
    earns a bonus. *)
Definition clinic_values (v : IntVar) : Z :=
  match v with
  | ShiftVar emp_idx shift_idx =>
      if (shift_idx =? 1)%nat
      then (if (emp_idx =? 1)%nat || (emp_idx =? 2)%nat then 1 else 0)
      else (if (emp_idx <? 2)%nat then 1 else 0)
  | WorkingVar _ _ _ => 0
  | BonusVar _ _ => 0
  end.

Definition clinic_runtime : Runtime := fixed_answer FEASIBLE clinic_values.

(** The clinic with [A] pre-assigned to the Monday midday [A] has off. *)
Definition conflicting_scheduler : ORToolsScheduler.t :=
  ORToolsScheduler.__init__ clinic_roster (uniform_requirements 2 1 1 2)
    [TimeOffRequest.mk "A" monday_2025_01_06 "中"]
    [PreAssignedShift.mk "A" monday_2025_01_06 "中"]
    monday_2025_01_06 1 300.

(** The clinic with six people wanted in every slot, one more than it
    has. *)
Definition understaffed_scheduler : ORToolsScheduler.t :=
  ORToolsScheduler.__init__ clinic_roster (uniform_requirements 6 1 1 2)
    [] [] monday_2025_01_06 1 300.

(** The employees of the roster who pass the availability check for a
    slot. *)
Definition available_for (self : ORToolsScheduler.t) (slot : Shift.t)
  : list Employee.t :=
  List.filter
    (fun employee =>
       constraints.validate_availability slot employee
         (ORToolsScheduler.time_off_requests self))
    (ORToolsScheduler.employees self).

(** A requirement that the employees available for the slot cannot meet:
    more people than there are, or fewer than none, or a minimum, for a
    capability that someone in the roster has, above the number of those
    available who have it. *)
Definition out_of_reach (self : ORToolsScheduler.t) (slot : Shift.t)
  (requirement : ShiftRequirement.t) : Prop :=
  let relaxed := ORToolsScheduler.relaxed_requirements self in
  let employees := ORToolsScheduler.employees self in
  let short (flag : Employee.t → bool) (minimum : Z) : Prop :=
    existsb flag employees = true
    ∧ len (List.filter flag (available_for self slot))
      < required_minimum relaxed minimum in
  len (available_for self slot) < ShiftRequirement.num_people requirement
  ∨ ShiftRequirement.num_people requirement < 0
  ∨ short Employee.is_leader (ShiftRequirement.num_leaders requirement)
  ∨ short Employee.can_inject (ShiftRequirement.num_injectors requirement)
  ∨ short is_leader_or_injector
          (ShiftRequirement.num_leader_or_injector requirement).

(** One full-time employee and no requirement, the week of Monday
    2025-01-06. *)
Definition fulltime_scheduler : ORToolsScheduler.t :=
  ORToolsScheduler.__init__ [full_timer "F"] [] [] []
                            monday_2025_01_06 1 300.

(** Morning and midday from Monday to Friday, the weekend off; every
    working day earns its bonus. *)
Definition weekday_values (v : IntVar) : Z :=
  match v with
  | ShiftVar emp_idx shift_idx =>
      if (shift_idx <? 15)%nat && negb (shift_idx mod 3 =? 2)%nat
      then 1 else 0
  | WorkingVar _ _ date_val =>
      if date_val <? monday_2025_01_06 + 5 then 1 else 0
  | BonusVar _ date_val =>
      if date_val <? monday_2025_01_06 + 5 then 1 else 0
  end.

Definition fulltime_runtime : Runtime := fixed_answer OPTIMAL weekday_values.

(** One full-time employee and no requirement, a week that starts on
    Tuesday 2025-01-07. *)
Definition tuesday_fulltime_scheduler : ORToolsScheduler.t :=
  ORToolsScheduler.__init__ [full_timer "F"] [] [] []
                            tuesday_2025_01_07 1 300.

(** The same scheduler with the days off relaxed. *)
Definition relaxed_fulltime_scheduler : ORToolsScheduler.t :=
  ORToolsScheduler.relax_constraints fulltime_scheduler
    None None (Some true).

(** The key [_add_fulltime_weekly_constraints] files a slot under. *)
Definition slot_week (p : nat * Shift.t) : Z :=
  ORToolsScheduler.iso_week_key (Shift.date (snd p)).

(** The slots of the template that lie in the week of [week_key], with
    their indices. *)
Definition week_slots (self : ORToolsScheduler.t) (week_key : Z)
  : list (nat * Shift.t) :=
  members slot_week week_key
          (enumerate (ORToolsScheduler.generate_month_template self)).

Definition slot_date (p : nat * Shift.t) : date := Shift.date (snd p).

(** The employee at [emp_idx] has a value other than 0 at some slot of the
    group: the test [if self.solver.Value(var)] of [_parse_solution], over
    the slots of one date. *)
Definition works_on (σ : IntVar → Z) (shift_vars : list (list IntVar))
  (emp_idx : nat) (group : date * list nat) : bool :=
  existsb (fun s_idx =>
             negb (σ (ORToolsScheduler.var_at shift_vars emp_idx s_idx) =? 0))
          (snd group).

(** Who works when: a pair of a name and a date for every employee of
    every shift, in the order [calculate_schedule_score] meets them. *)
Definition incidences (schedule : Schedule.t) : list (string * date) :=
  flat_map
    (fun shift =>
       map (fun employee => (Employee.name employee, Shift.date shift))
           (Shift.assigned_employees shift))
    (Schedule.shifts schedule).

(** How often a pair occurs. *)
Definition times (p : string * date) (l : list (string * date)) : Z :=
  len (List.filter (fun q => bool_decide (q = p)) l).

(** The days of the employees of a schedule: each name with each date it
    works on, once. *)
Definition employee_days (schedule : Schedule.t) : list (string * date) :=
  remove_dups (incidences schedule).

(** [d.get(k)] on a dictionary kept in insertion order. *)
Definition dict_get {K V} (eqb : K → K → bool) (d : list (K * V)) (k : K)
  : option V :=
  snd <$> List.find (fun kv => eqb (fst kv) k) d.

(** What one day of one employee adds to the score. *)
Definition points (count : Z) : Z :=
  if count =? 2 then 10 else if count =? 1 then 0 else -5.

(** The counts of a nested dictionary, one entry a name and date. *)
Definition entries (daily_shifts : list (string * list (date * Z)))
  : list ((string * date) * Z) :=
  flat_map
    (fun '(employee_name, date_shifts) =>
       map (fun '(shift_date, count) => ((employee_name, shift_date), count))
           date_shifts)
    daily_shifts.

(** One step of the two loops of [calculate_schedule_score] that count. *)
Definition count_step (daily_shifts : list (string * list (date * Z)))
  (p : string * date) : list (string * list (date * Z)) :=
  dict_update String.eqb (fst p)
    (fun date_shifts =>
       dict_update Z.eqb (snd p) (fun count => default 0 count + 1)
                   (default [] date_shifts))
    daily_shifts.

(** What the dictionary of counts holds after the pairs of [l]: no name
    and, under a name, no date twice, and under every name and date the
    number of times the pair occurs, when it occurs. *)
Definition counts_of (l : list (string * date))
  (daily_shifts : list (string * list (date * Z))) : Prop :=
  NoDup daily_shifts.*1
  ∧ (∀ name date_shifts,
       (name, date_shifts) ∈ daily_shifts → NoDup date_shifts.*1)
  ∧ (∀ name shift_date,
       dict_get Z.eqb
         (default [] (dict_get String.eqb daily_shifts name)) shift_date
       = if times (name, shift_date) l =? 0 then None
         else Some (times (name, shift_date) l)).

(** Two shifts on Monday for [A], three for [B], one for [C]. *)
Definition scored_schedule : Schedule.t :=
  Schedule.mk
    [Shift.mk monday_2025_01_06 "早" [part_timer "A"; part_timer "B"];
     Shift.mk monday_2025_01_06 "中" [part_timer "A"; part_timer "B"];
     Shift.mk monday_2025_01_06 "晚" [part_timer "B"; part_timer "C"]].

(** A label that comes back from the cell as it went in: free of the
    three separators, and left alone by [strip]. *)
Definition plain_label (py_strip : string → string) (label : string) : Prop :=
  SheetsManager.contains ","%char label = false
  ∧ SheetsManager.contains ";"%char label = false
  ∧ SheetsManager.contains ":"%char label = false
  ∧ py_strip label = label.

(** A day the cell can name: its number comes back from its text, which
    holds neither a colon nor a semicolon. *)
Definition plain_day (py_strip : string → string) (py_int : string → option Z)
  (py_str : Z → string) (day : Z) : Prop :=
  py_int (py_strip (py_str day)) = Some day
  ∧ SheetsManager.contains ":"%char (py_str day) = false
  ∧ SheetsManager.contains ";"%char (py_str day) = false.

(** The days of a dictionary that have a shift. *)
Definition days_with_shifts (available_shifts : gmap Z (list string))
  (day : Z) : option (list string) :=
  match available_shifts !! day with
  | Some (label :: labels) => Some (label :: labels)
  | _ => None
  end.

(** Available on Monday morning only, and a week with three different
    days. *)
Definition monday_mornings : gmap Z (list string) :=
  <[ 1 := ["早"]%string ]> ∅.

Definition mixed_week : gmap Z (list string) :=
  <[ 3 := ["早"; "晚"]%string ]> (<[ 1 := ["早"]%string ]> (<[ 2 := [] ]> ∅)).

(** [{emp.name: emp for emp in employees}]. *)
Definition employee_dict (employees : list Employee.t)
  : gmap string Employee.t :=
  fold_left (fun acc emp => <[ Employee.name emp := emp ]> acc)
            employees ∅.

(** The employee a cell of a saved row names, if any. *)
Definition resolve (employees : list Employee.t) (name : string)
  : option Employee.t :=
  match name with
  | EmptyString => None
  | _ => employee_dict employees !! name
  end.

(** What a shift comes back as after [save_schedule] and [load_schedule]:
    its first five employees, each looked up by name in the roster. *)
Definition reloaded (employees : list Employee.t) (shift : Shift.t)
  : Shift.t :=
  Shift.mk (Shift.date shift) (Shift.shift_time shift)
    (omap (resolve employees)
          (take 5 (map Employee.name (Shift.assigned_employees shift)))).

(** A shift that a row of the worksheet holds in full. *)
Definition fits_a_row (employees : list Employee.t) (shift : Shift.t)
  : Prop :=
  (length (Shift.assigned_employees shift) ≤ 5)%nat
  ∧ Forall (fun emp => Employee.name emp ≠ EmptyString ∧ emp ∈ employees)
           (Shift.assigned_employees shift).

(** The first week of the clinic as its solution has it, and a shift of
    six. *)
Definition clinic_schedule : Schedule.t :=
  solved_schedule clinic_runtime clinic_scheduler.

Definition crowded_shift : Shift.t :=
  Shift.mk monday_2025_01_06 "早"
    (clinic_roster ++ [staff "F" false false false]).

(** The numbers, counted from [start], of the rows that pass a test. *)
Definition matching_rows (p : list string → bool) (start : nat)
  (rows : list (list string)) : list nat :=
  map fst (List.filter (fun '(i, row) => p row)
                       (SheetsManager.enumerate_from start rows)).

(** A minimum the model can be held to: some employee of the roster counts
    towards it, or it asks for nothing. *)
Definition minimum_backed (relaxed : bool) (employees : list Employee.t)
  (flag : Employee.t → bool) (minimum : Z) : Prop :=
  existsb flag employees = true ∨ required_minimum relaxed minimum ≤ 0.

(** * Properties *)

(** Decides every integer comparison of the goal, one after another. *)
Ltac case_comparisons :=
  repeat match goal with
         | |- context [ ?a =? ?b ] => destruct (Z.eqb_spec a b)
         | |- context [ ?a <? ?b ] => destruct (Z.ltb_spec a b)
         | |- context [ ?a >? ?b ] =>
             rewrite (Z.gtb_ltb a b); destruct (Z.ltb_spec b a)
         end.

(** ** The embedding at work *)

Example monday_is_weekday_0 :
  weekday monday_2025_01_06 = 0 ∧ weekday tuesday_2025_01_07 = 1.
Proof. split; reflexivity. Qed.

Example legacy_cell_covers_the_week :
  always_available !! 7 = Some ["早"; "中"; "晚"]%string
  ∧ always_available !! 8 = None.
Proof. split; vm_compute; reflexivity. Qed.

Example template_begins :
  map (fun s => (Shift.date s, Shift.shift_time s))
      (take 4 (ORToolsScheduler.generate_month_template leaderless_scheduler))
  = [(739257, "早"); (739257, "中"); (739257, "晚"); (739258, "早")]%string.
Proof. reflexivity. Qed.

(** 21 headcount constraints, no minimum (all three pools are empty), 28
    daily caps and 56 bonus links. *)
Example leaderless_model_size :
  length (constraints (snd (ORToolsScheduler.build_model leaderless_scheduler)))
  = 105%nat
  ∧ length (variables (snd (ORToolsScheduler.build_model leaderless_scheduler)))
    = 112%nat.
Proof. split; vm_compute; reflexivity. Qed.

Example availability_with_time_off :
  constraints.validate_availability
    (Shift.mk monday_2025_01_06 "早" []) (part_timer "E1")
    [TimeOffRequest.mk "E1" monday_2025_01_06 "早"] = false
  ∧ constraints.validate_availability
      (Shift.mk monday_2025_01_06 "中" []) (part_timer "E1")
      [TimeOffRequest.mk "E1" monday_2025_01_06 "早"] = true.
Proof. split; vm_compute; reflexivity. Qed.

(** ** Schedule lookup *)

Lemma slot_test_spec target_date shift_time s :
  (Shift.date s =? target_date) && String.eqb (Shift.shift_time s) shift_time
  = true ↔ is_slot target_date shift_time s.
Proof.
  unfold is_slot.
  rewrite andb_true_iff, Z.eqb_eq, String.eqb_eq. reflexivity.
Qed.

Lemma get_shift_loop_spec l target_date shift_time :
  match Schedule.get_shift_loop l target_date shift_time with
  | Some shift =>
      ∃ before after,
        l = before ++ shift :: after
        ∧ is_slot target_date shift_time shift
        ∧ Forall (λ s, ¬ is_slot target_date shift_time s) before
  | None => Forall (λ s, ¬ is_slot target_date shift_time s) l
  end.
Proof.
  induction l as [|s l IH]; simpl.
  - constructor.
  - destruct ((Shift.date s =? target_date)
              && String.eqb (Shift.shift_time s) shift_time) eqn:Hs.
    + exists [], l. repeat split; try constructor.
      * apply slot_test_spec in Hs. apply Hs.
      * apply slot_test_spec in Hs. apply Hs.
    + assert (Hn : ¬ is_slot target_date shift_time s).
      { intros H. apply slot_test_spec in H. congruence. }
      destruct (Schedule.get_shift_loop l target_date shift_time) as [shift|].
      * destruct IH as (before & after & -> & Hm & Hb).
        exists (s :: before), after. repeat split; try apply Hm.
        constructor; assumption.
      * constructor; assumption.
Qed.

(** C9. [get_shift] returns the first shift of the schedule whose date and
    shift time both match: the schedule's list splits into shifts that do
    not match, the returned shift, and the rest. When no shift matches it
    returns [None]; it has no other way to end. *)
Theorem get_shift_first_match (self : Schedule.t) (target_date : date)
  (shift_time : string) :
  match Schedule.get_shift self target_date shift_time with
  | Some shift =>
      ∃ before after,
        Schedule.shifts self = before ++ shift :: after
        ∧ is_slot target_date shift_time shift
        ∧ Forall (λ s, ¬ is_slot target_date shift_time s) before
  | None =>
      Forall (λ s, ¬ is_slot target_date shift_time s) (Schedule.shifts self)
  end.
Proof. apply get_shift_loop_spec. Qed.

(** ** The requirements check *)

Lemma required_minimum_floor minimum :
  2 * required_minimum true minimum ≤ minimum
  < 2 * required_minimum true minimum + 2.
Proof.
  unfold required_minimum.
  pose proof (Z.div_mod minimum 2 ltac:(lia)).
  pose proof (Z.mod_pos_bound minimum 2 ltac:(lia)). lia.
Qed.

(** C6. The requirements check accepts a shift exactly when the number of
    its assigned employees is [num_people] and the number of leaders among
    them, the number of those who can inject, and the number of those who
    are a leader or can inject each reach the minimum of their category,
    the minimum being halved with floor division, category by category,
    when [relaxed] is set; a minimum of zero stays zero. *)
Theorem validate_shift_requirements_iff (shift : Shift.t)
  (requirement : ShiftRequirement.t) (relaxed : bool) :
  (constraints.validate_shift_requirements shift requirement relaxed = true ↔
   len (Shift.assigned_employees shift)
   = ShiftRequirement.num_people requirement
   ∧ required_minimum relaxed (ShiftRequirement.num_leaders requirement)
     ≤ len (List.filter Employee.is_leader (Shift.assigned_employees shift))
   ∧ required_minimum relaxed (ShiftRequirement.num_injectors requirement)
     ≤ len (List.filter Employee.can_inject (Shift.assigned_employees shift))
   ∧ required_minimum relaxed
       (ShiftRequirement.num_leader_or_injector requirement)
     ≤ len (List.filter
              (fun emp => Employee.is_leader emp || Employee.can_inject emp)
              (Shift.assigned_employees shift)))
  ∧ (∀ minimum,
       2 * required_minimum true minimum ≤ minimum
       < 2 * required_minimum true minimum + 2)
  ∧ required_minimum relaxed 0 = 0.
Proof.
  split; [|split].
  - unfold constraints.validate_shift_requirements, required_minimum,
      Shift.count_leaders, Shift.count_injectors,
      Shift.count_leader_or_injector.
    destruct relaxed; case_comparisons; simpl; split; intros;
      try discriminate; try lia.
  - apply required_minimum_floor.
  - destruct relaxed; reflexivity.
Qed.

(** ** Relaxation flags *)

(** C10. A call of [relax_constraints] sets the three flags to its three
    arguments, an argument left out counting as [False]; so after a second
    call a flag that call left out is [False], whatever the first call had
    set. *)
Theorem relax_constraints_overwrites (self : ORToolsScheduler.t)
  (requirements shifts days_off : option bool) :
  let self' :=
    ORToolsScheduler.relax_constraints self requirements shifts days_off in
  (ORToolsScheduler.relaxed_requirements self' = default false requirements
   ∧ ORToolsScheduler.relaxed_shifts self' = default false shifts
   ∧ ORToolsScheduler.relaxed_days_off self' = default false days_off)
  ∧ (∀ a b,
       ORToolsScheduler.relaxed_requirements
         (ORToolsScheduler.relax_constraints self' None a b) = false
       ∧ ORToolsScheduler.relaxed_shifts
           (ORToolsScheduler.relax_constraints self' a None b) = false
       ∧ ORToolsScheduler.relaxed_days_off
           (ORToolsScheduler.relax_constraints self' a b None) = false).
Proof. repeat split. Qed.

(** ** The template and the start date *)

Lemma flat_map_length_const {A B} (f : A → list B) (n : nat) (l : list A) :
  (∀ a, length (f a) = n) → length (flat_map f l) = (length l * n)%nat.
Proof.
  intros Hf. induction l as [|a l IH]; simpl; [reflexivity|].
  rewrite length_app, Hf, IH. reflexivity.
Qed.

Lemma flat_map_lookup_const {A B} (f : A → list B) (n : nat) (l : list A)
  (i j : nat) (x : A) :
  (∀ a, length (f a) = n) → l !! i = Some x → (j < n)%nat →
  flat_map f l !! (i * n + j)%nat = f x !! j.
Proof.
  intros Hf. revert i. induction l as [|a l IH]; intros i Hi Hj.
  - rewrite lookup_nil in Hi. discriminate.
  - destruct i as [|i]; simpl in *.
    + injection Hi as ->. apply lookup_app_l. rewrite Hf. exact Hj.
    + rewrite lookup_app_r by (rewrite Hf; lia).
      rewrite Hf. replace (n + i * n + j - n)%nat with (i * n + j)%nat by lia.
      apply IH; assumption.
Qed.

Lemma week_slots_length (start : date) (week : Z) :
  length (flat_map (fun day => day_slots (start + (7 * week + day)))
                   (seqZ 0 7)) = 21%nat.
Proof. reflexivity. Qed.

Lemma template_length (self : ORToolsScheduler.t) :
  length (ORToolsScheduler.generate_month_template self)
  = (Z.to_nat (ORToolsScheduler.num_weeks self) * 21)%nat.
Proof.
  unfold ORToolsScheduler.generate_month_template.
  rewrite (flat_map_length_const _ 21).
  - rewrite length_seqZ. reflexivity.
  - intros week. apply week_slots_length.
Qed.

Lemma template_lookup (self : ORToolsScheduler.t) (w d k : nat)
  (shift_time : string) :
  Z.of_nat w < ORToolsScheduler.num_weeks self → (d < 7)%nat →
  ORToolsScheduler.shift_times !! k = Some shift_time →
  ORToolsScheduler.generate_month_template self !! (w * 21 + (d * 3 + k))%nat
  = Some (Shift.mk (ORToolsScheduler.start_date self
                    + (7 * Z.of_nat w + Z.of_nat d)) shift_time []).
Proof.
  intros Hw Hd Hk.
  assert (Hk3 : (k < 3)%nat) by (apply lookup_lt_Some in Hk; exact Hk).
  unfold ORToolsScheduler.generate_month_template.
  rewrite (flat_map_lookup_const _ 21 _ w _ (Z.of_nat w)).
  - fold (day_slots).
    rewrite (flat_map_lookup_const
               (fun day => day_slots
                  (ORToolsScheduler.start_date self + (7 * Z.of_nat w + day)))
               3 _ d _ (Z.of_nat d)).
    + unfold day_slots. rewrite list_lookup_fmap, Hk. reflexivity.
    + intros a. reflexivity.
    + apply lookup_seqZ. lia.
    + exact Hk3.
  - intros week. apply week_slots_length.
  - apply lookup_seqZ. lia.
  - lia.
Qed.

(** ** The result of a solve *)

Lemma generate_schedules_unfold (rt : Runtime) (self : ORToolsScheduler.t) :
  ORToolsScheduler.generate_schedules rt self
  = Returned
      (if bool_decide (status (answer rt self) = OPTIMAL)
          || bool_decide (status (answer rt self) = FEASIBLE)
       then [ORToolsScheduler._parse_solution self (answer rt self)
               (ORToolsScheduler.generate_month_template self)
               (fst (ORToolsScheduler.build_model self))]
       else [],
       ORToolsScheduler.mkDiagnostics (float rt)
         (StatusName (status (answer rt self)))
         (float_sub rt (time_end rt) (time_start rt))
         (NumConflicts (answer rt self))
         (NumBranches (answer rt self))
         (WallTime (answer rt self))
         (ORToolsScheduler.relaxed_requirements self)
         (ORToolsScheduler.relaxed_shifts self)
         (ORToolsScheduler.relaxed_days_off self)
         (len (if bool_decide (status (answer rt self) = OPTIMAL)
                  || bool_decide (status (answer rt self) = FEASIBLE)
               then [ORToolsScheduler._parse_solution self (answer rt self)
                       (ORToolsScheduler.generate_month_template self)
                       (fst (ORToolsScheduler.build_model self))]
               else []))).
Proof.
  unfold ORToolsScheduler.generate_schedules, answer, parameters_of.
  destruct (ORToolsScheduler.build_model self) as [shift_vars m].
  reflexivity.
Qed.

(** C5. When the solver ends with [INFEASIBLE] or [UNKNOWN],
    [generate_schedules] returns the empty list of schedules, and
    diagnostics that carry the solver's status name, the elapsed time, the
    conflict and branch counts, the wall time, the three relaxation flags
    and a [valid_count] of 0. *)
Theorem generate_schedules_failure (rt : Runtime) (self : ORToolsScheduler.t) :
  status (answer rt self) = INFEASIBLE ∨ status (answer rt self) = UNKNOWN →
  ∃ diagnostics,
    ORToolsScheduler.generate_schedules rt self = Returned ([], diagnostics)
    ∧ ORToolsScheduler.solver_status diagnostics
      = StatusName (status (answer rt self))
    ∧ ORToolsScheduler.solve_time diagnostics
      = float_sub rt (time_end rt) (time_start rt)
    ∧ ORToolsScheduler.num_conflicts diagnostics = NumConflicts (answer rt self)
    ∧ ORToolsScheduler.num_branches diagnostics = NumBranches (answer rt self)
    ∧ ORToolsScheduler.wall_time diagnostics = WallTime (answer rt self)
    ∧ ORToolsScheduler.diag_relaxed_requirements diagnostics
      = ORToolsScheduler.relaxed_requirements self
    ∧ ORToolsScheduler.diag_relaxed_shifts diagnostics
      = ORToolsScheduler.relaxed_shifts self
    ∧ ORToolsScheduler.diag_relaxed_days_off diagnostics
      = ORToolsScheduler.relaxed_days_off self
    ∧ ORToolsScheduler.valid_count diagnostics = 0.
Proof.
  intros Hstatus. rewrite generate_schedules_unfold.
  assert (Hno : bool_decide (status (answer rt self) = OPTIMAL)
                || bool_decide (status (answer rt self) = FEASIBLE) = false).
  { destruct Hstatus as [-> | ->]; reflexivity. }
  rewrite Hno. eexists. split; [reflexivity|]. simpl. repeat split.
Qed.

Lemma generate_schedules_failure_witness :
  ∃ diagnostics,
    ORToolsScheduler.generate_schedules
      (fixed_answer INFEASIBLE (fun _ => 0)) ghostless_scheduler
    = Returned ([], diagnostics)
    ∧ ORToolsScheduler.solver_status diagnostics = "INFEASIBLE"%string
    ∧ ORToolsScheduler.valid_count diagnostics = 0.
Proof.
  destruct (generate_schedules_failure
              (fixed_answer INFEASIBLE (fun _ => 0)) ghostless_scheduler)
    as (diagnostics & Hret & Hstatus & _ & _ & _ & _ & _ & _ & _ & Hcount).
  - left. reflexivity.
  - exists diagnostics. repeat split; assumption.
Defined.

(** ** The table of decision variables *)

Lemma create_row (emp_idx : nat) (shifts : list Shift.t) (a : nat)
  (row : list IntVar) (m : CpModel) :
  fold_left
    (fun '(row, m) '(shift_idx, shift) =>
       let v := ShiftVar emp_idx shift_idx in (row ++ [v], NewBoolVar m v))
    (zip (seq a (length shifts)) shifts) (row, m)
  = (row ++ map (ShiftVar emp_idx) (seq a (length shifts)),
     mkModel (variables m ++ map (ShiftVar emp_idx) (seq a (length shifts)))
             (constraints m) (objective m)).
Proof.
  revert a row m. induction shifts as [|shift shifts IH]; intros a row m.
  - simpl. rewrite !app_nil_r. destruct m; reflexivity.
  - simpl. rewrite IH. simpl. rewrite <- !app_assoc. reflexivity.
Qed.

Lemma create_rows (shifts : list Shift.t) (employees : list Employee.t)
  (a : nat) (shift_vars : list (list IntVar)) (m : CpModel) :
  let rows :=
    map (fun emp_idx => map (ShiftVar emp_idx) (seq 0 (length shifts)))
        (seq a (length employees)) in
  fold_left
    (fun '(shift_vars, m) '(emp_idx, employee) =>
       let '(row, m) :=
         fold_left
           (fun '(row, m) '(shift_idx, shift) =>
              let v := ShiftVar emp_idx shift_idx in
              (row ++ [v], NewBoolVar m v))
           (enumerate shifts) ([], m) in
       (shift_vars ++ [row], m))
    (zip (seq a (length employees)) employees) (shift_vars, m)
  = (shift_vars ++ rows,
     mkModel (variables m ++ concat rows) (constraints m) (objective m)).
Proof.
  revert a shift_vars m.
  induction employees as [|employee employees IH]; intros a shift_vars m.
  - simpl. rewrite !app_nil_r. destruct m; reflexivity.
  - cbn [length seq zip_with fold_left].
    pose proof (create_row a shifts 0 [] m) as Hrow.
    change (zip (seq 0 (length shifts)) shifts) with (enumerate shifts) in Hrow.
    cbv zeta in *. rewrite Hrow, IH.
    cbn [variables constraints objective map concat app].
    rewrite <- !app_assoc. reflexivity.
Qed.

(** [_create_variables] registers one variable for every employee index
    and slot index, and the table it returns has, in row [emp_idx] and
    column [shift_idx], the variable of that name. *)
Lemma create_variables_spec (self : ORToolsScheduler.t)
  (shifts : list Shift.t) (m : CpModel) :
  let rows :=
    map (fun emp_idx => map (ShiftVar emp_idx) (seq 0 (length shifts)))
        (seq 0 (length (ORToolsScheduler.employees self))) in
  ORToolsScheduler._create_variables self shifts m
  = (rows, mkModel (variables m ++ concat rows) (constraints m) (objective m)).
Proof.
  exact (create_rows shifts (ORToolsScheduler.employees self) 0 [] m).
Qed.

Lemma var_at_created (self : ORToolsScheduler.t) (shifts : list Shift.t)
  (m : CpModel) (emp_idx shift_idx : nat) :
  (emp_idx < length (ORToolsScheduler.employees self))%nat →
  (shift_idx < length shifts)%nat →
  ORToolsScheduler.var_at
    (fst (ORToolsScheduler._create_variables self shifts m)) emp_idx shift_idx
  = ShiftVar emp_idx shift_idx.
Proof.
  intros Hemp Hshift. rewrite create_variables_spec. simpl fst.
  unfold ORToolsScheduler.var_at.
  change (map ?f ?l) with (f <$> l).
  rewrite (list_lookup_total_correct _ emp_idx
             (ShiftVar emp_idx <$> seq 0 (length shifts))).
  - apply list_lookup_total_correct.
    rewrite list_lookup_fmap, lookup_seq_lt by exact Hshift. reflexivity.
  - rewrite list_lookup_fmap, lookup_seq_lt by exact Hemp. reflexivity.
Qed.

(** ** The days of the template *)

Lemma dd_append_fresh {V} (k : Z) (v : V) (d : list (Z * list V)) :
  k ∉ d.*1 → dd_append k v d = d ++ [(k, [v])].
Proof.
  induction d as [|[k0 g0] d IH]; intros Hfresh; [reflexivity|].
  cbn [dd_append]. rewrite fmap_cons in Hfresh. cbn [fst] in Hfresh.
  apply not_elem_of_cons in Hfresh as [Hne Hfresh].
  destruct (Z.eqb_spec k0 k) as [?|_]; [congruence|].
  rewrite (IH Hfresh). reflexivity.
Qed.

Lemma dd_append_last {V} (k : Z) (v : V) (vs : list V)
  (d : list (Z * list V)) :
  k ∉ d.*1 → dd_append k v (d ++ [(k, vs)]) = d ++ [(k, vs ++ [v])].
Proof.
  induction d as [|[k0 g0] d IH]; intros Hfresh.
  - cbn [app dd_append]. rewrite Z.eqb_refl. reflexivity.
  - cbn [app dd_append]. rewrite fmap_cons in Hfresh. cbn [fst] in Hfresh.
    apply not_elem_of_cons in Hfresh as [Hne Hfresh].
    destruct (Z.eqb_spec k0 k) as [?|_]; [congruence|].
    rewrite (IH Hfresh). reflexivity.
Qed.

Lemma day_groups_fold (days : list date) (a : nat)
  (acc : list (date * list nat)) :
  NoDup days → (∀ d, d ∈ days → d ∉ acc.*1) →
  fold_left
    (fun acc '(shift_idx, shift) => dd_append (Shift.date shift) shift_idx acc)
    (zip (seq (3 * a) (length (flat_map day_slots days)))
         (flat_map day_slots days)) acc
  = acc ++ map (fun '(j, d) => (d, [3 * j; 3 * j + 1; 3 * j + 2]%nat))
               (zip (seq a (length days)) days).
Proof.
  revert a acc. induction days as [|d days IH]; intros a acc Hnodup Hfresh.
  - simpl. rewrite app_nil_r. reflexivity.
  - apply NoDup_cons in Hnodup as [Hd Hnodup].
    assert (Hfresh_d : d ∉ acc.*1) by (apply Hfresh; left).
    cbn [flat_map day_slots ORToolsScheduler.shift_times map app length seq
         zip_with fold_left Shift.date].
    rewrite (dd_append_fresh d _ acc Hfresh_d).
    rewrite (dd_append_last d _ _ acc Hfresh_d).
    rewrite (dd_append_last d _ _ acc Hfresh_d).
    cbn [app].
    replace (S (S (S (3 * a)))) with (3 * S a)%nat by lia.
    rewrite IH.
    + rewrite <- app_assoc. cbn [app].
      replace (S (3 * a)) with (3 * a + 1)%nat by lia.
      replace (S (3 * a + 1)) with (3 * a + 2)%nat by lia.
      reflexivity.
    + exact Hnodup.
    + intros d' Hd'. rewrite fmap_app. cbn [fmap list_fmap fst].
      intros Hin. apply elem_of_app in Hin as [Hin|Hin].
      * revert Hin. apply Hfresh. right. exact Hd'.
      * apply list_elem_of_singleton in Hin. congruence.
Qed.

Lemma week_days (start : date) (i : nat) :
  map (fun day => start + (7 * Z.of_nat i + day)) (seqZ 0 7)
  = (fun x => start + x) <$> seqZ (7 * Z.of_nat i) 7.
Proof. unfold seqZ. simpl. repeat (f_equal; try lia). Qed.

Lemma template_days (start : date) (n : nat) :
  flat_map (fun week => map (fun day => start + (7 * week + day)) (seqZ 0 7))
           (seqZ 0 (Z.of_nat n))
  = (fun x => start + x) <$> seqZ 0 (7 * Z.of_nat n).
Proof.
  induction n as [|n IH]; [reflexivity|].
  rewrite seqZ_S, flat_map_app, IH. cbn [flat_map]. rewrite app_nil_r.
  rewrite Z.add_0_l, week_days.
  replace (7 * Z.of_nat (S n)) with (7 * Z.of_nat n + 7) by lia.
  rewrite seqZ_app by lia. rewrite fmap_app, Z.add_0_l. reflexivity.
Qed.

Lemma template_by_days (self : ORToolsScheduler.t) :
  ORToolsScheduler.generate_month_template self
  = flat_map day_slots
      ((fun x => ORToolsScheduler.start_date self + x)
         <$> seqZ 0 (7 * Z.of_nat (Z.to_nat (ORToolsScheduler.num_weeks self)))).
Proof.
  unfold ORToolsScheduler.generate_month_template.
  rewrite <- template_days.
  replace (seqZ 0 (Z.of_nat (Z.to_nat (ORToolsScheduler.num_weeks self))))
    with (seqZ 0 (ORToolsScheduler.num_weeks self))
    by (unfold seqZ; rewrite Nat2Z.id; reflexivity).
  induction (seqZ 0 (ORToolsScheduler.num_weeks self)) as [|week weeks IH];
    [reflexivity|].
  cbn [flat_map]. rewrite flat_map_app, IH. reflexivity.
Qed.

Lemma enumerate_offsets (start : date) (n a : nat) :
  zip (seq a n) ((fun x => start + x) <$> seqZ (Z.of_nat a) (Z.of_nat n))
  = map (fun j : nat => (j, start + Z.of_nat j)) (seq a n).
Proof.
  revert a. induction n as [|n IH]; intros a; [reflexivity|].
  rewrite seqZ_cons by lia.
  replace (Z.succ (Z.of_nat a)) with (Z.of_nat (S a)) by lia.
  replace (Z.pred (Z.of_nat (S n))) with (Z.of_nat n) by lia.
  cbn [seq fmap list_fmap zip_with map]. rewrite <- IH. reflexivity.
Qed.

(** The template's slots by date: the [j]-th date of the window, [j] days
    after [start_date], holds the three slots [3 * j], [3 * j + 1] and
    [3 * j + 2], whatever the weekday [start_date] falls on. *)
Lemma template_shifts_by_date (self : ORToolsScheduler.t) :
  ORToolsScheduler.shifts_by_date
    (ORToolsScheduler.generate_month_template self)
  = map (fun j : nat =>
           (ORToolsScheduler.start_date self + Z.of_nat j,
            [3 * j; 3 * j + 1; 3 * j + 2]%nat))
        (seq 0 (7 * Z.to_nat (ORToolsScheduler.num_weeks self))).
Proof.
  unfold ORToolsScheduler.shifts_by_date, enumerate.
  rewrite template_by_days.
  replace (7 * Z.of_nat (Z.to_nat (ORToolsScheduler.num_weeks self)))
    with (Z.of_nat (7 * Z.to_nat (ORToolsScheduler.num_weeks self))) by lia.
  generalize (7 * Z.to_nat (ORToolsScheduler.num_weeks self))%nat as n.
  intros n.
  pose proof (day_groups_fold
                ((fun x => ORToolsScheduler.start_date self + x)
                   <$> seqZ 0 (Z.of_nat n)) 0 []) as Hfold.
  change (3 * 0)%nat with 0%nat in Hfold. rewrite Hfold.
  - cbn [app]. rewrite length_fmap, length_seqZ, Nat2Z.id.
    pose proof (enumerate_offsets (ORToolsScheduler.start_date self) n 0)
      as Hzip.
    change (Z.of_nat 0) with 0 in Hzip. rewrite Hzip, map_map. reflexivity.
  - apply NoDup_fmap_2; [|apply NoDup_seqZ]. intros x y Hxy. lia.
  - intros d _. apply not_elem_of_nil.
Qed.

(** Every date of the template has exactly three slots. *)
Lemma template_days_have_three_slots (self : ORToolsScheduler.t)
  (date_val : date) (shift_indices : list nat) :
  (date_val, shift_indices)
    ∈ ORToolsScheduler.shifts_by_date
        (ORToolsScheduler.generate_month_template self) →
  length shift_indices = 3%nat.
Proof.
  rewrite template_shifts_by_date. intros Hin.
  apply list_elem_of_In, in_map_iff in Hin as (j & Hj & _).
  injection Hj as _ <-. reflexivity.
Qed.

(** ** References to employees outside the roster *)

Lemma fold_left_ext_in {A B} (f g : A → B → A) (l : list B) (a : A) :
  (∀ a x, x ∈ l → f a x = g a x) → fold_left f l a = fold_left g l a.
Proof.
  revert a. induction l as [|x l IH]; intros a Hfg; simpl; [reflexivity|].
  rewrite Hfg by left. apply IH. intros a' y Hy. apply Hfg. right. exact Hy.
Qed.

Lemma fold_left_filter_skip {A B} (f : A → B → A) (q : B → bool)
  (l : list B) (a : A) :
  (∀ a x, q x = false → f a x = a) →
  fold_left f (List.filter q l) a = fold_left f l a.
Proof.
  intros Hskip. revert a. induction l as [|x l IH]; intros a; simpl;
    [reflexivity|].
  destruct (q x) eqn:Hq; simpl.
  - apply IH.
  - rewrite (Hskip a x Hq). apply IH.
Qed.

Lemma enumerate_elem_of {A} (l : list A) (i : nat) (x : A) :
  (i, x) ∈ enumerate l → x ∈ l.
Proof. unfold enumerate. intros H. eapply elem_of_zip_r. exact H. Qed.

Lemma in_roster_elem_of (employees : list Employee.t) (emp : Employee.t) :
  emp ∈ employees → in_roster employees (Employee.name emp) = true.
Proof.
  intros Hin. unfold in_roster. apply existsb_exists.
  exists emp. split; [apply list_elem_of_In; exact Hin | apply String.eqb_refl].
Qed.

Lemma existsb_filter_implied {A} (p q : A → bool) (l : list A) :
  (∀ x, p x = true → q x = true) →
  existsb p (List.filter q l) = existsb p l.
Proof.
  intros Hpq. induction l as [|x l IH]; simpl; [reflexivity|].
  destruct (q x) eqn:Hq; simpl.
  - rewrite IH. reflexivity.
  - destruct (p x) eqn:Hp; [|exact IH].
    rewrite (Hpq x Hp) in Hq. discriminate.
Qed.

Lemma validate_availability_known (employees : list Employee.t)
  (shift : Shift.t) (employee : Employee.t)
  (time_off_requests : list TimeOffRequest.t) :
  employee ∈ employees →
  constraints.validate_availability shift employee
    (List.filter (fun request =>
                    in_roster employees (TimeOffRequest.employee_name request))
                 time_off_requests)
  = constraints.validate_availability shift employee time_off_requests.
Proof.
  intros Hin. unfold constraints.validate_availability.
  rewrite existsb_filter_implied; [reflexivity|].
  intros request Hreq.
  apply andb_true_iff in Hreq as [Hreq _].
  apply andb_true_iff in Hreq as [Hname _].
  apply String.eqb_eq in Hname. rewrite Hname.
  apply in_roster_elem_of. exact Hin.
Qed.

Lemma find_employee_unknown (employees : list Employee.t) (name : string) :
  in_roster employees name = false →
  List.find (fun '(emp_idx, employee) =>
               String.eqb (Employee.name employee) name)
            (enumerate employees) = None.
Proof.
  intros Hout.
  destruct (List.find _ (enumerate employees)) as [[i emp]|] eqn:Hfind;
    [|reflexivity].
  apply find_some in Hfind as [Hin Hname].
  apply list_elem_of_In, enumerate_elem_of in Hin.
  assert (in_roster employees name = true).
  { unfold in_roster. apply existsb_exists. exists emp.
    split; [apply list_elem_of_In; exact Hin | exact Hname]. }
  congruence.
Qed.

Lemma availability_constraints_known (self : ORToolsScheduler.t)
  (shifts : list Shift.t) (shift_vars : list (list IntVar)) (m : CpModel) :
  ORToolsScheduler._add_availability_constraints
    (with_requests self (known_time_off self) (known_pre_assigned self))
    shifts shift_vars m
  = ORToolsScheduler._add_availability_constraints self shifts shift_vars m.
Proof.
  unfold ORToolsScheduler._add_availability_constraints. simpl.
  apply fold_left_ext_in. intros m' [emp_idx employee] Hin.
  apply enumerate_elem_of in Hin.
  apply fold_left_ext_in. intros m'' [shift_idx shift] _.
  unfold known_time_off. rewrite validate_availability_known by exact Hin.
  reflexivity.
Qed.

Lemma pre_assignment_constraints_known (self : ORToolsScheduler.t)
  (shifts : list Shift.t) (shift_vars : list (list IntVar)) (m : CpModel) :
  ORToolsScheduler._add_pre_assignment_constraints
    (with_requests self (known_time_off self) (known_pre_assigned self))
    shifts shift_vars m
  = ORToolsScheduler._add_pre_assignment_constraints self shifts shift_vars m.
Proof.
  unfold ORToolsScheduler._add_pre_assignment_constraints. simpl.
  unfold known_pre_assigned. apply fold_left_filter_skip.
  intros m' pre Hout. rewrite (find_employee_unknown _ _ Hout).
  destruct (List.find _ (enumerate shifts)) as [[shift_idx shift]|];
    reflexivity.
Qed.

Lemma build_model_known (self : ORToolsScheduler.t) :
  ORToolsScheduler.build_model
    (with_requests self (known_time_off self) (known_pre_assigned self))
  = ORToolsScheduler.build_model self.
Proof.
  unfold ORToolsScheduler.build_model, ORToolsScheduler._add_constraints.
  change (ORToolsScheduler.generate_month_template (with_requests self _ _))
    with (ORToolsScheduler.generate_month_template self).
  change (ORToolsScheduler._create_variables (with_requests self _ _))
    with (ORToolsScheduler._create_variables self).
  change (ORToolsScheduler.model (with_requests self _ _))
    with (ORToolsScheduler.model self).
  destruct (ORToolsScheduler._create_variables self _ _) as [shift_vars m].
  rewrite availability_constraints_known, pre_assignment_constraints_known.
  reflexivity.
Qed.

(** C3, as the code has it. No name is resolved ahead of the model and
    there is no [UnknownEmployeeReference] path: a time-off or
    pre-assignment record that names nobody in the roster matches no
    employee and posts nothing. The model built, and with it the whole
    result of [generate_schedules], is the one obtained with every such
    record removed from the input. *)
Theorem unknown_references_post_nothing (rt : Runtime)
  (self : ORToolsScheduler.t) :
  let self' :=
    with_requests self (known_time_off self) (known_pre_assigned self) in
  ORToolsScheduler.build_model self = ORToolsScheduler.build_model self'
  ∧ ORToolsScheduler.generate_schedules rt self
    = ORToolsScheduler.generate_schedules rt self'
  ∧ ORToolsScheduler.generate_schedules rt self
    ≠ Failed UnknownEmployeeReference.
Proof.
  intros self'. subst self'. split; [|split].
  - symmetry. apply build_model_known.
  - rewrite !generate_schedules_unfold. unfold answer.
    rewrite build_model_known. reflexivity.
  - rewrite generate_schedules_unfold. discriminate.
Qed.

(** C3 fails on the code: the two records that name ["Ghost"] raise no
    error; the model is the one built without them, whatever the runtime. *)
Lemma ghost_references_dropped :
  in_roster (ORToolsScheduler.employees ghost_scheduler) "Ghost" = false
  ∧ ORToolsScheduler.build_model ghost_scheduler
    = ORToolsScheduler.build_model ghostless_scheduler
  ∧ ∀ rt : Runtime,
      ORToolsScheduler.generate_schedules rt ghost_scheduler
      ≠ Failed UnknownEmployeeReference.
Proof.
  split; [|split].
  - vm_compute. reflexivity.
  - vm_compute. reflexivity.
  - intros rt. rewrite generate_schedules_unfold. discriminate.
Qed.

(** ** Capability minima over an empty pool *)

Lemma requirement_map_fmap (f : ShiftRequirement.t → ShiftRequirement.t)
  (requirements : list ShiftRequirement.t)
  (acc : gmap (Z * string) ShiftRequirement.t) :
  (∀ req, ShiftRequirement.day_of_week (f req)
          = ShiftRequirement.day_of_week req
          ∧ ShiftRequirement.shift_time (f req)
            = ShiftRequirement.shift_time req) →
  fold_left
    (fun acc req =>
       <[ (ShiftRequirement.day_of_week req,
           ShiftRequirement.shift_time req) := req ]> acc)
    (map f requirements) (f <$> acc)
  = f <$> fold_left
            (fun acc req =>
               <[ (ShiftRequirement.day_of_week req,
                   ShiftRequirement.shift_time req) := req ]> acc)
            requirements acc.
Proof.
  intros Hkey. revert acc.
  induction requirements as [|req requirements IH]; intros acc; simpl;
    [reflexivity|].
  destruct (Hkey req) as [-> ->]. rewrite <- fmap_insert. apply IH.
Qed.

Lemma init_with_requirements (f : ShiftRequirement.t → ShiftRequirement.t)
  employees requirements time_off_requests pre_assigned_shifts
  start_date num_weeks max_time_seconds :
  (∀ req, ShiftRequirement.day_of_week (f req)
          = ShiftRequirement.day_of_week req
          ∧ ShiftRequirement.shift_time (f req)
            = ShiftRequirement.shift_time req) →
  ORToolsScheduler.__init__ employees (map f requirements) time_off_requests
    pre_assigned_shifts start_date num_weeks max_time_seconds
  = with_requirements
      (ORToolsScheduler.__init__ employees requirements time_off_requests
         pre_assigned_shifts start_date num_weeks max_time_seconds) f.
Proof.
  intros Hkey. unfold ORToolsScheduler.__init__, with_requirements. simpl.
  f_equal. rewrite <- (requirement_map_fmap f requirements ∅ Hkey).
  rewrite fmap_empty. reflexivity.
Qed.

Lemma empty_pool (flag : Employee.t → bool) (employees : list Employee.t) :
  existsb flag employees = false →
  List.filter (fun '(i, emp) => flag emp) (enumerate employees) = [].
Proof.
  intros Hnone.
  destruct (List.filter _ (enumerate employees)) as [|[i emp] rest] eqn:Hf;
    [reflexivity|].
  assert (Hin : In (i, emp) (List.filter (fun '(i, emp) => flag emp)
                                         (enumerate employees))).
  { rewrite Hf. left. reflexivity. }
  apply filter_In in Hin as [Hin Hflag].
  apply list_elem_of_In, enumerate_elem_of in Hin.
  assert (existsb flag employees = true).
  { apply existsb_exists. exists emp.
    split; [apply list_elem_of_In; exact Hin | exact Hflag]. }
  congruence.
Qed.

Lemma add_minimum_empty_pool (flag : Employee.t → bool)
  (employees : list Employee.t) (shift_vars : list (list IntVar))
  (shift_idx : nat) (m : CpModel) (relaxed : bool) (minimum : Z) :
  ORToolsScheduler.add_minimum m
    (map (fun i => ORToolsScheduler.var_at shift_vars i shift_idx)
         (map fst (List.filter (fun '(i, emp) => flag emp)
                               (enumerate employees))))
    (if relaxed
     then (if existsb flag employees then minimum else 0) / 2
     else (if existsb flag employees then minimum else 0))
  = ORToolsScheduler.add_minimum m
      (map (fun i => ORToolsScheduler.var_at shift_vars i shift_idx)
           (map fst (List.filter (fun '(i, emp) => flag emp)
                                 (enumerate employees))))
      (if relaxed then minimum / 2 else minimum).
Proof.
  destruct (existsb flag employees) eqn:Hflag; [reflexivity|].
  rewrite (empty_pool flag employees Hflag). reflexivity.
Qed.

Lemma requirement_constraints_unbacked (self : ORToolsScheduler.t)
  (shifts : list Shift.t) (shift_vars : list (list IntVar)) (m : CpModel) :
  ORToolsScheduler._add_shift_requirement_constraints
    (with_requirements self
       (without_unbacked_minima (ORToolsScheduler.employees self)))
    shifts shift_vars m
  = ORToolsScheduler._add_shift_requirement_constraints
      self shifts shift_vars m.
Proof.
  unfold ORToolsScheduler._add_shift_requirement_constraints.
  apply fold_left_ext_in. intros m' [shift_idx shift] _.
  cbn [with_requirements ORToolsScheduler.requirement_map
       ORToolsScheduler.employees ORToolsScheduler.relaxed_requirements].
  rewrite lookup_fmap.
  destruct (ORToolsScheduler.requirement_map self !! _) as [requirement|];
    [|reflexivity].
  cbn [fmap option_fmap option_map without_unbacked_minima
       ShiftRequirement.num_people ShiftRequirement.num_leaders
       ShiftRequirement.num_injectors
       ShiftRequirement.num_leader_or_injector].
  rewrite (add_minimum_empty_pool Employee.is_leader).
  rewrite (add_minimum_empty_pool Employee.can_inject).
  rewrite (add_minimum_empty_pool
             (fun emp => Employee.is_leader emp || Employee.can_inject emp)).
  reflexivity.
Qed.

Lemma build_model_unbacked (self : ORToolsScheduler.t) :
  ORToolsScheduler.build_model
    (with_requirements self
       (without_unbacked_minima (ORToolsScheduler.employees self)))
  = ORToolsScheduler.build_model self.
Proof.
  unfold ORToolsScheduler.build_model, ORToolsScheduler._add_constraints.
  change (ORToolsScheduler.generate_month_template (with_requirements self _))
    with (ORToolsScheduler.generate_month_template self).
  change (ORToolsScheduler._create_variables (with_requirements self _))
    with (ORToolsScheduler._create_variables self).
  change (ORToolsScheduler.model (with_requirements self _))
    with (ORToolsScheduler.model self).
  destruct (ORToolsScheduler._create_variables self _ _) as [shift_vars m].
  change (ORToolsScheduler._add_availability_constraints
            (with_requirements self _))
    with (ORToolsScheduler._add_availability_constraints self).
  change (ORToolsScheduler._add_pre_assignment_constraints
            (with_requirements self _))
    with (ORToolsScheduler._add_pre_assignment_constraints self).
  rewrite requirement_constraints_unbacked. reflexivity.
Qed.

(** C1, as the code has it. A capability minimum is posted only when its
    pool of employees is not empty ([if leader_assigned:] and the two
    like it). With no employee carrying the flag nothing is posted for
    that minimum, at any slot, strict or relaxed: the model built is the
    model built with that minimum at zero, and its feasibility does not
    depend on the minimum. The same holds of a scheduler constructed from
    the requirements so rewritten. *)
Theorem minimum_over_empty_pool_not_posted (rt : Runtime)
  (self : ORToolsScheduler.t) :
  let self' :=
    with_requirements self
      (without_unbacked_minima (ORToolsScheduler.employees self)) in
  ORToolsScheduler.build_model self = ORToolsScheduler.build_model self'
  ∧ (feasible (snd (ORToolsScheduler.build_model self))
     ↔ feasible (snd (ORToolsScheduler.build_model self')))
  ∧ ORToolsScheduler.generate_schedules rt self
    = ORToolsScheduler.generate_schedules rt self'
  ∧ (∀ employees requirements time_off_requests pre_assigned_shifts
       start_date num_weeks max_time_seconds,
       ORToolsScheduler.__init__ employees
         (map (without_unbacked_minima employees) requirements)
         time_off_requests pre_assigned_shifts
         start_date num_weeks max_time_seconds
       = with_requirements
           (ORToolsScheduler.__init__ employees requirements
              time_off_requests pre_assigned_shifts
              start_date num_weeks max_time_seconds)
           (without_unbacked_minima employees)).
Proof.
  intros self'. subst self'. rewrite build_model_unbacked.
  split; [reflexivity|]. split; [reflexivity|]. split.
  - rewrite !generate_schedules_unfold. unfold answer.
    rewrite build_model_unbacked. reflexivity.
  - intros. apply init_with_requirements. intros req. split; reflexivity.
Qed.

(** C1 fails on the code: every requirement asks for a leader, the roster
    has none, the scheduler is strict, and yet the model built has a
    solution; a sound search cannot answer [INFEASIBLE]. *)
Lemma leaderless_model_feasible :
  existsb Employee.is_leader (ORToolsScheduler.employees leaderless_scheduler)
  = false
  ∧ forallb (fun req => 0 <? ShiftRequirement.num_leaders req)
            (ORToolsScheduler.requirements leaderless_scheduler) = true
  ∧ ORToolsScheduler.relaxed_requirements leaderless_scheduler = false
  ∧ satisfies first_two_everywhere
              (snd (ORToolsScheduler.build_model leaderless_scheduler)) = true
  ∧ ∀ rt : Runtime,
      sound rt → status (answer rt leaderless_scheduler) ≠ INFEASIBLE.
Proof.
  assert (Hsat : satisfies first_two_everywhere
                   (snd (ORToolsScheduler.build_model leaderless_scheduler))
                 = true) by (vm_compute; reflexivity).
  repeat split; try (vm_compute; reflexivity); try exact Hsat.
  intros rt Hsound Hstatus.
  destruct (Hsound (parameters_of leaderless_scheduler)
                   (snd (ORToolsScheduler.build_model leaderless_scheduler)))
    as [Hinf _].
  apply Hinf; [exact Hstatus|]. exists first_two_everywhere. exact Hsat.
Qed.

(** ** The objective *)

Lemma extend_nil (m : CpModel) : extend m [] [] = m.
Proof. destruct m. unfold extend. simpl. rewrite !app_nil_r. reflexivity. Qed.

Lemma extend_extend (m : CpModel) vars cs vars' cs' :
  extend (extend m vars cs) vars' cs' = extend m (vars ++ vars') (cs ++ cs').
Proof. unfold extend. simpl. rewrite !app_assoc. reflexivity. Qed.

Lemma eval_py_sum_from (σ : IntVar → Z) (vars : list IntVar)
  (acc : LinearExpr) :
  eval σ (fold_left (fun acc v => Plus acc (Var v)) vars acc)
  = eval σ acc + total σ vars.
Proof.
  revert acc. induction vars as [|v vars IH]; intros acc; simpl.
  - lia.
  - rewrite IH. simpl. lia.
Qed.

Lemma eval_py_sum (σ : IntVar → Z) (vars : list IntVar) :
  eval σ (py_sum vars) = total σ vars.
Proof. unfold py_sum. rewrite eval_py_sum_from. simpl. lia. Qed.

Lemma total_counts_ones (σ : IntVar → Z) (vars : list IntVar) :
  Forall (fun v => is_bool (σ v) = true) vars →
  total σ vars = len (List.filter (fun v => σ v =? 1) vars).
Proof.
  unfold len. induction 1 as [|v vars Hv _ IH]; simpl; [reflexivity|].
  rewrite IH. unfold is_bool in Hv.
  apply orb_true_iff in Hv as [Hv | Hv]; apply Z.eqb_eq in Hv; rewrite Hv;
    simpl; lia.
Qed.

Lemma add_bonus_fold (shift_vars : list (list IntVar)) (emp_idx : nat)
  (groups : list (date * list nat)) (bonus_vars : list IntVar) (m : CpModel) :
  let kept :=
    List.filter (fun '(date_val, shift_indices) =>
                   negb (len shift_indices <? 2)) groups in
  let created := map (fun group => BonusVar emp_idx (fst group)) kept in
  fold_left (ORToolsScheduler.add_bonus shift_vars emp_idx) groups
            (bonus_vars, m)
  = (bonus_vars ++ created,
     extend m created (flat_map (bonus_links shift_vars emp_idx) kept)).
Proof.
  revert bonus_vars m.
  induction groups as [|[date_val shift_indices] groups IH];
    intros bonus_vars m; simpl.
  - rewrite app_nil_r, extend_nil. reflexivity.
  - destruct (len shift_indices <? 2) eqn:Hlen; simpl.
    + apply IH.
    + rewrite IH. simpl. rewrite <- app_assoc. simpl.
      f_equal. unfold extend, NewBoolVar, Add. simpl.
      rewrite <- !app_assoc. reflexivity.
Qed.

Lemma add_bonuses_from (shift_vars : list (list IntVar))
  (groups : list (date * list nat)) (emp_indices : list nat)
  (bonus_vars : list IntVar) (m : CpModel) :
  let kept :=
    List.filter (fun '(date_val, shift_indices) =>
                   negb (len shift_indices <? 2)) groups in
  let created :=
    flat_map (fun emp_idx => map (fun group => BonusVar emp_idx (fst group))
                                 kept) emp_indices in
  fold_left
    (fun st emp_idx =>
       fold_left (ORToolsScheduler.add_bonus shift_vars emp_idx) groups st)
    emp_indices (bonus_vars, m)
  = (bonus_vars ++ created,
     extend m created
       (flat_map (fun emp_idx => flat_map (bonus_links shift_vars emp_idx) kept)
                 emp_indices)).
Proof.
  revert bonus_vars m.
  induction emp_indices as [|emp_idx emp_indices IH]; intros bonus_vars m;
    simpl.
  - rewrite app_nil_r, extend_nil. reflexivity.
  - rewrite add_bonus_fold. simpl. rewrite IH. simpl.
    rewrite extend_extend, <- app_assoc. reflexivity.
Qed.

(** What the loops of [_add_objective] leave behind: one bonus variable
    for every employee index and every date with two slots or more, and
    the two linking constraints of each. *)
Lemma add_bonuses_spec (self : ORToolsScheduler.t) (shifts : list Shift.t)
  (shift_vars : list (list IntVar)) (m : CpModel) :
  let emp_indices := seq 0 (length (ORToolsScheduler.employees self)) in
  let created :=
    flat_map (fun emp_idx => map (fun group => BonusVar emp_idx (fst group))
                                 (bonus_dates shifts)) emp_indices in
  ORToolsScheduler.add_bonuses self shifts shift_vars m
  = (created,
     extend m created
       (flat_map (fun emp_idx =>
                    flat_map (bonus_links shift_vars emp_idx)
                             (bonus_dates shifts))
                 emp_indices)).
Proof.
  unfold ORToolsScheduler.add_bonuses. simpl.
  rewrite add_bonuses_from. reflexivity.
Qed.

Lemma add_objective_constraints (self : ORToolsScheduler.t)
  (shifts : list Shift.t) (shift_vars : list (list IntVar)) (m : CpModel) :
  constraints (ORToolsScheduler._add_objective self shifts shift_vars m)
  = constraints m
    ++ flat_map (fun emp_idx =>
                   flat_map (bonus_links shift_vars emp_idx)
                            (bonus_dates shifts))
                (seq 0 (length (ORToolsScheduler.employees self))).
Proof.
  unfold ORToolsScheduler._add_objective. rewrite add_bonuses_spec.
  destruct (flat_map _ (seq 0 _)) as [|b bs]; reflexivity.
Qed.

Lemma add_objective_value (self : ORToolsScheduler.t)
  (shifts : list Shift.t) (shift_vars : list (list IntVar)) (m : CpModel)
  (σ : IntVar → Z) :
  objective m = None →
  objective_value σ (ORToolsScheduler._add_objective self shifts shift_vars m)
  = 10 * total σ (fst (ORToolsScheduler.add_bonuses self shifts shift_vars m)).
Proof.
  intros Hnone. unfold ORToolsScheduler._add_objective.
  rewrite add_bonuses_spec. simpl fst.
  destruct (flat_map _ (seq 0 _)) as [|b bs] eqn:Hcreated.
  - unfold objective_value, extend. simpl. rewrite Hnone. reflexivity.
  - unfold objective_value, Maximize. simpl objective. cbv beta iota.
    simpl eval. rewrite eval_py_sum. reflexivity.
Qed.

Lemma bonus_group_posted (self : ORToolsScheduler.t) (shifts : list Shift.t)
  (shift_vars : list (list IntVar)) (m : CpModel) (emp_idx : nat)
  (date_val : date) (shift_indices : list nat) (c : Constraint) :
  (emp_idx < length (ORToolsScheduler.employees self))%nat →
  (date_val, shift_indices) ∈ ORToolsScheduler.shifts_by_date shifts →
  2 ≤ len shift_indices →
  c ∈ bonus_links shift_vars emp_idx (date_val, shift_indices) →
  BonusVar emp_idx date_val
    ∈ fst (ORToolsScheduler.add_bonuses self shifts shift_vars m)
  ∧ c ∈ constraints
          (ORToolsScheduler._add_objective self shifts shift_vars m).
Proof.
  intros Hemp Hgroup Hlen Hc.
  assert (Hkept : In (date_val, shift_indices) (bonus_dates shifts)).
  { unfold bonus_dates. apply filter_In. split.
    - apply list_elem_of_In. exact Hgroup.
    - apply negb_true_iff, Z.ltb_ge. exact Hlen. }
  assert (Hidx : In emp_idx (seq 0 (length (ORToolsScheduler.employees self)))).
  { apply in_seq. lia. }
  split.
  - rewrite add_bonuses_spec. simpl fst. apply list_elem_of_In, in_flat_map.
    exists emp_idx. split; [exact Hidx|].
    apply in_map_iff. exists (date_val, shift_indices). split; [reflexivity|].
    exact Hkept.
  - rewrite add_objective_constraints. apply elem_of_app. right.
    apply list_elem_of_In, in_flat_map. exists emp_idx. split; [exact Hidx|].
    apply in_flat_map. exists (date_val, shift_indices).
    split; [exact Hkept | apply list_elem_of_In; exact Hc].
Qed.

Lemma bonus_forces_two (σ : IntVar → Z) (daily_shifts : list IntVar)
  (n : Z) (bonus_var : IntVar) :
  holds σ (Linear (ORToolsScheduler.bonus_at_least daily_shifts bonus_var))
  = true →
  holds σ (Linear (ORToolsScheduler.bonus_at_most daily_shifts n bonus_var))
  = true →
  σ bonus_var = 1 →
  eval σ (py_sum daily_shifts) = 2.
Proof.
  unfold ORToolsScheduler.bonus_at_least, ORToolsScheduler.bonus_at_most.
  simpl. intros Hlow Hhigh Hb. rewrite Hb in *.
  apply Z.geb_le in Hlow. apply Z.leb_le in Hhigh. lia.
Qed.

(** C7. Starting from a model without objective, [_add_objective] posts,
    for every employee index and every date with three slots, the two
    linking constraints on that date's bonus variable. Any assignment of
    0/1 values to the day's decision variables that satisfies these two
    constraints with the bonus at 1 has a daily sum of exactly 2, so a day
    with a sum of 3 has no bonus; and at any assignment that gives the
    bonus variables 0/1 values, the objective is 10 times the number of
    bonus variables at 1. *)
Theorem bonus_only_for_two_shift_days (self : ORToolsScheduler.t)
  (shifts : list Shift.t) (shift_vars : list (list IntVar)) (m : CpModel) :
  objective m = None →
  let m' := ORToolsScheduler._add_objective self shifts shift_vars m in
  let bonus_vars :=
    fst (ORToolsScheduler.add_bonuses self shifts shift_vars m) in
  (∀ (emp_idx : nat) (date_val : date) (shift_indices : list nat),
     (emp_idx < length (ORToolsScheduler.employees self))%nat →
     (date_val, shift_indices) ∈ ORToolsScheduler.shifts_by_date shifts →
     length shift_indices = 3%nat →
     let daily_shifts :=
       map (fun s_idx => ORToolsScheduler.var_at shift_vars emp_idx s_idx)
           shift_indices in
     let bonus_var := BonusVar emp_idx date_val in
     let at_least :=
       Linear (ORToolsScheduler.bonus_at_least daily_shifts bonus_var) in
     let at_most :=
       Linear (ORToolsScheduler.bonus_at_most daily_shifts 3 bonus_var) in
     bonus_var ∈ bonus_vars
     ∧ at_least ∈ constraints m'
     ∧ at_most ∈ constraints m'
     ∧ ∀ σ : IntVar → Z,
         Forall (fun v => is_bool (σ v) = true) daily_shifts →
         holds σ at_least = true → holds σ at_most = true →
         (σ bonus_var = 1 → eval σ (py_sum daily_shifts) = 2)
         ∧ (eval σ (py_sum daily_shifts) = 3 → σ bonus_var ≠ 1))
  ∧ (∀ σ : IntVar → Z,
       Forall (fun b => is_bool (σ b) = true) bonus_vars →
       objective_value σ m'
       = 10 * len (List.filter (fun b => σ b =? 1) bonus_vars)).
Proof.
  intros Hnone m' bonus_vars. split.
  - intros emp_idx date_val shift_indices Hemp Hgroup Hlen
           daily_shifts bonus_var at_least at_most.
    assert (Hlen' : len shift_indices = 3) by (unfold len; lia).
    assert (Hposted : ∀ c,
               c ∈ bonus_links shift_vars emp_idx (date_val, shift_indices) →
               bonus_var ∈ bonus_vars ∧ c ∈ constraints m').
    { intros c Hc.
      apply (bonus_group_posted self shifts shift_vars m emp_idx date_val
               shift_indices c Hemp Hgroup); [lia | exact Hc]. }
    assert (Hlinks : bonus_links shift_vars emp_idx (date_val, shift_indices)
                     = [at_least; at_most]).
    { unfold bonus_links. simpl fst. simpl snd. rewrite Hlen'. reflexivity. }
    rewrite Hlinks in Hposted.
    split; [apply (Hposted at_least); left|].
    split; [apply (Hposted at_least); left|].
    split; [apply (Hposted at_most); right; left|].
    intros σ _ Hlow Hhigh.
    assert (Htwo : σ bonus_var = 1 → eval σ (py_sum daily_shifts) = 2).
    { intros Hb.
      exact (bonus_forces_two σ daily_shifts 3 bonus_var Hlow Hhigh Hb). }
    split; [exact Htwo|]. intros Hthree Hb. specialize (Htwo Hb). lia.
  - intros σ Hbool. subst m' bonus_vars.
    rewrite add_objective_value by exact Hnone.
    rewrite total_counts_ones by exact Hbool. reflexivity.
Qed.

Lemma build_model_unfold (self : ORToolsScheduler.t) :
  ORToolsScheduler.build_model self
  = (fst (ORToolsScheduler._create_variables self
            (ORToolsScheduler.generate_month_template self)
            (ORToolsScheduler.model self)),
     ORToolsScheduler._add_objective self
       (ORToolsScheduler.generate_month_template self)
       (fst (ORToolsScheduler._create_variables self
               (ORToolsScheduler.generate_month_template self)
               (ORToolsScheduler.model self)))
       (ORToolsScheduler._add_constraints self
          (ORToolsScheduler.generate_month_template self)
          (fst (ORToolsScheduler._create_variables self
                  (ORToolsScheduler.generate_month_template self)
                  (ORToolsScheduler.model self)))
          (snd (ORToolsScheduler._create_variables self
                  (ORToolsScheduler.generate_month_template self)
                  (ORToolsScheduler.model self))))).
Proof.
  unfold ORToolsScheduler.build_model.
  destruct (ORToolsScheduler._create_variables self _ _) as [shift_vars m].
  reflexivity.
Qed.

(** In the model [generate_schedules] builds, every employee has, for the
    [j]-th date of the window, the two linking constraints over that
    date's three decision variables. *)
Lemma built_model_links_every_day (self : ORToolsScheduler.t)
  (emp_idx j : nat) :
  (emp_idx < length (ORToolsScheduler.employees self))%nat →
  (j < 7 * Z.to_nat (ORToolsScheduler.num_weeks self))%nat →
  let date_val := ORToolsScheduler.start_date self + Z.of_nat j in
  let daily_shifts :=
    [ShiftVar emp_idx (3 * j); ShiftVar emp_idx (3 * j + 1);
     ShiftVar emp_idx (3 * j + 2)] in
  Linear (ORToolsScheduler.bonus_at_least daily_shifts
            (BonusVar emp_idx date_val))
    ∈ constraints (snd (ORToolsScheduler.build_model self))
  ∧ Linear (ORToolsScheduler.bonus_at_most daily_shifts 3
              (BonusVar emp_idx date_val))
      ∈ constraints (snd (ORToolsScheduler.build_model self)).
Proof.
  intros Hemp Hj date_val daily_shifts.
  rewrite build_model_unfold. cbn [snd].
  set (shifts := ORToolsScheduler.generate_month_template self).
  set (shift_vars := fst (ORToolsScheduler._create_variables self shifts _)).
  assert (Hgroup : (date_val, [3 * j; 3 * j + 1; 3 * j + 2]%nat)
                     ∈ ORToolsScheduler.shifts_by_date shifts).
  { subst shifts. rewrite template_shifts_by_date.
    apply list_elem_of_In, in_map_iff. exists j.
    split; [reflexivity | apply in_seq; lia]. }
  assert (Hlen : (3 * j + 2 < length shifts)%nat).
  { subst shifts. rewrite template_length. lia. }
  assert (Hlinks : bonus_links shift_vars emp_idx
                     (date_val, [3 * j; 3 * j + 1; 3 * j + 2]%nat)
                   = [Linear (ORToolsScheduler.bonus_at_least daily_shifts
                                (BonusVar emp_idx date_val));
                      Linear (ORToolsScheduler.bonus_at_most daily_shifts 3
                                (BonusVar emp_idx date_val))]).
  { unfold bonus_links. cbn [fst snd map]. subst shift_vars.
    rewrite !var_at_created by (try exact Hemp; lia). reflexivity. }
  split.
  - eapply bonus_group_posted; [exact Hemp | exact Hgroup | unfold len; simpl length; lia |].
    rewrite Hlinks. left.
  - eapply bonus_group_posted; [exact Hemp | exact Hgroup | unfold len; simpl length; lia |].
    rewrite Hlinks. right. left.
Qed.

Lemma first_two_everywhere_bool (v : IntVar) :
  is_bool (first_two_everywhere v) = true.
Proof. destruct v; simpl; [destruct (_ <? _)%nat|..]; reflexivity. Qed.

Lemma bonus_only_for_two_shift_days_witness :
  BonusVar 0 monday_2025_01_06
    ∈ fst (ORToolsScheduler.add_bonuses leaderless_scheduler
             (ORToolsScheduler.generate_month_template leaderless_scheduler)
             (fst (ORToolsScheduler.build_model leaderless_scheduler)) empty)
  ∧ objective_value first_two_everywhere
      (ORToolsScheduler._add_objective leaderless_scheduler
         (ORToolsScheduler.generate_month_template leaderless_scheduler)
         (fst (ORToolsScheduler.build_model leaderless_scheduler)) empty)
    = 0.
Proof.
  destruct (bonus_only_for_two_shift_days leaderless_scheduler
              (ORToolsScheduler.generate_month_template leaderless_scheduler)
              (fst (ORToolsScheduler.build_model leaderless_scheduler))
              empty eq_refl) as [Hday Hobjective].
  split.
  - apply (Hday 0%nat monday_2025_01_06 [0; 1; 2]%nat).
    + vm_compute. lia.
    + vm_compute. left.
    + reflexivity.
  - rewrite Hobjective.
    + vm_compute. reflexivity.
    + apply Forall_forall. intros b _. apply first_two_everywhere_bool.
Defined.

(** ** The availability cell *)

Section Availability.

Variable py_strip : string → string.
Variable py_int : string → option Z.

Lemma split_once_none (c : ascii) (s : string) :
  SheetsManager.contains c s = false →
  SheetsManager.split_once c s = None.
Proof.
  induction s as [|x s IH]; simpl; [reflexivity|].
  destruct (Ascii.eqb x c); simpl; [discriminate|].
  intros Hs. rewrite (IH Hs). reflexivity.
Qed.

Lemma add_day_entry_lookup (acc : gmap Z (list string)) (entry : string)
  (day : Z) :
  SheetsManager.add_day_entry py_strip py_int acc entry !! day
  = if bool_decide (entry_day py_strip py_int entry = Some day)
    then Some (entry_labels py_strip entry)
    else acc !! day.
Proof.
  unfold SheetsManager.add_day_entry, entry_day, entry_labels.
  destruct (SheetsManager.contains ":"%char entry) eqn:Hcolon; simpl.
  - destruct (SheetsManager.split_once ":"%char entry)
      as [[day_str shifts_str]|]; [|reflexivity].
    destruct (py_int (py_strip day_str)) as [day_num|]; [|reflexivity].
    case_bool_decide as Hday.
    + injection Hday as ->. apply lookup_insert_eq.
    + apply lookup_insert_ne. congruence.
  - rewrite (split_once_none _ _ Hcolon). reflexivity.
Qed.

Lemma find_snoc {A} (p : A → bool) (l : list A) (x : A) :
  List.find p (l ++ [x])
  = match List.find p l with
    | Some y => Some y
    | None => if p x then Some x else None
    end.
Proof.
  induction l as [|y l IH]; simpl; [reflexivity|].
  destruct (p y); [reflexivity | exact IH].
Qed.

Lemma day_entries_lookup (entries : list string)
  (acc : gmap Z (list string)) (day : Z) :
  fold_left (SheetsManager.add_day_entry py_strip py_int) entries acc !! day
  = match List.find (fun entry => bool_decide (entry_day py_strip py_int entry = Some day))
                    (rev entries) with
    | Some entry => Some (entry_labels py_strip entry)
    | None => acc !! day
    end.
Proof.
  revert acc. induction entries as [|entry entries IH]; intros acc; simpl;
    [reflexivity|].
  rewrite IH, find_snoc.
  destruct (List.find _ (rev entries)); [reflexivity|].
  rewrite add_day_entry_lookup.
  destruct (bool_decide (entry_day py_strip py_int entry = Some day)); reflexivity.
Qed.

Lemma every_day_lookup (shifts : list string) (days : list Z)
  (acc : gmap Z (list string)) (day : Z) :
  fold_left (fun available_shifts d => <[ d := shifts ]> available_shifts)
            days acc !! day
  = if bool_decide (day ∈ days) then Some shifts else acc !! day.
Proof.
  revert acc. induction days as [|d days IH]; intros acc; simpl.
  - reflexivity.
  - rewrite IH. destruct (decide (day = d)) as [->|Hne].
    + rewrite lookup_insert_eq.
      rewrite (bool_decide_eq_true_2 (d ∈ d :: days)) by left.
      destruct (bool_decide (d ∈ days)); reflexivity.
    + rewrite lookup_insert_ne by congruence.
      destruct (decide (day ∈ days)) as [Hin|Hout].
      * rewrite !bool_decide_eq_true_2; [reflexivity | right; exact Hin | exact Hin].
      * rewrite !bool_decide_eq_false_2; [reflexivity | | exact Hout].
        intros Hin. apply elem_of_cons in Hin as [?|?]; congruence.
Qed.

(** C8, as the code has it. In the per-day form (a colon in the cell) an
    entry without a colon, or whose weekday token [int] rejects, changes
    nothing; each weekday is given the labels of the last entry that names
    it, all of them, stripped and otherwise as written: no label is
    tested against the three shift times and none is discarded. In the
    legacy form (no colon) the weekdays 1 to 7, and no others, all get the
    same list of the cell's stripped labels. *)
Theorem parse_available_shifts_spec (cell : string) :
  let availability_str := py_strip cell in
  let parsed := SheetsManager.parse_available_shifts py_strip py_int cell in
  (∀ acc entry,
     entry_day py_strip py_int entry = None →
     SheetsManager.add_day_entry py_strip py_int acc entry = acc)
  ∧ (SheetsManager.contains ":"%char availability_str = true →
     ∀ day,
       parsed !! day
       = match List.find
                 (fun entry => bool_decide (entry_day py_strip py_int entry = Some day))
                 (rev (SheetsManager.split ";"%char availability_str)) with
         | Some entry => Some (entry_labels py_strip entry)
         | None => None
         end)
  ∧ (SheetsManager.contains ":"%char availability_str = false →
     ∀ day,
       parsed !! day
       = if bool_decide (1 ≤ day ≤ 7)
         then Some (map py_strip
                        (SheetsManager.split ","%char availability_str))
         else None).
Proof.
  intros availability_str parsed. split; [|split].
  - intros acc entry Hnone. apply map_eq. intros day.
    rewrite add_day_entry_lookup, Hnone.
    rewrite bool_decide_eq_false_2 by discriminate. reflexivity.
  - intros Hcolon day. subst parsed.
    unfold SheetsManager.parse_available_shifts.
    fold availability_str. rewrite Hcolon.
    rewrite day_entries_lookup, lookup_empty. reflexivity.
  - intros Hcolon day. subst parsed.
    unfold SheetsManager.parse_available_shifts.
    fold availability_str. rewrite Hcolon.
    rewrite every_day_lookup, lookup_empty.
    destruct (decide (1 ≤ day ≤ 7)) as [Hin|Hout].
    + rewrite !bool_decide_eq_true_2; [reflexivity | exact Hin |].
      apply elem_of_seqZ. lia.
    + rewrite !bool_decide_eq_false_2; [reflexivity | exact Hout |].
      intros Hin. apply elem_of_seqZ in Hin. lia.
Qed.

End Availability.

(** C8 fails on the code: the label ["X"] is none of the three shift
    times, the weekday token ["x"] is no integer. The entry of ["x"] is
    passed over, but ["X"] stays in Monday's list. *)
Lemma unknown_label_kept :
  map_to_list
    (SheetsManager.parse_available_shifts
       SheetsManager.ascii_strip SheetsManager.ascii_int "1:早,X;x:中")
  = [(1, ["早"; "X"]%string)]
  ∧ ("X"%string ∉ ORToolsScheduler.shift_times).
Proof.
  split.
  - vm_compute. reflexivity.
  - intros Hin. repeat (apply elem_of_cons in Hin as [Hin|Hin];
                        [discriminate|]).
    apply elem_of_nil in Hin. exact Hin.
Qed.

(** ** The full-time weekly check *)

Section Grouping.

Context {V : Type} (key : V → Z).

Lemma dd_append_keys (k : Z) (v : V) (d : list (Z * list V)) :
  (k ∈ d.*1 ∧ (dd_append k v d).*1 = d.*1)
  ∨ ((k ∉ d.*1) ∧ (dd_append k v d).*1 = d.*1 ++ [k]).
Proof.
  induction d as [|[k0 g0] d IH].
  - right. split; [apply not_elem_of_nil | reflexivity].
  - cbn [dd_append]. destruct (Z.eqb_spec k0 k) as [->|Hne];
      rewrite !fmap_cons; cbn [fst].
    + left. split; [left | reflexivity].
    + destruct IH as [[Hin Hkeys]|[Hout Hkeys]]; rewrite Hkeys.
      * left. split; [right; exact Hin | reflexivity].
      * right. split; [|reflexivity].
        intros Hin. apply elem_of_cons in Hin as [?|?]; congruence.
Qed.

Lemma dd_append_elem (k : Z) (v : V) (d : list (Z * list V)) (k' : Z)
  (g' : list V) :
  NoDup (d.*1) → (k', g') ∈ dd_append k v d →
  (k' ≠ k ∧ (k', g') ∈ d)
  ∨ (k' = k
     ∧ ∃ g, g' = g ++ [v] ∧ ((k, g) ∈ d ∨ (g = [] ∧ (k ∉ d.*1)))).
Proof.
  induction d as [|[k0 g0] d IH]; simpl; intros Hnodup Hin.
  - apply list_elem_of_singleton in Hin. injection Hin as -> ->.
    right. split; [reflexivity|]. exists []. split; [reflexivity|].
    right. split; [reflexivity | apply not_elem_of_nil].
  - apply NoDup_cons in Hnodup as [Hfresh Hnodup].
    destruct (Z.eqb_spec k0 k) as [->|Hne].
    + apply elem_of_cons in Hin as [Hin|Hin].
      * injection Hin as -> ->. right. split; [reflexivity|].
        exists g0. split; [reflexivity|]. left. left.
      * left. split; [|right; exact Hin].
        intros ->. apply Hfresh.
        apply (list_elem_of_fmap_2 fst) in Hin. exact Hin.
    + apply elem_of_cons in Hin as [Hin|Hin].
      * injection Hin as -> ->. left. split; [exact Hne | left].
      * destruct (IH Hnodup Hin) as [[Hk Hold]|[-> (g & -> & Hcase)]].
        -- left. split; [exact Hk | right; exact Hold].
        -- right. split; [reflexivity|]. exists g. split; [reflexivity|].
           destruct Hcase as [Hold|[-> Hout]].
           ++ left. right. exact Hold.
           ++ right. split; [reflexivity|]. intros Hin'.
              apply elem_of_cons in Hin' as [?|?]; [congruence | tauto].
Qed.

Lemma members_snoc (k : Z) (l : list V) (v : V) :
  members key k (l ++ [v])
  = members key k l ++ (if key v =? k then [v] else []).
Proof. unfold members. rewrite List.filter_app. reflexivity. Qed.

Lemma members_elem (k : Z) (l : list V) (v : V) :
  v ∈ members key k l ↔ v ∈ l ∧ key v = k.
Proof.
  unfold members. rewrite !list_elem_of_In, filter_In, Z.eqb_eq. reflexivity.
Qed.

Lemma grouping_step (l : list V) (d : list (Z * list V)) (v : V) :
  grouping_of key l d → grouping_of key (l ++ [v]) (dd_append (key v) v d).
Proof.
  intros (Hnodup & Hgroups & Hkeys).
  assert (Hk : ∀ k, k ∈ d.*1 ∨ k = key v → k ∈ (dd_append (key v) v d).*1).
  { intros k Hcase.
    destruct (dd_append_keys (key v) v d) as [[Hin ->]|[Hout ->]].
    - destruct Hcase as [?| ->]; assumption.
    - apply elem_of_app. destruct Hcase as [?| ->]; [left; assumption|].
      right. left. }
  split; [|split].
  - destruct (dd_append_keys (key v) v d) as [[Hin ->]|[Hout ->]];
      [exact Hnodup|].
    apply NoDup_app. split; [exact Hnodup|]. split; [|apply NoDup_singleton].
    intros k Hin Hk'. apply list_elem_of_singleton in Hk'. congruence.
  - intros k g Hin. rewrite members_snoc.
    destruct (dd_append_elem _ _ _ _ _ Hnodup Hin)
      as [[Hne Hold]|[-> (g0 & -> & Hcase)]].
    + destruct (Hgroups k g Hold) as [Hg Hnonempty].
      destruct (Z.eqb_spec (key v) k) as [?|_]; [congruence|].
      rewrite app_nil_r. split; assumption.
    + rewrite Z.eqb_refl. split; [|intros H; apply app_eq_nil in H as [_ H];
                                    discriminate].
      f_equal. destruct Hcase as [Hold|[-> Hout]].
      * apply (Hgroups _ _ Hold).
      * destruct (members key (key v) l) as [|u us] eqn:Hm; [reflexivity|].
        exfalso. apply Hout.
        assert (Hu : u ∈ members key (key v) l) by (rewrite Hm; left).
        apply members_elem in Hu as [Hu <-]. apply Hkeys. exact Hu.
  - intros u Hu. apply Hk. apply elem_of_app in Hu as [Hu|Hu].
    + left. apply Hkeys. exact Hu.
    + apply list_elem_of_singleton in Hu. right. congruence.
Qed.

Lemma grouping_fold (l l0 : list V) (d : list (Z * list V)) :
  grouping_of key l0 d →
  grouping_of key (l0 ++ l) (fold_left (fun acc v => dd_append (key v) v acc) l d).
Proof.
  revert l0 d. induction l as [|v l IH]; intros l0 d Hd; simpl.
  - rewrite app_nil_r. exact Hd.
  - replace (l0 ++ v :: l) with ((l0 ++ [v]) ++ l)
      by (rewrite <- app_assoc; reflexivity).
    apply IH, grouping_step, Hd.
Qed.

Lemma grouped_grouping (l : list V) : grouping_of key l (grouped key l).
Proof.
  apply (grouping_fold l [] []). split; [constructor|]. split.
  - intros k g Hin. apply elem_of_nil in Hin. contradiction.
  - intros v Hin. apply elem_of_nil in Hin. contradiction.
Qed.

(** A test passes on every group exactly when it passes on the members key of
    every key that has any. *)
Lemma forallb_grouped (P : Z → list V → bool) (l : list V) :
  forallb (fun '(k, g) => P k g) (grouped key l) = true
  ↔ ∀ k, members key k l ≠ [] → P k (members key k l) = true.
Proof.
  destruct (grouped_grouping l) as (_ & Hgroups & Hkeys).
  rewrite forallb_forall. split.
  - intros Hall k Hnonempty.
    destruct (members key k l) as [|u us] eqn:Hm; [contradiction|].
    assert (Hu : u ∈ members key k l) by (rewrite Hm; left).
    apply members_elem in Hu as [Hu Hkey].
    apply Hkeys in Hu. rewrite Hkey in Hu.
    apply list_elem_of_fmap in Hu as ([k' g] & Hfst & Hin). simpl in Hfst.
    subst k'. destruct (Hgroups k g Hin) as [Hg _].
    apply list_elem_of_In in Hin. specialize (Hall _ Hin). simpl in Hall.
    rewrite Hg, Hm in Hall. exact Hall.
  - intros Hall [k g] Hin. apply list_elem_of_In in Hin.
    destruct (Hgroups k g Hin) as [-> Hnonempty]. apply Hall. exact Hnonempty.
Qed.

End Grouping.

Lemma weekday_range (d : date) : 0 ≤ weekday d < 7.
Proof. unfold weekday. apply Z.mod_pos_bound. lia. Qed.

Lemma union_dates_fold {A} (f : A → Z) (l : list A) (acc : gset Z) :
  fold_left (fun s x => s ∪ {[ f x ]}) l acc = acc ∪ list_to_set (f <$> l).
Proof.
  revert acc. induction l as [|x l IH]; intros acc; simpl.
  - rewrite (right_id_L ∅ (∪)). reflexivity.
  - rewrite IH, <- (assoc_L (∪)). reflexivity.
Qed.

Lemma week_dates_size (week_start : date) :
  size (list_to_set ((fun i => week_start + i) <$> seqZ 0 7) : gset Z) = 7%nat.
Proof.
  rewrite size_list_to_set.
  - rewrite length_fmap, length_seqZ. reflexivity.
  - apply NoDup_fmap_2; [|apply NoDup_seqZ]. intros i j Hij. lia.
Qed.

Lemma worked_dates_in_week (week_start : date) (shifts : list Shift.t) :
  (∀ shift, shift ∈ shifts → monday_of (Shift.date shift) = week_start) →
  worked_dates shifts
  ⊆ list_to_set ((fun i => week_start + i) <$> seqZ 0 7).
Proof.
  intros Hweek d Hd. unfold worked_dates in Hd.
  apply elem_of_list_to_set, list_elem_of_fmap in Hd as (shift & -> & Hin).
  apply elem_of_list_to_set, list_elem_of_fmap.
  exists (weekday (Shift.date shift)). split.
  - specialize (Hweek shift Hin). unfold monday_of in Hweek. lia.
  - apply elem_of_seqZ. pose proof (weekday_range (Shift.date shift)). lia.
Qed.

Lemma week_passes_iff (relaxed_shifts relaxed_days_off : bool)
  (week_start : date) (shifts : list Shift.t) :
  (∀ shift, shift ∈ shifts → monday_of (Shift.date shift) = week_start) →
  constraints.week_passes relaxed_shifts relaxed_days_off week_start shifts
  = true
  ↔ shift_count_ok relaxed_shifts (len shifts)
    ∧ worked_days_ok relaxed_days_off (size (worked_dates shifts)).
Proof.
  intros Hweek. unfold constraints.week_passes.
  rewrite !union_dates_fold, !(left_id_L ∅ (∪)).
  fold (worked_dates shifts).
  rewrite (size_difference _ _ (worked_dates_in_week _ _ Hweek)).
  rewrite week_dates_size.
  assert (Hsize : (size (worked_dates shifts) ≤ 7)%nat).
  { rewrite <- (week_dates_size week_start).
    apply subseteq_size, worked_dates_in_week, Hweek. }
  unfold shift_count_ok, worked_days_ok.
  destruct relaxed_shifts, relaxed_days_off; case_comparisons; simpl;
    split; intros; try discriminate; try lia.
Qed.

(** What the check computes. It passes exactly when the employee is
    part-time or, in every week (keyed by its Monday) in which the
    schedule gives the employee a shift, the number of those shifts is 10
    (strict) or between 8 and 10 ([relaxed_shifts]) and the number of
    distinct dates worked is exactly 5 (strict: two days off, no more and
    no fewer) or at most 6 ([relaxed_days_off]). Apart from the strict
    test of the days, which the solver posts as at most 5, this is the
    rule of C4. *)
Lemma validate_fulltime_constraints_iff (schedule : Schedule.t)
  (employee : Employee.t) (relaxed_shifts relaxed_days_off : bool) :
  (constraints.validate_fulltime_constraints
     schedule employee relaxed_shifts relaxed_days_off = true
   ↔ (Employee.is_fulltime employee = true →
      ∀ week_start,
        week_of schedule employee week_start ≠ [] →
        shift_count_ok relaxed_shifts
          (len (week_of schedule employee week_start))
        ∧ worked_days_ok relaxed_days_off
            (size (worked_dates (week_of schedule employee week_start)))))
  ∧ (Employee.is_fulltime employee = false →
     constraints.validate_fulltime_constraints
       schedule employee relaxed_shifts relaxed_days_off = true).
Proof.
  unfold constraints.validate_fulltime_constraints.
  destruct (Employee.is_fulltime employee); simpl negb; cbv iota.
  - split; [|discriminate].
    change (constraints.weekly_shifts ?l)
      with (grouped (fun shift => monday_of (Shift.date shift)) l).
    rewrite forallb_grouped. unfold week_of.
    assert (Hiff : ∀ week_start,
               constraints.week_passes relaxed_shifts relaxed_days_off
                 week_start
                 (members (fun shift => monday_of (Shift.date shift))
                    week_start
                    (Schedule.get_employee_shifts schedule
                       (Employee.name employee))) = true
               ↔ shift_count_ok relaxed_shifts
                   (len (members (fun shift => monday_of (Shift.date shift))
                           week_start
                           (Schedule.get_employee_shifts schedule
                              (Employee.name employee))))
                 ∧ worked_days_ok relaxed_days_off
                     (size (worked_dates
                              (members
                                 (fun shift => monday_of (Shift.date shift))
                                 week_start
                                 (Schedule.get_employee_shifts schedule
                                    (Employee.name employee)))))).
    { intros week_start. apply week_passes_iff.
      intros shift Hin. apply members_elem in Hin as [_ Hkey]. exact Hkey. }
    split.
    + intros Hall _ week_start Hnonempty. apply Hiff, Hall, Hnonempty.
    + intros Hall week_start Hnonempty.
      apply Hiff, (Hall eq_refl), Hnonempty.
  - split; [|reflexivity]. split; [discriminate | reflexivity].
Qed.

(** C4, where the code departs from it. The full-time employee's only
    week has exactly 10 shifts on 4 distinct dates, so it is within the
    rule of 10 shifts and at most 5 days, the rule the solver posts
    ([sum(work_days) <= 5]); the strict check returns [False] for it,
    because it asks for exactly two days off. *)
Theorem four_day_week_rejected :
  Employee.is_fulltime (full_timer "A") = true
  ∧ constraints.validate_fulltime_constraints
      four_day_week (full_timer "A") false false = false
  ∧ ∀ week_start,
      week_of four_day_week (full_timer "A") week_start ≠ [] →
      shift_count_ok false
        (len (week_of four_day_week (full_timer "A") week_start))
      ∧ worked_days_at_most false
          (size (worked_dates
                   (week_of four_day_week (full_timer "A") week_start))).
Proof.
  split; [reflexivity|]. split; [vm_compute; reflexivity|].
  intros week_start Hnonempty.
  destruct (decide (week_start = monday_2025_01_06)) as [->|Hother].
  - split.
    + vm_compute. reflexivity.
    + assert (Hsize : size (worked_dates
                              (week_of four_day_week (full_timer "A")
                                 monday_2025_01_06)) = 4%nat)
        by (vm_compute; reflexivity).
      rewrite Hsize. simpl. lia.
  - exfalso. apply Hnonempty.
    destruct (week_of four_day_week (full_timer "A") week_start)
      as [|shift rest] eqn:Hweek; [reflexivity|].
    assert (Hin : shift ∈ week_of four_day_week (full_timer "A") week_start)
      by (rewrite Hweek; left).
    apply members_elem in Hin as [Hin Hkey].
    assert (Hall : Forall (fun s => monday_of (Shift.date s)
                                    = monday_2025_01_06)
                     (Schedule.get_employee_shifts four_day_week
                        (Employee.name (full_timer "A")))).
    { vm_compute. repeat constructor. }
    rewrite Forall_forall in Hall. specialize (Hall shift Hin). congruence.
Qed.

(** ** The model in full *)

(** The model with more constraints posted. *)
Lemma post_as_extend (m : CpModel) (cs : list Constraint) :
  mkModel (variables m) (constraints m ++ cs) (objective m) = extend m [] cs.
Proof. unfold extend. rewrite app_nil_r. reflexivity. Qed.

Lemma Add_extend (m : CpModel) (ct : BoundedLinearExpression) :
  Add m ct = extend m [] [Linear ct].
Proof. unfold Add. apply post_as_extend. Qed.

Lemma add_minimum_extend (m : CpModel) (pool : list IntVar) (minimum : Z) :
  ORToolsScheduler.add_minimum m pool minimum
  = extend m [] (posted_minimum pool minimum).
Proof.
  destruct pool as [|v pool]; simpl.
  - rewrite extend_nil. reflexivity.
  - apply Add_extend.
Qed.

Lemma fold_left_extend {A} (body : CpModel → A → CpModel)
  (vs : A → list IntVar) (cs : A → list Constraint) (l : list A)
  (m : CpModel) :
  (∀ m x, body m x = extend m (vs x) (cs x)) →
  fold_left body l m = extend m (flat_map vs l) (flat_map cs l).
Proof.
  intros Hbody. revert m. induction l as [|x l IH]; intros m; simpl.
  - rewrite extend_nil. reflexivity.
  - rewrite Hbody, IH, extend_extend. reflexivity.
Qed.

Lemma flat_map_none {A B} (l : list A) :
  flat_map (fun _ : A => @nil B) l = [].
Proof. induction l as [|x l IH]; simpl; [reflexivity | exact IH]. Qed.

Lemma fold_left_post {A} (body : CpModel → A → CpModel)
  (cs : A → list Constraint) (l : list A) (m : CpModel) :
  (∀ m x, body m x = extend m [] (cs x)) →
  fold_left body l m = extend m [] (flat_map cs l).
Proof.
  intros Hbody.
  rewrite (fold_left_extend body (fun _ => []) cs l m Hbody).
  rewrite flat_map_none. reflexivity.
Qed.

Lemma availability_posted (self : ORToolsScheduler.t) (shifts : list Shift.t)
  (shift_vars : list (list IntVar)) (m : CpModel) :
  ORToolsScheduler._add_availability_constraints self shifts shift_vars m
  = extend m [] (posted_availability self shifts shift_vars).
Proof.
  unfold ORToolsScheduler._add_availability_constraints, posted_availability.
  apply fold_left_post. intros m' [emp_idx employee].
  apply fold_left_post. intros m'' [shift_idx shift].
  destruct (negb _); [apply Add_extend | rewrite extend_nil; reflexivity].
Qed.

Lemma pre_assignments_posted (self : ORToolsScheduler.t)
  (shifts : list Shift.t) (shift_vars : list (list IntVar)) (m : CpModel) :
  ORToolsScheduler._add_pre_assignment_constraints self shifts shift_vars m
  = extend m [] (posted_pre_assignments self shifts shift_vars).
Proof.
  unfold ORToolsScheduler._add_pre_assignment_constraints,
    posted_pre_assignments, pre_slot, pre_employee.
  apply fold_left_post. intros m' pre.
  destruct (List.find _ (enumerate shifts)) as [[shift_idx shift]|];
    [|rewrite extend_nil; reflexivity].
  destruct (List.find _ (enumerate (ORToolsScheduler.employees self)))
    as [[emp_idx employee]|]; [apply Add_extend|].
  rewrite extend_nil. reflexivity.
Qed.

Lemma requirements_posted (self : ORToolsScheduler.t)
  (shifts : list Shift.t) (shift_vars : list (list IntVar)) (m : CpModel) :
  ORToolsScheduler._add_shift_requirement_constraints self shifts shift_vars m
  = extend m [] (posted_requirements self shifts shift_vars).
Proof.
  unfold ORToolsScheduler._add_shift_requirement_constraints,
    posted_requirements, requirement_of.
  apply fold_left_post. intros m' [shift_idx shift]. cbv zeta.
  destruct (ORToolsScheduler.requirement_map self !! _) as [requirement|];
    [|rewrite extend_nil; reflexivity].
  rewrite !add_minimum_extend, Add_extend, !extend_extend.
  reflexivity.
Qed.

Lemma daily_limits_posted (self : ORToolsScheduler.t)
  (shifts : list Shift.t) (shift_vars : list (list IntVar)) (m : CpModel) :
  ORToolsScheduler._add_daily_limit_constraints self shifts shift_vars m
  = extend m [] (posted_daily_limits self shifts shift_vars).
Proof.
  unfold ORToolsScheduler._add_daily_limit_constraints, posted_daily_limits.
  cbv zeta. apply fold_left_post. intros m' emp_idx.
  apply fold_left_post. intros m'' [date_val shift_indices].
  apply Add_extend.
Qed.

Lemma add_working_days_spec (shift_vars : list (list IntVar)) (emp_idx : nat)
  (week_key : Z) (groups : list (date * list nat)) (work_days : list IntVar)
  (m : CpModel) :
  fold_left
    (fun '(work_days, m) '(date_val, day_shift_indices) =>
       let day_var := WorkingVar emp_idx week_key date_val in
       let m := NewBoolVar m day_var in
       let day_shift_vars :=
         map (fun s_idx => ORToolsScheduler.var_at shift_vars emp_idx s_idx)
             day_shift_indices in
       (work_days ++ [day_var], AddMaxEquality m day_var day_shift_vars))
    groups (work_days, m)
  = (work_days
     ++ map (fun group => WorkingVar emp_idx week_key (fst group)) groups,
     extend m
       (map (fun group => WorkingVar emp_idx week_key (fst group)) groups)
       (map (fun group =>
               MaxEquality (WorkingVar emp_idx week_key (fst group))
                 (map (fun s_idx =>
                         ORToolsScheduler.var_at shift_vars emp_idx s_idx)
                      (snd group)))
            groups)).
Proof.
  revert work_days m.
  induction groups as [|[date_val day_shift_indices] groups IH];
    intros work_days m.
  - simpl. rewrite app_nil_r, extend_nil. reflexivity.
  - cbn [fold_left]. cbv zeta. rewrite IH. cbn [map fst snd].
    rewrite <- app_assoc. cbn [app]. f_equal.
    unfold extend, AddMaxEquality, NewBoolVar.
    cbn [variables constraints objective].
    rewrite <- !app_assoc. reflexivity.
Qed.

Lemma weeks_of_fold (shifts : list Shift.t) :
  fold_left
    (fun acc '(shift_idx, shift) =>
       dd_append (ORToolsScheduler.iso_week_key (Shift.date shift))
                 (shift_idx, shift) acc)
    (enumerate shifts) []
  = weeks_of shifts.
Proof.
  unfold weeks_of, grouped. apply fold_left_ext_in.
  intros acc [shift_idx shift] _. reflexivity.
Qed.

Lemma week_posted (self : ORToolsScheduler.t)
  (shift_vars : list (list IntVar)) (emp_idx : nat)
  (week : Z * list (nat * Shift.t)) (m : CpModel) :
  (let '(week_key, week_shifts) := week in
   let shift_indices := map fst week_shifts in
   let weekly_shift_vars :=
     map (fun s_idx => ORToolsScheduler.var_at shift_vars emp_idx s_idx)
         shift_indices in
   let m :=
     if ORToolsScheduler.relaxed_shifts self
     then Add (Add m (ExprGe (py_sum weekly_shift_vars) (Const 8)))
              (ExprLe (py_sum weekly_shift_vars) (Const 10))
     else Add m (ExprEq (py_sum weekly_shift_vars) (Const 10)) in
   let shifts_by_date : list (date * list nat) :=
     fold_left
       (fun acc '(s_idx, shift) => dd_append (Shift.date shift) s_idx acc)
       week_shifts [] in
   let '(work_days, m) :=
     ORToolsScheduler.add_working_days shift_vars emp_idx week_key
       shifts_by_date m in
   if ORToolsScheduler.relaxed_days_off self
   then Add m (ExprLe (py_sum work_days) (Const 6))
   else Add m (ExprLe (py_sum work_days) (Const 5)))
  = extend m (working_vars emp_idx (fst week) (snd week))
           (posted_week self shift_vars emp_idx week).
Proof.
  destruct week as [week_key week_shifts]. cbv zeta.
  unfold ORToolsScheduler.add_working_days.
  rewrite add_working_days_spec. cbn [app fst snd].
  unfold posted_week, posted_week_count, working_vars, week_by_date.
  cbn [fst snd].
  destruct (ORToolsScheduler.relaxed_shifts self),
    (ORToolsScheduler.relaxed_days_off self);
    rewrite !Add_extend, !extend_extend; unfold extend; f_equal;
    cbn [app]; rewrite ?app_nil_r, <- ?app_assoc; reflexivity.
Qed.

Lemma fulltime_posted (self : ORToolsScheduler.t) (shifts : list Shift.t)
  (shift_vars : list (list IntVar)) (m : CpModel) :
  ORToolsScheduler._add_fulltime_weekly_constraints self shifts shift_vars m
  = extend m (fulltime_working_vars self shifts)
           (posted_fulltime self shifts shift_vars).
Proof.
  unfold ORToolsScheduler._add_fulltime_weekly_constraints,
    fulltime_working_vars, posted_fulltime.
  cbv zeta. rewrite weeks_of_fold.
  apply fold_left_extend. intros m' [emp_idx employee].
  destruct (negb (Employee.is_fulltime employee));
    [rewrite extend_nil; reflexivity|].
  apply fold_left_extend. intros m'' week.
  exact (week_posted self shift_vars emp_idx week m'').
Qed.

Lemma add_objective_variables (self : ORToolsScheduler.t)
  (shifts : list Shift.t) (shift_vars : list (list IntVar)) (m : CpModel) :
  variables (ORToolsScheduler._add_objective self shifts shift_vars m)
  = variables m ++ posted_bonus_vars self shifts.
Proof.
  unfold ORToolsScheduler._add_objective, posted_bonus_vars.
  rewrite add_bonuses_spec.
  destruct (flat_map _ (seq 0 _)) as [|b bs]; reflexivity.
Qed.

(** The model [generate_schedules] hands to the solver, spelled out: the
    table of decision variables, the variables registered and the
    constraints posted, step after step, on top of [self.model]. *)
Lemma built_model_spec (self : ORToolsScheduler.t) :
  let shifts := ORToolsScheduler.generate_month_template self in
  let shift_vars := created_rows self shifts in
  fst (ORToolsScheduler.build_model self) = shift_vars
  ∧ variables (snd (ORToolsScheduler.build_model self))
    = variables (ORToolsScheduler.model self)
      ++ concat shift_vars
      ++ fulltime_working_vars self shifts
      ++ posted_bonus_vars self shifts
  ∧ constraints (snd (ORToolsScheduler.build_model self))
    = constraints (ORToolsScheduler.model self)
      ++ posted_availability self shifts shift_vars
      ++ posted_pre_assignments self shifts shift_vars
      ++ posted_requirements self shifts shift_vars
      ++ posted_daily_limits self shifts shift_vars
      ++ posted_fulltime self shifts shift_vars
      ++ posted_bonus_links self shifts shift_vars.
Proof.
  intros shifts shift_vars. rewrite build_model_unfold. cbn [fst snd].
  fold shifts. rewrite (create_variables_spec self shifts). cbn [fst snd].
  fold (created_rows self shifts). fold shift_vars.
  split; [reflexivity|].
  unfold ORToolsScheduler._add_constraints.
  rewrite availability_posted, pre_assignments_posted, requirements_posted,
    daily_limits_posted, fulltime_posted.
  rewrite !extend_extend.
  split.
  - rewrite add_objective_variables. unfold extend.
    cbn [variables app]. rewrite <- !app_assoc. reflexivity.
  - rewrite add_objective_constraints. unfold extend.
    fold (posted_bonus_links self shifts shift_vars).
    cbn [constraints app]. rewrite <- !app_assoc. reflexivity.
Qed.

Lemma created_rows_lookup (self : ORToolsScheduler.t) (shifts : list Shift.t)
  (emp_idx shift_idx : nat) :
  (emp_idx < length (ORToolsScheduler.employees self))%nat →
  (shift_idx < length shifts)%nat →
  ORToolsScheduler.var_at (created_rows self shifts) emp_idx shift_idx
  = ShiftVar emp_idx shift_idx.
Proof.
  intros Hemp Hshift.
  pose proof (var_at_created self shifts empty emp_idx shift_idx Hemp Hshift)
    as Hvar.
  rewrite create_variables_spec in Hvar. exact Hvar.
Qed.

Lemma created_rows_elem (self : ORToolsScheduler.t) (shifts : list Shift.t)
  (emp_idx shift_idx : nat) :
  (emp_idx < length (ORToolsScheduler.employees self))%nat →
  (shift_idx < length shifts)%nat →
  ShiftVar emp_idx shift_idx ∈ concat (created_rows self shifts).
Proof.
  intros Hemp Hshift. apply list_elem_of_In, in_concat.
  exists (map (ShiftVar emp_idx) (seq 0 (length shifts))). split.
  - unfold created_rows. apply in_map_iff. exists emp_idx.
    split; [reflexivity | apply in_seq; lia].
  - apply in_map. apply in_seq. lia.
Qed.

(** ** What a solution says of the schedule *)

Lemma enumerate_elem (A : Type) (l : list A) (i : nat) (x : A) :
  (i, x) ∈ enumerate l ↔ l !! i = Some x.
Proof.
  unfold enumerate. rewrite list_elem_of_lookup. split.
  - intros (j & Hj). apply lookup_zip_with_Some in Hj
      as (i' & x' & Heq & Hseq & Hx).
    injection Heq as -> ->. apply lookup_seq in Hseq as [-> _]. exact Hx.
  - intros Hx. exists i. apply lookup_zip_with_Some. exists i, x.
    split; [reflexivity|]. split; [|exact Hx].
    apply lookup_seq. split; [reflexivity|].
    apply lookup_lt_Some in Hx. exact Hx.
Qed.

Lemma enumerate_lookup (A : Type) (l : list A) (i : nat) :
  enumerate l !! i = pair i <$> l !! i.
Proof.
  unfold enumerate. destruct (l !! i) as [x|] eqn:Hx; simpl.
  - apply lookup_zip_with_Some. exists i, x. split; [reflexivity|].
    split; [|exact Hx]. apply lookup_seq. split; [reflexivity|].
    apply lookup_lt_Some in Hx. exact Hx.
  - apply lookup_ge_None. apply lookup_ge_None in Hx.
    rewrite length_zip_with, length_seq. lia.
Qed.

Lemma enumerate_length (A : Type) (l : list A) :
  length (enumerate l) = length l.
Proof. unfold enumerate. rewrite length_zip_with, length_seq. lia. Qed.

Lemma solution_holds (rt : Runtime) (self : ORToolsScheduler.t)
  (c : Constraint) :
  solution_found rt self →
  c ∈ constraints (snd (ORToolsScheduler.build_model self)) →
  holds (Value (answer rt self)) c = true.
Proof.
  intros [_ Hsat] Hin. unfold satisfies in Hsat.
  apply andb_true_iff in Hsat as [_ Hcs].
  rewrite forallb_forall in Hcs. apply Hcs, list_elem_of_In, Hin.
Qed.

Lemma solution_bool (rt : Runtime) (self : ORToolsScheduler.t) (v : IntVar) :
  solution_found rt self →
  v ∈ variables (snd (ORToolsScheduler.build_model self)) →
  is_bool (Value (answer rt self) v) = true.
Proof.
  intros [_ Hsat] Hin. unfold satisfies in Hsat.
  apply andb_true_iff in Hsat as [Hvs _].
  rewrite forallb_forall in Hvs. apply Hvs, list_elem_of_In, Hin.
Qed.

Lemma solution_shift_var_bool (rt : Runtime) (self : ORToolsScheduler.t)
  (emp_idx shift_idx : nat) :
  solution_found rt self →
  (emp_idx < length (ORToolsScheduler.employees self))%nat →
  (shift_idx < length (ORToolsScheduler.generate_month_template self))%nat →
  is_bool (Value (answer rt self) (ShiftVar emp_idx shift_idx)) = true.
Proof.
  intros Hfound Hemp Hshift. apply solution_bool; [exact Hfound|].
  destruct (built_model_spec self) as (_ & -> & _).
  apply elem_of_app. right. apply elem_of_app. left.
  apply created_rows_elem; assumption.
Qed.

(** The availability check reads the date and the shift time of a shift,
    and nothing else of it. *)
Lemma validate_availability_slot (a b : Shift.t) (employee : Employee.t)
  (time_off_requests : list TimeOffRequest.t) :
  Shift.date a = Shift.date b → Shift.shift_time a = Shift.shift_time b →
  constraints.validate_availability a employee time_off_requests
  = constraints.validate_availability b employee time_off_requests.
Proof.
  intros Hdate Htime. unfold constraints.validate_availability.
  rewrite Hdate, Htime. reflexivity.
Qed.

(** The shifts of the solved schedule, slot by slot. *)
Lemma solved_schedule_lookup (rt : Runtime) (self : ORToolsScheduler.t)
  (shift_idx : nat) :
  Schedule.shifts (solved_schedule rt self) !! shift_idx
  = (fun shift => Shift.mk (Shift.date shift) (Shift.shift_time shift)
                           (assigned_at rt self shift_idx))
      <$> ORToolsScheduler.generate_month_template self !! shift_idx.
Proof.
  unfold solved_schedule, ORToolsScheduler._parse_solution.
  cbn [Schedule.shifts]. change (map ?f ?l) with (f <$> l) at 1.
  rewrite list_lookup_fmap, enumerate_lookup.
  destruct (ORToolsScheduler.generate_month_template self !! shift_idx);
    reflexivity.
Qed.

(** An employee on a slot of the solved schedule sits in the roster at an
    index whose decision variable for the slot is not 0. *)
Lemma assigned_at_elem (rt : Runtime) (self : ORToolsScheduler.t)
  (shift_idx : nat) (employee : Employee.t) :
  employee ∈ assigned_at rt self shift_idx
  ↔ ∃ emp_idx,
      ORToolsScheduler.employees self !! emp_idx = Some employee
      ∧ Value (answer rt self)
          (ORToolsScheduler.var_at (fst (ORToolsScheduler.build_model self))
             emp_idx shift_idx) ≠ 0.
Proof.
  unfold assigned_at. rewrite list_elem_of_In, in_map_iff. split.
  - intros ([emp_idx emp] & Hsnd & Hin). simpl in Hsnd. subst emp.
    apply filter_In in Hin as [Hin Hvalue].
    apply list_elem_of_In, enumerate_elem in Hin.
    exists emp_idx. split; [exact Hin|].
    apply negb_true_iff, Z.eqb_neq in Hvalue. exact Hvalue.
  - intros (emp_idx & Hin & Hvalue). exists (emp_idx, employee).
    split; [reflexivity|]. apply filter_In. split.
    + apply list_elem_of_In, enumerate_elem. exact Hin.
    + apply negb_true_iff, Z.eqb_neq. exact Hvalue.
Qed.

Lemma solution_available (rt : Runtime) (self : ORToolsScheduler.t)
  (shift_idx : nat) (shift : Shift.t) (employee : Employee.t) :
  solution_found rt self →
  ORToolsScheduler.generate_month_template self !! shift_idx = Some shift →
  employee ∈ assigned_at rt self shift_idx →
  constraints.validate_availability shift employee
    (ORToolsScheduler.time_off_requests self) = true.
Proof.
  intros Hfound Hshift Hin.
  apply assigned_at_elem in Hin as (emp_idx & Hemp & Hvalue).
  destruct (constraints.validate_availability shift employee _) eqn:Hvalid;
    [reflexivity|].
  exfalso. apply Hvalue.
  assert (Hposted :
            Linear (ExprEq
                      (Var (ORToolsScheduler.var_at
                              (fst (ORToolsScheduler.build_model self))
                              emp_idx shift_idx)) (Const 0))
              ∈ constraints (snd (ORToolsScheduler.build_model self))).
  { destruct (built_model_spec self) as (-> & _ & ->).
    apply elem_of_app. right. apply elem_of_app. left.
    unfold posted_availability. apply list_elem_of_In, in_flat_map.
    exists (emp_idx, employee). split.
    - apply list_elem_of_In, enumerate_elem. exact Hemp.
    - apply in_flat_map. exists (shift_idx, shift). split.
      + apply list_elem_of_In, enumerate_elem. exact Hshift.
      + rewrite Hvalid. left. reflexivity. }
  pose proof (solution_holds rt self _ Hfound Hposted) as Hholds.
  simpl in Hholds. apply Z.eqb_eq in Hholds. exact Hholds.
Qed.

Lemma clinic_solution_found :
  solution_found clinic_runtime clinic_scheduler.
Proof. split; [right; reflexivity | vm_compute; reflexivity]. Qed.

Lemma enumerate_filter_sublist {A} (p : nat * A → bool) (l : list A)
  (a : nat) :
  map snd (List.filter p (zip (seq a (length l)) l)) `sublist_of` l.
Proof.
  revert a. induction l as [|x l IH]; intros a; simpl; [constructor|].
  destruct (p (a, x)); simpl.
  - apply sublist_skip, IH.
  - apply sublist_cons, IH.
Qed.

Lemma assigned_at_sublist (rt : Runtime) (self : ORToolsScheduler.t)
  (shift_idx : nat) :
  assigned_at rt self shift_idx `sublist_of` ORToolsScheduler.employees self.
Proof. apply (enumerate_filter_sublist _ _ 0). Qed.

Lemma generate_schedules_solved (rt : Runtime) (self : ORToolsScheduler.t) :
  status (answer rt self) = OPTIMAL ∨ status (answer rt self) = FEASIBLE →
  ∃ diagnostics,
    ORToolsScheduler.generate_schedules rt self
    = Returned ([solved_schedule rt self], diagnostics)
    ∧ ORToolsScheduler.solver_status diagnostics
      = StatusName (status (answer rt self))
    ∧ ORToolsScheduler.valid_count diagnostics = 1.
Proof.
  intros Hstatus. rewrite generate_schedules_unfold.
  assert (Hyes : bool_decide (status (answer rt self) = OPTIMAL)
                 || bool_decide (status (answer rt self) = FEASIBLE) = true).
  { destruct Hstatus as [-> | ->]; reflexivity. }
  rewrite Hyes. eexists. split; [reflexivity|]. split; reflexivity.
Qed.

Lemma solved_slot (rt : Runtime) (self : ORToolsScheduler.t) (w d k : nat)
  (shift_time : string) :
  Z.of_nat w < ORToolsScheduler.num_weeks self → (d < 7)%nat →
  ORToolsScheduler.shift_times !! k = Some shift_time →
  Schedule.shifts (solved_schedule rt self) !! (w * 21 + (d * 3 + k))%nat
  = Some (Shift.mk (ORToolsScheduler.start_date self
                    + (7 * Z.of_nat w + Z.of_nat d)) shift_time
                   (assigned_at rt self (w * 21 + (d * 3 + k)))).
Proof.
  intros Hw Hd Hk. rewrite solved_schedule_lookup.
  rewrite (template_lookup self w d k shift_time Hw Hd Hk). reflexivity.
Qed.

(** X1. When the solver ends with [OPTIMAL] or [FEASIBLE],
    [generate_schedules] returns exactly one schedule and a [valid_count]
    of 1. The schedule has one shift for every slot of the template, in
    the template's order and with its date and shift time, and the
    employees of each shift are those whose decision variable is not 0,
    listed in the order of the roster. *)
Theorem generate_schedules_success (rt : Runtime) (self : ORToolsScheduler.t) :
  status (answer rt self) = OPTIMAL ∨ status (answer rt self) = FEASIBLE →
  (∃ diagnostics,
     ORToolsScheduler.generate_schedules rt self
     = Returned ([solved_schedule rt self], diagnostics)
     ∧ ORToolsScheduler.solver_status diagnostics
       = StatusName (status (answer rt self))
     ∧ ORToolsScheduler.valid_count diagnostics = 1)
  ∧ length (Schedule.shifts (solved_schedule rt self))
    = (Z.to_nat (ORToolsScheduler.num_weeks self) * 7 * 3)%nat
  ∧ (∀ (w d k : nat) (shift_time : string),
       Z.of_nat w < ORToolsScheduler.num_weeks self → (d < 7)%nat →
       ORToolsScheduler.shift_times !! k = Some shift_time →
       Schedule.shifts (solved_schedule rt self) !! (w * 21 + (d * 3 + k))%nat
       = Some (Shift.mk (ORToolsScheduler.start_date self
                         + (7 * Z.of_nat w + Z.of_nat d)) shift_time
                        (assigned_at rt self (w * 21 + (d * 3 + k)))))
  ∧ (∀ shift_idx,
       assigned_at rt self shift_idx
         `sublist_of` ORToolsScheduler.employees self).
Proof.
  intros Hstatus. split; [apply generate_schedules_solved, Hstatus|].
  split; [|split].
  - unfold solved_schedule, ORToolsScheduler._parse_solution.
    cbn [Schedule.shifts]. rewrite length_map, enumerate_length.
    rewrite template_length. lia.
  - intros w d k shift_time. apply solved_slot.
  - apply assigned_at_sublist.
Qed.

Lemma generate_schedules_success_witness :
  length (Schedule.shifts (solved_schedule clinic_runtime clinic_scheduler))
  = 21%nat
  ∧ map Employee.name
        (Shift.assigned_employees
           (default (Shift.mk 0 "" [])
              (Schedule.shifts (solved_schedule clinic_runtime clinic_scheduler)
                 !! 1%nat)))
    = ["B"; "C"]%string.
Proof.
  destruct (generate_schedules_success clinic_runtime clinic_scheduler)
    as (_ & Hlength & Hslot & _).
  - right. reflexivity.
  - split; [exact Hlength|].
    pose proof (Hslot 0%nat 0%nat 1%nat "中"%string) as Hone.
    change (0 * 21 + (0 * 3 + 1))%nat with 1%nat in Hone.
    rewrite Hone; [vm_compute; reflexivity | reflexivity | lia | reflexivity].
Defined.

(** X2. In the schedule read off a solution, every employee of every
    shift passes the availability check for that shift: the weekday and
    shift time are in the employee's availability and no time-off record
    names the employee for that date and shift time. *)
Theorem solved_schedule_available (rt : Runtime) (self : ORToolsScheduler.t) :
  solution_found rt self →
  ∀ shift employee,
    shift ∈ Schedule.shifts (solved_schedule rt self) →
    employee ∈ Shift.assigned_employees shift →
    constraints.validate_availability shift employee
      (ORToolsScheduler.time_off_requests self) = true.
Proof.
  intros Hfound shift employee Hshift Hemp.
  apply list_elem_of_lookup in Hshift as (shift_idx & Hshift).
  rewrite solved_schedule_lookup in Hshift.
  destruct (ORToolsScheduler.generate_month_template self !! shift_idx)
    as [slot|] eqn:Hslot; [|discriminate].
  injection Hshift as <-. cbn [Shift.assigned_employees] in Hemp.
  rewrite (validate_availability_slot _ slot) by reflexivity.
  exact (solution_available rt self shift_idx slot employee Hfound Hslot Hemp).
Qed.

Lemma solved_schedule_available_witness :
  Forall
    (fun shift =>
       Forall (fun employee =>
                 constraints.validate_availability shift employee
                   (ORToolsScheduler.time_off_requests clinic_scheduler)
                 = true)
              (Shift.assigned_employees shift))
    (Schedule.shifts (solved_schedule clinic_runtime clinic_scheduler)).
Proof.
  apply Forall_forall. intros shift Hshift.
  apply Forall_forall. intros employee Hemp.
  exact (solved_schedule_available clinic_runtime clinic_scheduler
           clinic_solution_found shift employee Hshift Hemp).
Defined.

Lemma has_employee_elem (shift : Shift.t) (employee_name : string) :
  Shift.has_employee shift employee_name = true
  ↔ ∃ employee,
      employee ∈ Shift.assigned_employees shift
      ∧ Employee.name employee = employee_name.
Proof.
  unfold Shift.has_employee. rewrite existsb_exists. split.
  - intros (employee & Hin & Hname). exists employee.
    split; [apply list_elem_of_In, Hin | apply String.eqb_eq, Hname].
  - intros (employee & Hin & Hname). exists employee.
    split; [apply list_elem_of_In, Hin | apply String.eqb_eq, Hname].
Qed.

(** X3. In the schedule read off a solution, every time-off record is
    honoured: no employee with the record's name is on a shift with the
    record's date and shift time. *)
Theorem solved_schedule_honours_time_off (rt : Runtime)
  (self : ORToolsScheduler.t) :
  solution_found rt self →
  ∀ request shift,
    request ∈ ORToolsScheduler.time_off_requests self →
    shift ∈ Schedule.shifts (solved_schedule rt self) →
    Shift.date shift = TimeOffRequest.date request →
    Shift.shift_time shift = TimeOffRequest.shift_time request →
    Shift.has_employee shift (TimeOffRequest.employee_name request) = false.
Proof.
  intros Hfound request shift Hrequest Hshift Hdate Htime.
  destruct (Shift.has_employee shift _) eqn:Hhas; [|reflexivity].
  apply has_employee_elem in Hhas as (employee & Hemp & Hname).
  apply list_elem_of_lookup in Hshift as (shift_idx & Hshift).
  rewrite solved_schedule_lookup in Hshift.
  destruct (ORToolsScheduler.generate_month_template self !! shift_idx)
    as [slot|] eqn:Hslot; [|discriminate].
  injection Hshift as <-. cbn [Shift.assigned_employees] in Hemp.
  cbn [Shift.date Shift.shift_time] in Hdate, Htime.
  pose proof (solution_available rt self shift_idx slot employee
                Hfound Hslot Hemp) as Hvalid.
  unfold constraints.validate_availability in Hvalid.
  destruct (negb (Employee.can_work_on employee _ _)); [discriminate|].
  apply negb_true_iff in Hvalid.
  assert (Hmatch : existsb
                     (fun request =>
                        String.eqb (TimeOffRequest.employee_name request)
                                   (Employee.name employee)
                        && (TimeOffRequest.date request =? Shift.date slot)
                        && String.eqb (TimeOffRequest.shift_time request)
                                      (Shift.shift_time slot))
                     (ORToolsScheduler.time_off_requests self) = true).
  { apply existsb_exists. exists request.
    split; [apply list_elem_of_In, Hrequest|].
    rewrite Hname, Hdate, Htime, String.eqb_refl, Z.eqb_refl, String.eqb_refl.
    reflexivity. }
  congruence.
Qed.

Lemma solved_schedule_honours_time_off_witness :
  Forall
    (fun shift =>
       Shift.date shift = monday_2025_01_06 →
       Shift.shift_time shift = "中"%string →
       Shift.has_employee shift "A" = false)
    (Schedule.shifts (solved_schedule clinic_runtime clinic_scheduler)).
Proof.
  apply Forall_forall. intros shift Hshift Hdate Htime.
  apply (solved_schedule_honours_time_off clinic_runtime clinic_scheduler
           clinic_solution_found
           (TimeOffRequest.mk "A" monday_2025_01_06 "中") shift);
    [left | exact Hshift | exact Hdate | exact Htime].
Defined.

(** ** The slots of the template, by index *)

Lemma shift_times_NoDup : NoDup ORToolsScheduler.shift_times.
Proof.
  unfold ORToolsScheduler.shift_times.
  repeat constructor; rewrite ?elem_of_cons, elem_of_nil;
    intros H; repeat destruct H as [H|H]; try discriminate H; exact H.
Qed.

(** Slot [i] of the template is shift time [i mod 3] of day [i / 3]. *)
Lemma template_slot (self : ORToolsScheduler.t) (i : nat) (shift : Shift.t) :
  ORToolsScheduler.generate_month_template self !! i = Some shift →
  Shift.date shift = ORToolsScheduler.start_date self + Z.of_nat (i / 3)
  ∧ ORToolsScheduler.shift_times !! (i mod 3)%nat
    = Some (Shift.shift_time shift)
  ∧ Shift.assigned_employees shift = [].
Proof.
  intros Hshift.
  pose proof (lookup_lt_Some _ _ _ Hshift) as Hlt.
  rewrite template_length in Hlt.
  pose proof (Nat.div_mod_eq i 21) as Hi.
  pose proof (Nat.mod_upper_bound i 21 ltac:(lia)) as Hr.
  pose proof (Nat.div_mod_eq (i mod 21) 3) as Hr3.
  pose proof (Nat.mod_upper_bound (i mod 21) 3 ltac:(lia)) as Hk.
  set (w := (i / 21)%nat) in *. set (r := (i mod 21)%nat) in *.
  set (d := (r / 3)%nat) in *. set (k := (r mod 3)%nat) in *.
  assert (Hdiv : (i / 3 = 7 * w + d)%nat).
  { symmetry. apply (Nat.div_unique i 3 _ k); lia. }
  assert (Hmod : (i mod 3 = k)%nat).
  { symmetry. apply (Nat.mod_unique i 3 (7 * w + d) k); lia. }
  destruct (ORToolsScheduler.shift_times !! k) as [shift_time|] eqn:Htime.
  2:{ apply lookup_ge_None in Htime. simpl in Htime. lia. }
  assert (Hw : Z.of_nat w < ORToolsScheduler.num_weeks self) by lia.
  pose proof (template_lookup self w d k shift_time Hw ltac:(lia) Htime)
    as Hlook.
  replace (w * 21 + (d * 3 + k))%nat with i in Hlook by lia.
  rewrite Hshift in Hlook. injection Hlook as ->.
  cbn [Shift.date Shift.shift_time Shift.assigned_employees].
  rewrite Hdiv, Hmod.
  split; [f_equal; lia | split; [exact Htime | reflexivity]].
Qed.

(** No two slots of the template have the same date and shift time. *)
Lemma template_slot_unique (self : ORToolsScheduler.t) (i j : nat)
  (a b : Shift.t) :
  ORToolsScheduler.generate_month_template self !! i = Some a →
  ORToolsScheduler.generate_month_template self !! j = Some b →
  Shift.date a = Shift.date b → Shift.shift_time a = Shift.shift_time b →
  i = j.
Proof.
  intros Ha Hb Hdate Htime.
  apply template_slot in Ha as (Hda & Hta & _).
  apply template_slot in Hb as (Hdb & Htb & _).
  rewrite Htime in Hta.
  pose proof (NoDup_lookup _ _ _ _ shift_times_NoDup Hta Htb) as Hmod.
  assert (Hdiv : (i / 3 = j / 3)%nat) by lia.
  rewrite (Nat.div_mod_eq i 3), (Nat.div_mod_eq j 3), Hmod, Hdiv.
  reflexivity.
Qed.

(** The shifts of the solved schedule are the slots of the template, each
    with the employees the solver's values put on it. *)
Lemma solved_shift_elem (rt : Runtime) (self : ORToolsScheduler.t)
  (shift : Shift.t) :
  shift ∈ Schedule.shifts (solved_schedule rt self)
  ↔ ∃ shift_idx slot,
      ORToolsScheduler.generate_month_template self !! shift_idx = Some slot
      ∧ shift = Shift.mk (Shift.date slot) (Shift.shift_time slot)
                         (assigned_at rt self shift_idx).
Proof.
  rewrite list_elem_of_lookup. split.
  - intros (shift_idx & Hshift). rewrite solved_schedule_lookup in Hshift.
    destruct (ORToolsScheduler.generate_month_template self !! shift_idx)
      as [slot|] eqn:Hslot; [|discriminate].
    injection Hshift as <-. exists shift_idx, slot.
    split; [exact Hslot | reflexivity].
  - intros (shift_idx & slot & Hslot & ->). exists shift_idx.
    rewrite (solved_schedule_lookup rt self shift_idx), Hslot. reflexivity.
Qed.

(** ** Lookup on the solved schedule *)

Lemma solved_get_shift (rt : Runtime) (self : ORToolsScheduler.t)
  (w d k : nat) (shift_time : string) :
  Z.of_nat w < ORToolsScheduler.num_weeks self → (d < 7)%nat →
  ORToolsScheduler.shift_times !! k = Some shift_time →
  Schedule.get_shift (solved_schedule rt self)
    (ORToolsScheduler.start_date self + (7 * Z.of_nat w + Z.of_nat d))
    shift_time
  = Some (Shift.mk (ORToolsScheduler.start_date self
                    + (7 * Z.of_nat w + Z.of_nat d)) shift_time
                   (assigned_at rt self (w * 21 + (d * 3 + k)))).
Proof.
  intros Hw Hd Hk.
  pose proof (template_lookup self w d k shift_time Hw Hd Hk) as Hslot.
  pose proof (solved_slot rt self w d k shift_time Hw Hd Hk) as Hshift.
  set (target := ORToolsScheduler.start_date self
                 + (7 * Z.of_nat w + Z.of_nat d)) in *.
  set (shift_idx := (w * 21 + (d * 3 + k))%nat) in *.
  unfold Schedule.get_shift.
  pose proof (get_shift_loop_spec (Schedule.shifts (solved_schedule rt self))
                target shift_time) as Hspec.
  destruct (Schedule.get_shift_loop _ target shift_time) as [found|].
  - destruct Hspec as (before & after & Hsplit & [Hdate Htime] & _).
    assert (Hfound : Schedule.shifts (solved_schedule rt self)
                       !! length before = Some found).
    { rewrite Hsplit. apply list_lookup_middle. reflexivity. }
    rewrite solved_schedule_lookup in Hfound.
    destruct (ORToolsScheduler.generate_month_template self !! length before)
      as [slot|] eqn:Hbefore; [|discriminate].
    injection Hfound as <-. cbn [Shift.date Shift.shift_time] in Hdate, Htime.
    assert (Hidx : length before = shift_idx).
    { apply (template_slot_unique self _ _ _ _ Hbefore Hslot);
        [exact Hdate | exact Htime]. }
    rewrite Hidx, Hdate, Htime. reflexivity.
  - exfalso. rewrite Forall_forall in Hspec.
    apply (Hspec _ (list_elem_of_lookup_2 _ _ _ Hshift)).
    split; reflexivity.
Qed.

(** X4. Looking up a date and shift time of the scheduling window in the
    schedule read off the solver's values finds the shift of that very
    slot: week [w], day [d], shift time number [k] is the shift at index
    [21 w + 3 d + k], with the employees the solver put there. *)
Theorem get_shift_finds_slot (rt : Runtime) (self : ORToolsScheduler.t)
  (w d k : nat) (shift_time : string) :
  Z.of_nat w < ORToolsScheduler.num_weeks self → (d < 7)%nat →
  ORToolsScheduler.shift_times !! k = Some shift_time →
  Schedule.get_shift (solved_schedule rt self)
    (ORToolsScheduler.start_date self + (7 * Z.of_nat w + Z.of_nat d))
    shift_time
  = Some (Shift.mk (ORToolsScheduler.start_date self
                    + (7 * Z.of_nat w + Z.of_nat d)) shift_time
                   (assigned_at rt self (w * 21 + (d * 3 + k)))).
Proof. apply solved_get_shift. Qed.

Lemma get_shift_finds_slot_witness :
  Schedule.get_shift (solved_schedule clinic_runtime clinic_scheduler)
    (monday_2025_01_06 + 2) "晚"
  = Some (Shift.mk (monday_2025_01_06 + 2) "晚"
                   (assigned_at clinic_runtime clinic_scheduler 8)).
Proof.
  apply (get_shift_finds_slot clinic_runtime clinic_scheduler 0 2 2 "晚");
    [reflexivity | lia | reflexivity].
Defined.

(** ** Pre-assignments in the solved schedule *)

Lemma find_first {A} (p : A → bool) (l : list A) (x : A) :
  x ∈ l → p x = true → ∃ y, List.find p l = Some y ∧ y ∈ l ∧ p y = true.
Proof.
  intros Hin Hp. destruct (List.find p l) as [y|] eqn:Hfind.
  - apply find_some in Hfind as [Hy Hpy]. exists y.
    split; [reflexivity|]. split; [apply list_elem_of_In, Hy | exact Hpy].
  - pose proof (find_none _ _ Hfind x (proj1 (list_elem_of_In _ _) Hin)).
    congruence.
Qed.

(** A pre-assignment that names an employee of the roster, for a slot of
    the template, puts an employee of that name on the slot. *)
Lemma solution_pre_assigned (rt : Runtime) (self : ORToolsScheduler.t)
  (pre : PreAssignedShift.t) (shift_idx : nat) (slot : Shift.t) :
  solution_found rt self →
  pre ∈ ORToolsScheduler.pre_assigned_shifts self →
  in_roster (ORToolsScheduler.employees self)
            (PreAssignedShift.employee_name pre) = true →
  ORToolsScheduler.generate_month_template self !! shift_idx = Some slot →
  Shift.date slot = PreAssignedShift.date pre →
  Shift.shift_time slot = PreAssignedShift.shift_time pre →
  ∃ employee,
    employee ∈ assigned_at rt self shift_idx
    ∧ Employee.name employee = PreAssignedShift.employee_name pre.
Proof.
  intros Hfound Hpre Hknown Hslot Hdate Htime.
  set (shifts := ORToolsScheduler.generate_month_template self) in *.
  assert (Hfirst_slot : pre_slot shifts pre = Some (shift_idx, slot)).
  { destruct (find_first
                (fun '(shift_idx, shift) =>
                   (Shift.date shift =? PreAssignedShift.date pre)
                   && String.eqb (Shift.shift_time shift)
                                 (PreAssignedShift.shift_time pre))
                (enumerate shifts) (shift_idx, slot))
      as ([j other] & Hfind & Hin & Hmatch).
    - apply enumerate_elem. exact Hslot.
    - rewrite Hdate, Htime, Z.eqb_refl, String.eqb_refl. reflexivity.
    - apply enumerate_elem in Hin.
      apply andb_true_iff in Hmatch as [Hd Ht].
      apply Z.eqb_eq in Hd. apply String.eqb_eq in Ht.
      assert (Hj : j = shift_idx).
      { apply (template_slot_unique self _ _ _ _ Hin Hslot); congruence. }
      subst j. pose proof (eq_trans (eq_sym Hin) Hslot) as Hsame.
      injection Hsame as ->. exact Hfind. }
  unfold in_roster in Hknown. apply existsb_exists in Hknown
    as (known & Hin_known & Hname_known).
  apply list_elem_of_In, list_elem_of_lookup in Hin_known as (i & Hi).
  destruct (find_first
              (fun '(emp_idx, employee) =>
                 String.eqb (Employee.name employee)
                            (PreAssignedShift.employee_name pre))
              (enumerate (ORToolsScheduler.employees self)) (i, known))
    as ([emp_idx employee] & Hfind & Hin & Hname).
  { apply enumerate_elem. exact Hi. }
  { exact Hname_known. }
  apply enumerate_elem in Hin. apply String.eqb_eq in Hname.
  exists employee. split; [|exact Hname].
  apply assigned_at_elem. exists emp_idx. split; [exact Hin|].
  assert (Hposted :
            Linear (ExprEq
                      (Var (ORToolsScheduler.var_at
                              (fst (ORToolsScheduler.build_model self))
                              emp_idx shift_idx)) (Const 1))
              ∈ constraints (snd (ORToolsScheduler.build_model self))).
  { destruct (built_model_spec self) as (-> & _ & ->). fold shifts.
    apply elem_of_app. right. apply elem_of_app. right.
    apply elem_of_app. left.
    unfold posted_pre_assignments. apply list_elem_of_In, in_flat_map.
    exists pre. split; [apply list_elem_of_In, Hpre|].
    rewrite Hfirst_slot. unfold pre_employee. rewrite Hfind.
    left. reflexivity. }
  pose proof (solution_holds rt self _ Hfound Hposted) as Hholds.
  simpl in Hholds. apply Z.eqb_eq in Hholds. rewrite Hholds. discriminate.
Qed.

(** X5. The schedule read off a solution keeps the pre-assignments: every
    shift passes [validate_pre_assignments] against the pre-assignments
    that name an employee of the roster. *)
Theorem solved_schedule_keeps_pre_assignments (rt : Runtime)
  (self : ORToolsScheduler.t) :
  solution_found rt self →
  ∀ shift,
    shift ∈ Schedule.shifts (solved_schedule rt self) →
    constraints.validate_pre_assignments shift (known_pre_assigned self)
    = true.
Proof.
  intros Hfound shift Hshift.
  apply solved_shift_elem in Hshift as (shift_idx & slot & Hslot & ->).
  unfold constraints.validate_pre_assignments.
  cbn [Shift.date Shift.shift_time Shift.assigned_employees].
  apply forallb_forall. intros required Hrequired.
  apply in_map_iff in Hrequired as (pre & <- & Hpre).
  apply filter_In in Hpre as [Hpre Hmatch].
  unfold known_pre_assigned in Hpre. apply filter_In in Hpre as [Hpre Hknown].
  apply andb_true_iff in Hmatch as [Hdate Htime].
  apply Z.eqb_eq in Hdate. apply String.eqb_eq in Htime.
  destruct (solution_pre_assigned rt self pre shift_idx slot Hfound
              (proj2 (list_elem_of_In _ _) Hpre) Hknown Hslot
              (eq_sym Hdate) (eq_sym Htime))
    as (employee & Hin & Hname).
  apply existsb_exists. exists (Employee.name employee). split.
  - apply in_map, list_elem_of_In, Hin.
  - rewrite Hname. apply String.eqb_refl.
Qed.

Lemma solved_schedule_keeps_pre_assignments_witness :
  known_pre_assigned clinic_scheduler
  = [PreAssignedShift.mk "A" monday_2025_01_06 "早"]
  ∧ Forall
      (fun shift =>
         constraints.validate_pre_assignments shift
           (known_pre_assigned clinic_scheduler) = true)
      (Schedule.shifts (solved_schedule clinic_runtime clinic_scheduler)).
Proof.
  split; [reflexivity|].
  apply Forall_forall. intros shift Hshift.
  exact (solved_schedule_keeps_pre_assignments clinic_runtime clinic_scheduler
           clinic_solution_found shift Hshift).
Defined.

(** ** Headcount and capability in the solved schedule *)

(** Counting the employees the values put on a slot is adding the values
    up, over the whole roster and over those with a flag. *)
Lemma count_flagged {A} (flag : A → bool) (σ : IntVar → Z) (g : nat → IntVar)
  (l : list A) (a : nat) :
  (∀ e, (a ≤ e < a + length l)%nat → is_bool (σ (g e)) = true) →
  len (List.filter flag
         (map snd (List.filter (fun '(e, _) => negb (σ (g e) =? 0))
                               (zip (seq a (length l)) l))))
  = total σ (map g (map fst (List.filter (fun '(_, x) => flag x)
                                         (zip (seq a (length l)) l)))).
Proof.
  unfold len. revert a. induction l as [|x l IH]; intros a Hbool;
    [reflexivity|].
  assert (Hrest : ∀ e, (S a ≤ e < S a + length l)%nat →
                       is_bool (σ (g e)) = true).
  { intros e He. apply Hbool. simpl. lia. }
  specialize (IH (S a) Hrest).
  pose proof (Hbool a ltac:(simpl; lia)) as Ha.
  unfold is_bool in Ha. cbn [length seq zip zip_with List.filter].
  apply orb_true_iff in Ha as [Ha | Ha]; apply Z.eqb_eq in Ha;
    rewrite Ha; cbn [Z.eqb negb map snd List.filter];
    destruct (flag x); unfold total in *; cbn [map fst foldr length];
    rewrite ?Nat2Z.inj_succ; lia.
Qed.

Lemma count_all {A} (σ : IntVar → Z) (g : nat → IntVar) (l : list A)
  (a : nat) :
  (∀ e, (a ≤ e < a + length l)%nat → is_bool (σ (g e)) = true) →
  len (map snd (List.filter (fun '(e, _) => negb (σ (g e) =? 0))
                            (zip (seq a (length l)) l)))
  = total σ (map g (seq a (length l))).
Proof.
  unfold len. revert a. induction l as [|x l IH]; intros a Hbool;
    [reflexivity|].
  assert (Hrest : ∀ e, (S a ≤ e < S a + length l)%nat →
                       is_bool (σ (g e)) = true).
  { intros e He. apply Hbool. simpl. lia. }
  specialize (IH (S a) Hrest).
  pose proof (Hbool a ltac:(simpl; lia)) as Ha.
  unfold is_bool in Ha. cbn [length seq zip zip_with List.filter].
  apply orb_true_iff in Ha as [Ha | Ha]; apply Z.eqb_eq in Ha;
    rewrite Ha; unfold total in *; cbn [Z.eqb negb map snd foldr length];
    rewrite ?Nat2Z.inj_succ; lia.
Qed.

Lemma total_nonneg (σ : IntVar → Z) (vars : list IntVar) :
  (∀ v, v ∈ vars → is_bool (σ v) = true) → 0 ≤ total σ vars.
Proof.
  induction vars as [|v vars IH]; intros Hbool; simpl; [lia|].
  pose proof (Hbool v ltac:(left)) as Hv. unfold is_bool in Hv.
  assert (0 ≤ total σ vars) by (apply IH; intros u Hu; apply Hbool; right;
                                exact Hu).
  unfold total in *. apply orb_true_iff in Hv as [Hv|Hv];
    apply Z.eqb_eq in Hv; lia.
Qed.

(** The values of one slot's decision variables are Boolean, row by row. *)
Lemma slot_values_bool (rt : Runtime) (self : ORToolsScheduler.t)
  (shift_idx : nat) :
  solution_found rt self →
  (shift_idx < length (ORToolsScheduler.generate_month_template self))%nat →
  ∀ e, (0 ≤ e < 0 + length (ORToolsScheduler.employees self))%nat →
       is_bool (Value (answer rt self)
                  (ORToolsScheduler.var_at
                     (fst (ORToolsScheduler.build_model self)) e shift_idx))
       = true.
Proof.
  intros Hfound Hshift e He.
  destruct (built_model_spec self) as (-> & _ & _).
  rewrite created_rows_lookup by lia.
  apply solution_shift_var_bool; [exact Hfound | lia | exact Hshift].
Qed.

(** The employees with a flag on a slot of the solved schedule number as
    many as the values of the flag's pool add up to. *)
Lemma assigned_flagged (rt : Runtime) (self : ORToolsScheduler.t)
  (flag : Employee.t → bool) (shift_idx : nat) :
  solution_found rt self →
  (shift_idx < length (ORToolsScheduler.generate_month_template self))%nat →
  len (List.filter flag (assigned_at rt self shift_idx))
  = total (Value (answer rt self))
          (pool_vars flag (ORToolsScheduler.employees self)
             (fst (ORToolsScheduler.build_model self)) shift_idx).
Proof.
  intros Hfound Hshift.
  exact (count_flagged flag (Value (answer rt self))
           (fun e => ORToolsScheduler.var_at
                       (fst (ORToolsScheduler.build_model self)) e shift_idx)
           (ORToolsScheduler.employees self) 0
           (slot_values_bool rt self shift_idx Hfound Hshift)).
Qed.

Lemma assigned_all (rt : Runtime) (self : ORToolsScheduler.t)
  (shift_idx : nat) :
  solution_found rt self →
  (shift_idx < length (ORToolsScheduler.generate_month_template self))%nat →
  len (assigned_at rt self shift_idx)
  = total (Value (answer rt self))
          (slot_vars (ORToolsScheduler.employees self)
             (fst (ORToolsScheduler.build_model self)) shift_idx).
Proof.
  intros Hfound Hshift.
  exact (count_all (Value (answer rt self))
           (fun e => ORToolsScheduler.var_at
                       (fst (ORToolsScheduler.build_model self)) e shift_idx)
           (ORToolsScheduler.employees self) 0
           (slot_values_bool rt self shift_idx Hfound Hshift)).
Qed.

(** A pool is empty exactly when no employee of the roster has the flag. *)
Lemma pool_vars_nil (flag : Employee.t → bool) (employees : list Employee.t)
  (shift_vars : list (list IntVar)) (shift_idx : nat) :
  existsb flag employees = true →
  pool_vars flag employees shift_vars shift_idx ≠ [].
Proof.
  intros Hsome Hnil. apply existsb_exists in Hsome as (emp & Hin & Hflag).
  apply list_elem_of_In, list_elem_of_lookup in Hin as (i & Hi).
  assert (Hmember : (i, emp) ∈ List.filter (fun '(_, emp) => flag emp)
                                           (enumerate employees)).
  { apply list_elem_of_In, filter_In. split; [|exact Hflag].
    apply list_elem_of_In, enumerate_elem. exact Hi. }
  unfold pool_vars in Hnil.
  destruct (List.filter _ (enumerate employees)) as [|p ps];
    [inversion Hmember | discriminate].
Qed.

(** What the posted requirement of a slot says of a solution. *)
Lemma solution_requirement (rt : Runtime) (self : ORToolsScheduler.t)
  (shift_idx : nat) (slot : Shift.t) (requirement : ShiftRequirement.t) :
  solution_found rt self →
  ORToolsScheduler.generate_month_template self !! shift_idx = Some slot →
  requirement_of self slot = Some requirement →
  let relaxed := ORToolsScheduler.relaxed_requirements self in
  let employees := ORToolsScheduler.employees self in
  let crew := assigned_at rt self shift_idx in
  len crew = ShiftRequirement.num_people requirement
  ∧ (existsb Employee.is_leader employees = true →
     required_minimum relaxed (ShiftRequirement.num_leaders requirement)
     ≤ len (List.filter Employee.is_leader crew))
  ∧ (existsb Employee.can_inject employees = true →
     required_minimum relaxed (ShiftRequirement.num_injectors requirement)
     ≤ len (List.filter Employee.can_inject crew))
  ∧ (existsb is_leader_or_injector employees = true →
     required_minimum relaxed
       (ShiftRequirement.num_leader_or_injector requirement)
     ≤ len (List.filter is_leader_or_injector crew)).
Proof.
  intros Hfound Hslot Hreq relaxed employees crew.
  pose proof (lookup_lt_Some _ _ _ Hslot) as Hlt.
  assert (Hposted :
            ∀ c, c ∈ posted_requirement self
                       (fst (ORToolsScheduler.build_model self))
                       shift_idx requirement →
                 holds (Value (answer rt self)) c = true).
  { intros c Hc. apply (solution_holds rt self c Hfound).
    destruct (built_model_spec self) as (Hrows & _ & ->).
    rewrite Hrows in Hc.
    apply elem_of_app. right. apply elem_of_app. right.
    apply elem_of_app. right. apply elem_of_app. left.
    unfold posted_requirements. apply list_elem_of_In, in_flat_map.
    exists (shift_idx, slot). split.
    - apply list_elem_of_In, enumerate_elem. exact Hslot.
    - rewrite Hreq. apply list_elem_of_In. exact Hc. }
  assert (Hminimum :
            ∀ flag minimum,
              existsb flag employees = true →
              Linear (ExprGe
                        (py_sum (pool_vars flag employees
                                   (fst (ORToolsScheduler.build_model self))
                                   shift_idx))
                        (Const minimum))
                ∈ posted_requirement self
                    (fst (ORToolsScheduler.build_model self))
                    shift_idx requirement →
              minimum ≤ len (List.filter flag crew)).
  { intros flag minimum Hsome Hin. apply Hposted in Hin.
    simpl in Hin. rewrite eval_py_sum in Hin.
    unfold crew. rewrite (assigned_flagged rt self flag shift_idx Hfound Hlt).
    apply Z.geb_le in Hin. exact Hin. }
  unfold posted_requirement in Hposted, Hminimum. cbv zeta in Hposted, Hminimum.
  fold relaxed employees in Hposted, Hminimum.
  split; [|split; [|split]].
  - unfold crew. rewrite (assigned_all rt self shift_idx Hfound Hlt).
    specialize (Hposted _ ltac:(left)). simpl in Hposted.
    rewrite eval_py_sum in Hposted. apply Z.eqb_eq in Hposted. exact Hposted.
  - intros Hsome. apply (Hminimum _ _ Hsome).
    right. apply elem_of_app. left.
    pose proof (pool_vars_nil Employee.is_leader employees
                  (fst (ORToolsScheduler.build_model self)) shift_idx Hsome).
    unfold posted_minimum.
    destruct (pool_vars Employee.is_leader employees _ shift_idx);
      [congruence | left].
  - intros Hsome. apply (Hminimum _ _ Hsome).
    right. apply elem_of_app. right. apply elem_of_app. left.
    pose proof (pool_vars_nil Employee.can_inject employees
                  (fst (ORToolsScheduler.build_model self)) shift_idx Hsome).
    unfold posted_minimum.
    destruct (pool_vars Employee.can_inject employees _ shift_idx);
      [congruence | left].
  - intros Hsome. apply (Hminimum _ _ Hsome).
    right. apply elem_of_app. right. apply elem_of_app. right.
    pose proof (pool_vars_nil is_leader_or_injector employees
                  (fst (ORToolsScheduler.build_model self)) shift_idx Hsome).
    unfold posted_minimum.
    destruct (pool_vars is_leader_or_injector employees _ shift_idx);
      [congruence | left].
Qed.

(** X6. In the schedule read off a solution, a shift whose weekday and
    shift time have a requirement has exactly [num_people] employees, and
    reaches each capability minimum (halved, rounded down, under
    relaxation) for which the roster has at least one employee who
    counts. *)
Theorem solved_schedule_meets_requirement (rt : Runtime)
  (self : ORToolsScheduler.t) :
  solution_found rt self →
  ∀ shift requirement,
    shift ∈ Schedule.shifts (solved_schedule rt self) →
    requirement_of self shift = Some requirement →
    let relaxed := ORToolsScheduler.relaxed_requirements self in
    let employees := ORToolsScheduler.employees self in
    len (Shift.assigned_employees shift)
    = ShiftRequirement.num_people requirement
    ∧ (existsb Employee.is_leader employees = true →
       required_minimum relaxed (ShiftRequirement.num_leaders requirement)
       ≤ Shift.count_leaders shift)
    ∧ (existsb Employee.can_inject employees = true →
       required_minimum relaxed (ShiftRequirement.num_injectors requirement)
       ≤ Shift.count_injectors shift)
    ∧ (existsb is_leader_or_injector employees = true →
       required_minimum relaxed
         (ShiftRequirement.num_leader_or_injector requirement)
       ≤ Shift.count_leader_or_injector shift).
Proof.
  intros Hfound shift requirement Hshift Hreq.
  apply solved_shift_elem in Hshift as (shift_idx & slot & Hslot & ->).
  exact (solution_requirement rt self shift_idx slot requirement
           Hfound Hslot Hreq).
Qed.

Lemma solved_schedule_meets_requirement_witness :
  Forall
    (fun shift =>
       len (Shift.assigned_employees shift) = 2
       ∧ 1 ≤ Shift.count_leaders shift
       ∧ 1 ≤ Shift.count_injectors shift
       ∧ 2 ≤ Shift.count_leader_or_injector shift)
    (Schedule.shifts (solved_schedule clinic_runtime clinic_scheduler)).
Proof.
  apply Forall_forall. intros shift Hshift.
  assert (Hreq : ∃ requirement,
             requirement_of clinic_scheduler shift = Some requirement
             ∧ ShiftRequirement.num_people requirement = 2
             ∧ ShiftRequirement.num_leaders requirement = 1
             ∧ ShiftRequirement.num_injectors requirement = 1
             ∧ ShiftRequirement.num_leader_or_injector requirement = 2).
  { revert shift Hshift. apply Forall_forall.
    vm_compute. repeat constructor; eexists; repeat split. }
  destruct Hreq as (requirement & Hreq & Hpeople & Hleaders & Hinjectors
                    & Hboth).
  destruct (solved_schedule_meets_requirement clinic_runtime clinic_scheduler
              clinic_solution_found shift requirement Hshift Hreq)
    as (Hcount & Hl & Hi & Hb).
  rewrite Hpeople in Hcount. rewrite Hleaders in Hl.
  rewrite Hinjectors in Hi. rewrite Hboth in Hb.
  split; [exact Hcount|].
  split; [apply Hl; reflexivity|].
  split; [apply Hi; reflexivity | apply Hb; reflexivity].
Defined.

(** X7. In the schedule read off a solution, a shift whose weekday and
    shift time have a requirement passes [validate_shift_requirements],
    run with the scheduler's relaxation flag, provided each minimum is
    backed: the roster has an employee who counts towards it, or the
    minimum is not above zero. *)
Theorem solved_schedule_validates (rt : Runtime) (self : ORToolsScheduler.t) :
  solution_found rt self →
  ∀ shift requirement,
    shift ∈ Schedule.shifts (solved_schedule rt self) →
    requirement_of self shift = Some requirement →
    let relaxed := ORToolsScheduler.relaxed_requirements self in
    let employees := ORToolsScheduler.employees self in
    minimum_backed relaxed employees Employee.is_leader
      (ShiftRequirement.num_leaders requirement) →
    minimum_backed relaxed employees Employee.can_inject
      (ShiftRequirement.num_injectors requirement) →
    minimum_backed relaxed employees is_leader_or_injector
      (ShiftRequirement.num_leader_or_injector requirement) →
    constraints.validate_shift_requirements shift requirement relaxed = true.
Proof.
  intros Hfound shift requirement Hshift Hreq relaxed employees Hl Hi Hb.
  apply solved_shift_elem in Hshift as (shift_idx & slot & Hslot & ->).
  destruct (solution_requirement rt self shift_idx slot requirement
              Hfound Hslot Hreq) as (Hcount & Hleaders & Hinjectors & Hboth).
  fold relaxed employees in Hleaders, Hinjectors, Hboth.
  set (crew := assigned_at rt self shift_idx) in *.
  assert (Hl' : required_minimum relaxed
                  (ShiftRequirement.num_leaders requirement)
                ≤ len (List.filter Employee.is_leader crew)).
  { destruct Hl as [Hl|Hl]; [apply Hleaders, Hl|]. unfold len. lia. }
  assert (Hi' : required_minimum relaxed
                  (ShiftRequirement.num_injectors requirement)
                ≤ len (List.filter Employee.can_inject crew)).
  { destruct Hi as [Hi|Hi]; [apply Hinjectors, Hi|]. unfold len. lia. }
  assert (Hb' : required_minimum relaxed
                  (ShiftRequirement.num_leader_or_injector requirement)
                ≤ len (List.filter is_leader_or_injector crew)).
  { destruct Hb as [Hb|Hb]; [apply Hboth, Hb|]. unfold len. lia. }
  clear Hl Hi Hb Hleaders Hinjectors Hboth.
  unfold constraints.validate_shift_requirements, Shift.count_leaders,
    Shift.count_injectors, Shift.count_leader_or_injector.
  cbn [Shift.assigned_employees].
  change (List.filter (fun emp => Employee.is_leader emp
                                  || Employee.can_inject emp) crew)
    with (List.filter is_leader_or_injector crew).
  unfold required_minimum in Hl', Hi', Hb'.
  rewrite Hcount, Z.eqb_refl. cbn [negb]. cbv zeta.
  destruct relaxed; case_comparisons; try reflexivity; lia.
Qed.

Lemma solved_schedule_validates_witness :
  Forall
    (fun shift =>
       constraints.validate_shift_requirements shift
         (ShiftRequirement.mk (weekday (Shift.date shift) + 1)
            (Shift.shift_time shift) 2 1 1 2) false
       = true)
    (Schedule.shifts (solved_schedule clinic_runtime clinic_scheduler)).
Proof.
  apply Forall_forall. intros shift Hshift.
  assert (Hreq : requirement_of clinic_scheduler shift
                 = Some (ShiftRequirement.mk (weekday (Shift.date shift) + 1)
                           (Shift.shift_time shift) 2 1 1 2)).
  { revert shift Hshift. apply Forall_forall.
    vm_compute. repeat constructor. }
  apply (solved_schedule_validates clinic_runtime clinic_scheduler
           clinic_solution_found shift _ Hshift Hreq);
    left; reflexivity.
Defined.

(** ** Solutions of the model, whoever found them *)

Lemma satisfying_holds (σ : IntVar → Z) (m : CpModel) (c : Constraint) :
  satisfies σ m = true → c ∈ constraints m → holds σ c = true.
Proof.
  intros Hsat Hin. unfold satisfies in Hsat.
  apply andb_true_iff in Hsat as [_ Hcs].
  rewrite forallb_forall in Hcs. apply Hcs, list_elem_of_In, Hin.
Qed.

Lemma satisfying_bool (σ : IntVar → Z) (m : CpModel) (v : IntVar) :
  satisfies σ m = true → v ∈ variables m → is_bool (σ v) = true.
Proof.
  intros Hsat Hin. unfold satisfies in Hsat.
  apply andb_true_iff in Hsat as [Hvs _].
  rewrite forallb_forall in Hvs. apply Hvs, list_elem_of_In, Hin.
Qed.

Lemma satisfying_shift_var (σ : IntVar → Z) (self : ORToolsScheduler.t)
  (emp_idx shift_idx : nat) :
  satisfies σ (snd (ORToolsScheduler.build_model self)) = true →
  (emp_idx < length (ORToolsScheduler.employees self))%nat →
  (shift_idx < length (ORToolsScheduler.generate_month_template self))%nat →
  is_bool (σ (ORToolsScheduler.var_at
                (fst (ORToolsScheduler.build_model self)) emp_idx shift_idx))
  = true.
Proof.
  intros Hsat Hemp Hshift.
  destruct (built_model_spec self) as (Hrows & Hvars & _).
  rewrite Hrows, created_rows_lookup by assumption.
  apply (satisfying_bool σ _ _ Hsat). rewrite Hvars.
  apply elem_of_app. right. apply elem_of_app. left.
  apply created_rows_elem; assumption.
Qed.

(** The week of every slot of the template is one of the weeks the
    full-time constraints run over, with all the slots of that week. *)
Lemma week_of_slot (self : ORToolsScheduler.t) (shift_idx : nat)
  (slot : Shift.t) :
  ORToolsScheduler.generate_month_template self !! shift_idx = Some slot →
  let week_key := ORToolsScheduler.iso_week_key (Shift.date slot) in
  (week_key, week_slots self week_key)
    ∈ weeks_of (ORToolsScheduler.generate_month_template self).
Proof.
  intros Hslot week_key. unfold weeks_of, week_slots.
  fold slot_week.
  destruct (grouped_grouping slot_week
              (enumerate (ORToolsScheduler.generate_month_template self)))
    as (_ & Hgroups & Hkeys).
  assert (Hin : (shift_idx, slot)
                  ∈ enumerate (ORToolsScheduler.generate_month_template self))
    by (apply enumerate_elem; exact Hslot).
  apply Hkeys in Hin. change (slot_week (shift_idx, slot)) with week_key in Hin.
  apply list_elem_of_fmap in Hin as ([k g] & Hfst & Hin). simpl in Hfst.
  subst k. destruct (Hgroups _ _ Hin) as [<- _]. exact Hin.
Qed.

(** Whatever is posted for a week of a full-time employee holds in a
    solution. *)
Lemma satisfying_week (σ : IntVar → Z) (self : ORToolsScheduler.t)
  (emp_idx : nat) (employee : Employee.t) (week : Z * list (nat * Shift.t))
  (c : Constraint) :
  satisfies σ (snd (ORToolsScheduler.build_model self)) = true →
  ORToolsScheduler.employees self !! emp_idx = Some employee →
  Employee.is_fulltime employee = true →
  week ∈ weeks_of (ORToolsScheduler.generate_month_template self) →
  c ∈ posted_week self (fst (ORToolsScheduler.build_model self)) emp_idx week →
  holds σ c = true.
Proof.
  intros Hsat Hemp Hfull Hweek Hc. apply (satisfying_holds σ _ c Hsat).
  destruct (built_model_spec self) as (Hrows & _ & ->). rewrite Hrows in Hc.
  do 5 (apply elem_of_app; right). apply elem_of_app. left.
  unfold posted_fulltime. apply list_elem_of_In, in_flat_map.
  exists (emp_idx, employee). split.
  - apply list_elem_of_In, enumerate_elem. exact Hemp.
  - rewrite Hfull. cbn [negb]. apply in_flat_map. exists week.
    split; apply list_elem_of_In; assumption.
Qed.

(** The slots of a week are slots of the template. *)
Lemma week_slots_elem (self : ORToolsScheduler.t) (week_key : Z)
  (p : nat * Shift.t) :
  p ∈ week_slots self week_key
  ↔ ORToolsScheduler.generate_month_template self !! fst p = Some (snd p)
    ∧ slot_week p = week_key.
Proof.
  unfold week_slots. rewrite members_elem. destruct p as [i slot].
  rewrite enumerate_elem. reflexivity.
Qed.

Lemma total_worked {B} (σ : IntVar → Z) (x : nat → IntVar)
  (G : list (nat * B)) :
  (∀ p, p ∈ G → is_bool (σ (x (fst p))) = true) →
  total σ (map x (map fst G))
  = len (List.filter (fun p => negb (σ (x (fst p)) =? 0)) G).
Proof.
  unfold len. induction G as [|p G IH]; intros Hbool; [reflexivity|].
  pose proof (Hbool p ltac:(left)) as Hp. unfold is_bool in Hp.
  assert (Hrest : ∀ q, q ∈ G → is_bool (σ (x (fst q))) = true)
    by (intros q Hq; apply Hbool; right; exact Hq).
  specialize (IH Hrest). unfold total in *. cbn [map foldr List.filter].
  apply orb_true_iff in Hp as [Hp|Hp]; apply Z.eqb_eq in Hp; rewrite Hp;
    cbn [Z.eqb negb length]; rewrite ?Nat2Z.inj_succ; lia.
Qed.

(** The weekly count of a full-time employee, in a solution. *)
Lemma satisfying_week_count (σ : IntVar → Z) (self : ORToolsScheduler.t)
  (emp_idx : nat) (employee : Employee.t) (shift_idx : nat) (slot : Shift.t) :
  satisfies σ (snd (ORToolsScheduler.build_model self)) = true →
  ORToolsScheduler.employees self !! emp_idx = Some employee →
  Employee.is_fulltime employee = true →
  ORToolsScheduler.generate_month_template self !! shift_idx = Some slot →
  shift_count_ok (ORToolsScheduler.relaxed_shifts self)
    (total σ
       (map (fun s_idx =>
               ORToolsScheduler.var_at
                 (fst (ORToolsScheduler.build_model self)) emp_idx s_idx)
            (map fst
               (week_slots self
                  (ORToolsScheduler.iso_week_key (Shift.date slot)))))).
Proof.
  intros Hsat Hemp Hfull Hslot.
  pose proof (week_of_slot self shift_idx slot Hslot) as Hweek.
  cbv zeta in Hweek.
  pose proof (fun c => satisfying_week σ self emp_idx employee _ c
                         Hsat Hemp Hfull Hweek) as Hposted.
  unfold posted_week, posted_week_count in Hposted. cbn [fst snd] in Hposted.
  unfold shift_count_ok.
  destruct (ORToolsScheduler.relaxed_shifts self).
  - pose proof (Hposted _ ltac:(left)) as Hge.
    pose proof (Hposted _ ltac:(right; left)) as Hle.
    simpl in Hge, Hle. rewrite eval_py_sum in Hge, Hle.
    apply Z.geb_le in Hge. apply Z.leb_le in Hle. split; assumption.
  - pose proof (Hposted _ ltac:(left)) as Heq.
    simpl in Heq. rewrite eval_py_sum in Heq.
    apply Z.eqb_eq in Heq. exact Heq.
Qed.

(** *** The days of a week *)

Lemma dd_append_map {V W} (h : V → W) (k : Z) (v : V) (d : list (Z * list V)) :
  dd_append k (h v) (map (fun kg => (fst kg, map h (snd kg))) d)
  = map (fun kg => (fst kg, map h (snd kg))) (dd_append k v d).
Proof.
  induction d as [|[k0 g0] d IH]; [reflexivity|].
  cbn [map dd_append fst snd]. destruct (k0 =? k); cbn [map fst snd].
  - rewrite map_app. reflexivity.
  - rewrite IH. reflexivity.
Qed.

Lemma week_by_date_from (G : list (nat * Shift.t))
  (d : list (Z * list (nat * Shift.t))) :
  fold_left
    (fun acc '(s_idx, shift) => dd_append (Shift.date shift) s_idx acc)
    G (map (fun kg => (fst kg, map fst (snd kg))) d)
  = map (fun kg => (fst kg, map fst (snd kg)))
        (fold_left (fun acc v => dd_append (slot_date v) v acc) G d).
Proof.
  revert d. induction G as [|[s_idx shift] G IH]; intros d; [reflexivity|].
  cbn [fold_left]. rewrite <- IH. f_equal.
  exact (dd_append_map fst (Shift.date shift) (s_idx, shift) d).
Qed.

Lemma week_by_date_grouped (G : list (nat * Shift.t)) :
  week_by_date G
  = map (fun kg => (fst kg, map fst (snd kg))) (grouped slot_date G).
Proof. exact (week_by_date_from G []). Qed.

(** The groups of a week by date: no date twice, under every date the
    indices of its slots, which are not none, and every slot's date
    present. *)
Lemma week_by_date_spec (G : list (nat * Shift.t)) :
  NoDup (week_by_date G).*1
  ∧ (∀ d idxs, (d, idxs) ∈ week_by_date G →
               idxs = map fst (members slot_date d G) ∧ idxs ≠ [])
  ∧ (∀ p, p ∈ G → slot_date p ∈ (week_by_date G).*1).
Proof.
  destruct (grouped_grouping slot_date G) as (Hnodup & Hgroups & Hkeys).
  assert (Hfst : (week_by_date G).*1 = (grouped slot_date G).*1).
  { rewrite week_by_date_grouped.
    change (?f <$> ?l) with (map f l). rewrite map_map. reflexivity. }
  rewrite Hfst. split; [exact Hnodup|]. split; [|exact Hkeys].
  intros d idxs Hin. rewrite week_by_date_grouped in Hin.
  apply list_elem_of_In, in_map_iff in Hin as ([k g] & Heq & Hin).
  cbn [fst snd] in Heq. injection Heq as -> <-.
  apply list_elem_of_In in Hin. destruct (Hgroups _ _ Hin) as [-> Hnonempty].
  split; [reflexivity|].
  destruct (members slot_date d G); [congruence | discriminate].
Qed.

Lemma fold_max_bounds (l : list Z) (a : Z) :
  a ≤ fold_left Z.max l a ∧ ∀ y, y ∈ l → y ≤ fold_left Z.max l a.
Proof.
  revert a. induction l as [|z l IH]; intros a; cbn [fold_left].
  - split; [lia|]. intros y Hy. apply elem_of_nil in Hy. contradiction.
  - destruct (IH (Z.max a z)) as [Hfirst Hrest]. split; [lia|].
    intros y Hy. apply elem_of_cons in Hy as [->|Hy]; [lia|].
    apply Hrest, Hy.
Qed.

(** A target tied to a list of values by [AddMaxEquality] is at least each
    of them. *)
Lemma max_equality_bounds (σ : IntVar → Z) (target : IntVar)
  (vars : list IntVar) :
  holds σ (MaxEquality target vars) = true →
  ∀ v, v ∈ vars → σ v ≤ σ target.
Proof.
  destruct vars as [|u vars]; [discriminate|].
  cbn [holds]. intros Hmax v Hv. apply Z.eqb_eq in Hmax. rewrite Hmax.
  destruct (fold_max_bounds (map σ vars) (σ u)) as [Hfirst Hrest].
  apply elem_of_cons in Hv as [->|Hv]; [exact Hfirst|].
  apply Hrest. apply list_elem_of_In, in_map, list_elem_of_In, Hv.
Qed.

Lemma days_bound (σ : IntVar → Z) (W : date * list nat → IntVar)
  (P : date * list nat → bool) (D : list (date * list nat)) :
  (∀ group, group ∈ D → (if P group then 1 else 0) ≤ σ (W group)) →
  len (List.filter P D) ≤ total σ (map W D).
Proof.
  unfold len, total. induction D as [|group D IH]; intros Hbound;
    cbn [List.filter map foldr length]; [lia|].
  pose proof (Hbound group ltac:(left)) as Hgroup.
  assert (Hrest : ∀ g, g ∈ D → (if P g then 1 else 0) ≤ σ (W g))
    by (intros g Hg; apply Hbound; right; exact Hg).
  specialize (IH Hrest).
  destruct (P group); cbn [length]; rewrite ?Nat2Z.inj_succ; lia.
Qed.

(** The days a full-time employee works in a week, in a solution: at most
    five, or six when days off are relaxed. *)
Lemma satisfying_week_days (σ : IntVar → Z) (self : ORToolsScheduler.t)
  (emp_idx : nat) (employee : Employee.t) (shift_idx : nat) (slot : Shift.t) :
  satisfies σ (snd (ORToolsScheduler.build_model self)) = true →
  ORToolsScheduler.employees self !! emp_idx = Some employee →
  Employee.is_fulltime employee = true →
  ORToolsScheduler.generate_month_template self !! shift_idx = Some slot →
  len (List.filter
         (works_on σ (fst (ORToolsScheduler.build_model self)) emp_idx)
         (week_by_date
            (week_slots self
               (ORToolsScheduler.iso_week_key (Shift.date slot)))))
  ≤ (if ORToolsScheduler.relaxed_days_off self then 6 else 5).
Proof.
  intros Hsat Hemp Hfull Hslot.
  pose proof (week_of_slot self shift_idx slot Hslot) as Hweek.
  cbv zeta in Hweek.
  set (week_key := ORToolsScheduler.iso_week_key (Shift.date slot)) in *.
  set (G := week_slots self week_key) in *.
  set (rows := fst (ORToolsScheduler.build_model self)) in *.
  pose proof (fun c => satisfying_week σ self emp_idx employee _ c
                         Hsat Hemp Hfull Hweek) as Hposted.
  fold rows in Hposted.
  unfold posted_week in Hposted. cbn [fst snd] in Hposted.
  destruct (week_by_date_spec G) as (_ & Hgroups & _).
  assert (Hlast : total σ (working_vars emp_idx week_key G)
                  ≤ (if ORToolsScheduler.relaxed_days_off self
                     then 6 else 5)).
  { pose proof (Hposted
                  (Linear
                     (ExprLe (py_sum (working_vars emp_idx week_key G))
                        (Const (if ORToolsScheduler.relaxed_days_off self
                                then 6 else 5))))) as Hle.
    cbn [holds eval] in Hle. rewrite eval_py_sum in Hle.
    apply Z.leb_le, Hle.
    apply elem_of_app. right. apply elem_of_app. right. left. }
  etrans; [|exact Hlast]. unfold working_vars.
  apply (days_bound σ (fun group => WorkingVar emp_idx week_key (fst group))).
  intros [d idxs] Hgroup. destruct (Hgroups d idxs Hgroup) as [Hidxs Hsome].
  assert (Hmax : holds σ (MaxEquality (WorkingVar emp_idx week_key d)
                            (map (fun s_idx =>
                                    ORToolsScheduler.var_at rows emp_idx s_idx)
                                 idxs)) = true).
  { apply Hposted. apply elem_of_app. right. apply elem_of_app. left.
    apply list_elem_of_In, in_map_iff. exists (d, idxs).
    split; [reflexivity | apply list_elem_of_In, Hgroup]. }
  pose proof (max_equality_bounds σ _ _ Hmax) as Hbounds.
  assert (Hbool : ∀ s_idx, s_idx ∈ idxs →
                           is_bool (σ (ORToolsScheduler.var_at rows emp_idx
                                         s_idx)) = true).
  { intros s_idx Hin. rewrite Hidxs in Hin.
    apply list_elem_of_In, in_map_iff in Hin as (p & <- & Hp).
    apply list_elem_of_In, members_elem in Hp as [Hp _].
    apply week_slots_elem in Hp as [Hp _].
    apply satisfying_shift_var; [exact Hsat | |].
    - apply lookup_lt_Some in Hemp. exact Hemp.
    - apply lookup_lt_Some in Hp. exact Hp. }
  cbn [fst]. unfold works_on. cbn [snd].
  destruct (existsb _ idxs) eqn:Hworks.
  - apply existsb_exists in Hworks as (s_idx & Hin & Hvalue).
    apply list_elem_of_In in Hin.
    apply negb_true_iff, Z.eqb_neq in Hvalue.
    pose proof (Hbool s_idx Hin) as Hb. unfold is_bool in Hb.
    apply orb_true_iff in Hb as [Hb|Hb]; apply Z.eqb_eq in Hb;
      [contradiction|].
    rewrite <- Hb. apply Hbounds.
    apply list_elem_of_In, in_map, list_elem_of_In, Hin.
  - destruct idxs as [|s_idx idxs]; [contradiction|].
    pose proof (Hbool s_idx ltac:(left)) as Hb. unfold is_bool in Hb.
    pose proof (Hbounds (ORToolsScheduler.var_at rows emp_idx s_idx)
                  ltac:(left)) as Hfirst.
    apply orb_true_iff in Hb as [Hb|Hb]; apply Z.eqb_eq in Hb; lia.
Qed.

(** *** The weeks of the solved schedule *)

Lemma filter_map_swap {A B} (p : B → bool) (f : A → B) (l : list A) :
  List.filter p (map f l) = map f (List.filter (fun a => p (f a)) l).
Proof.
  induction l as [|a l IH]; [reflexivity|]. cbn [map List.filter].
  destruct (p (f a)); cbn [map]; rewrite IH; reflexivity.
Qed.

Lemma filter_filter_swap {A} (p q : A → bool) (l : list A) :
  List.filter p (List.filter q l) = List.filter q (List.filter p l).
Proof.
  induction l as [|a l IH]; [reflexivity|]. cbn [List.filter].
  destruct (q a) eqn:Hq, (p a) eqn:Hp; cbn [List.filter];
    rewrite ?Hq, ?Hp, IH; reflexivity.
Qed.

Lemma solved_schedule_shifts (rt : Runtime) (self : ORToolsScheduler.t) :
  Schedule.shifts (solved_schedule rt self)
  = map (fun p => Shift.mk (slot_date p) (Shift.shift_time (snd p))
                           (assigned_at rt self (fst p)))
        (enumerate (ORToolsScheduler.generate_month_template self)).
Proof.
  unfold solved_schedule, ORToolsScheduler._parse_solution.
  cbn [Schedule.shifts]. apply map_ext. intros [shift_idx shift]. reflexivity.
Qed.

(** With no name twice in the roster, an employee is on a slot of the
    solved schedule exactly when the employee's own decision variable for
    the slot is not 0. *)
Lemma has_employee_assigned (rt : Runtime) (self : ORToolsScheduler.t)
  (emp_idx : nat) (employee : Employee.t) (shift_idx : nat) (d : date)
  (shift_time : string) :
  NoDup (map Employee.name (ORToolsScheduler.employees self)) →
  ORToolsScheduler.employees self !! emp_idx = Some employee →
  Shift.has_employee (Shift.mk d shift_time (assigned_at rt self shift_idx))
                     (Employee.name employee)
  = negb (Value (answer rt self)
            (ORToolsScheduler.var_at (fst (ORToolsScheduler.build_model self))
               emp_idx shift_idx) =? 0).
Proof.
  intros Hnames Hemp. apply Bool.eq_iff_eq_true.
  rewrite has_employee_elem, negb_true_iff, Z.eqb_neq.
  cbn [Shift.assigned_employees]. split.
  - intros (other & Hin & Hname).
    apply assigned_at_elem in Hin as (e & He & Hvalue).
    assert (Hsame : e = emp_idx).
    { apply (NoDup_lookup _ _ _ (Employee.name employee) Hnames).
      - change (map ?f ?l) with (f <$> l).
        rewrite list_lookup_fmap, He. simpl. congruence.
      - change (map ?f ?l) with (f <$> l).
        rewrite list_lookup_fmap, Hemp. reflexivity. }
    subst e. exact Hvalue.
  - intros Hvalue. exists employee. split; [|reflexivity].
    apply assigned_at_elem. exists emp_idx. split; assumption.
Qed.

(** The shifts of an employee in one week of the solved schedule are the
    slots of that week at which the employee's variable is not 0. *)
Lemma week_of_solved (rt : Runtime) (self : ORToolsScheduler.t)
  (emp_idx : nat) (employee : Employee.t) (week_key : Z) :
  NoDup (map Employee.name (ORToolsScheduler.employees self)) →
  ORToolsScheduler.employees self !! emp_idx = Some employee →
  week_of (solved_schedule rt self) employee week_key
  = map (fun p => Shift.mk (slot_date p) (Shift.shift_time (snd p))
                           (assigned_at rt self (fst p)))
        (List.filter
           (fun p => negb (Value (answer rt self)
                             (ORToolsScheduler.var_at
                                (fst (ORToolsScheduler.build_model self))
                                emp_idx (fst p)) =? 0))
           (week_slots self week_key)).
Proof.
  intros Hnames Hemp.
  unfold week_of, Schedule.get_employee_shifts, members, week_slots, members.
  rewrite solved_schedule_shifts, !filter_map_swap. f_equal.
  rewrite filter_filter_swap. cbn [Shift.date].
  apply filter_ext. intros p.
  apply (has_employee_assigned rt self emp_idx employee (fst p) _ _
           Hnames Hemp).
Qed.

Lemma solution_week_bool (rt : Runtime) (self : ORToolsScheduler.t)
  (emp_idx : nat) (employee : Employee.t) (week_key : Z) :
  solution_found rt self →
  ORToolsScheduler.employees self !! emp_idx = Some employee →
  ∀ p, p ∈ week_slots self week_key →
       is_bool (Value (answer rt self)
                  (ORToolsScheduler.var_at
                     (fst (ORToolsScheduler.build_model self))
                     emp_idx (fst p))) = true.
Proof.
  intros [_ Hsat] Hemp p Hp. apply week_slots_elem in Hp as [Hp _].
  apply satisfying_shift_var; [exact Hsat | |].
  - apply lookup_lt_Some in Hemp. exact Hemp.
  - apply lookup_lt_Some in Hp. exact Hp.
Qed.

Lemma NoDup_fst_filter {A B} (p : A * B → bool) (l : list (A * B)) :
  NoDup l.*1 → NoDup (List.filter p l).*1.
Proof.
  induction l as [|x l IH]; intros Hnodup; [constructor|].
  rewrite fmap_cons in Hnodup. apply NoDup_cons in Hnodup as [Hfresh Hnodup].
  cbn [List.filter]. destruct (p x); [|apply IH, Hnodup].
  rewrite fmap_cons. apply NoDup_cons. split; [|apply IH, Hnodup].
  intros Hin. apply Hfresh.
  apply list_elem_of_fmap in Hin as (y & Hfst & Hy).
  apply list_elem_of_In, filter_In in Hy as [Hy _].
  apply list_elem_of_fmap. exists y. split; [exact Hfst|].
  apply list_elem_of_In, Hy.
Qed.

(** The dates an employee works in a week of the solved schedule are
    dates of groups with a slot worked. *)
Lemma worked_dates_bound (σ : IntVar → Z) (rows : list (list IntVar))
  (emp_idx : nat) (G : list (nat * Shift.t)) :
  Z.of_nat
    (size (list_to_set
             (map slot_date
                (List.filter
                   (fun p =>
                      negb (σ (ORToolsScheduler.var_at rows emp_idx (fst p))
                            =? 0)) G)) : gset Z))
  ≤ len (List.filter (works_on σ rows emp_idx) (week_by_date G)).
Proof.
  destruct (week_by_date_spec G) as (Hnodup & Hgroups & Hkeys).
  set (worked := List.filter
                   (fun p =>
                      negb (σ (ORToolsScheduler.var_at rows emp_idx (fst p))
                            =? 0)) G).
  set (D := List.filter (works_on σ rows emp_idx) (week_by_date G)).
  assert (Hsub : (list_to_set (map slot_date worked) : gset Z)
                   ⊆ list_to_set D.*1).
  { intros d Hd. apply elem_of_list_to_set in Hd.
    apply list_elem_of_In, in_map_iff in Hd as (p & <- & Hp).
    apply filter_In in Hp as [Hp Hvalue]. apply list_elem_of_In in Hp.
    pose proof (Hkeys p Hp) as Hkey.
    apply list_elem_of_fmap in Hkey as ([d idxs] & Hfst & Hgroup).
    cbn [fst] in Hfst. subst d.
    apply elem_of_list_to_set, list_elem_of_fmap.
    exists (slot_date p, idxs). split; [reflexivity|].
    apply list_elem_of_In, filter_In.
    split; [apply list_elem_of_In, Hgroup|].
    destruct (Hgroups _ _ Hgroup) as [-> _].
    unfold works_on. cbn [snd]. apply existsb_exists. exists (fst p).
    split; [|exact Hvalue].
    apply in_map, list_elem_of_In, members_elem. split; [exact Hp|reflexivity]. }
  apply subseteq_size in Hsub.
  rewrite (size_list_to_set D.*1) in Hsub
    by (apply NoDup_fst_filter, Hnodup).
  rewrite length_fmap in Hsub. unfold len. lia.
Qed.

Lemma solution_weekly_rules (rt : Runtime)
  (self : ORToolsScheduler.t) (employee : Employee.t) :
  solution_found rt self →
  NoDup (map Employee.name (ORToolsScheduler.employees self)) →
  employee ∈ ORToolsScheduler.employees self →
  Employee.is_fulltime employee = true →
  ∀ slot,
    slot ∈ ORToolsScheduler.generate_month_template self →
    let week :=
      week_of (solved_schedule rt self) employee
              (monday_of (Shift.date slot)) in
    shift_count_ok (ORToolsScheduler.relaxed_shifts self) (len week)
    ∧ worked_days_at_most (ORToolsScheduler.relaxed_days_off self)
                          (size (worked_dates week)).
Proof.
  intros Hfound Hnames Hemp Hfull slot Hslot week.
  apply list_elem_of_lookup in Hemp as (emp_idx & Hemp).
  apply list_elem_of_lookup in Hslot as (shift_idx & Hslot).
  pose proof (proj2 Hfound) as Hsat.
  change (monday_of (Shift.date slot))
    with (ORToolsScheduler.iso_week_key (Shift.date slot)) in week.
  set (week_key := ORToolsScheduler.iso_week_key (Shift.date slot)) in *.
  assert (Hweek : week
                  = map (fun p => Shift.mk (slot_date p)
                                           (Shift.shift_time (snd p))
                                           (assigned_at rt self (fst p)))
                        (List.filter
                           (fun p =>
                              negb (Value (answer rt self)
                                      (ORToolsScheduler.var_at
                                         (fst (ORToolsScheduler.build_model
                                                 self))
                                         emp_idx (fst p)) =? 0))
                           (week_slots self week_key)))
    by (apply week_of_solved; assumption).
  split.
  - pose proof (satisfying_week_count _ self emp_idx employee shift_idx slot
                  Hsat Hemp Hfull Hslot) as Hcount.
    fold week_key in Hcount.
    pose proof (total_worked (Value (answer rt self))
                  (fun s_idx =>
                     ORToolsScheduler.var_at
                       (fst (ORToolsScheduler.build_model self)) emp_idx s_idx)
                  (week_slots self week_key)
                  (solution_week_bool rt self emp_idx employee week_key
                     Hfound Hemp)) as Htotal.
    rewrite Htotal in Hcount. rewrite Hweek. unfold len in *. rewrite length_map. exact Hcount.
  - pose proof (satisfying_week_days _ self emp_idx employee shift_idx slot
                  Hsat Hemp Hfull Hslot) as Hdays.
    fold week_key in Hdays.
    pose proof (worked_dates_bound (Value (answer rt self))
                  (fst (ORToolsScheduler.build_model self)) emp_idx
                  (week_slots self week_key)) as Hbound.
    assert (Hdates : worked_dates week
                     = list_to_set
                         (map slot_date
                            (List.filter
                               (fun p =>
                                  negb (Value (answer rt self)
                                          (ORToolsScheduler.var_at
                                             (fst (ORToolsScheduler.build_model
                                                     self))
                                             emp_idx (fst p)) =? 0))
                               (week_slots self week_key)))).
    { unfold worked_dates. rewrite Hweek.
      change (?f <$> ?l) with (map f l). rewrite map_map. reflexivity. }
    rewrite Hdates. unfold worked_days_at_most.
    destruct (ORToolsScheduler.relaxed_days_off self); lia.
Qed.

(** X8. In the schedule read off a solution, with no name twice in the
    roster, a full-time employee has exactly 10 shifts in every week the
    template reaches (8 to 10 when the shift count is relaxed), and works
    on at most five days of it (six when days off are relaxed). *)
Theorem solved_schedule_weekly_rules (rt : Runtime)
  (self : ORToolsScheduler.t) (employee : Employee.t) :
  solution_found rt self →
  NoDup (map Employee.name (ORToolsScheduler.employees self)) →
  employee ∈ ORToolsScheduler.employees self →
  Employee.is_fulltime employee = true →
  ∀ slot,
    slot ∈ ORToolsScheduler.generate_month_template self →
    let week :=
      week_of (solved_schedule rt self) employee
              (monday_of (Shift.date slot)) in
    shift_count_ok (ORToolsScheduler.relaxed_shifts self) (len week)
    ∧ worked_days_at_most (ORToolsScheduler.relaxed_days_off self)
                          (size (worked_dates week)).
Proof. apply solution_weekly_rules. Qed.

Lemma fulltime_solution_found :
  solution_found fulltime_runtime fulltime_scheduler.
Proof. split; [left; reflexivity | vm_compute; reflexivity]. Qed.

Lemma solved_schedule_weekly_rules_witness :
  len (week_of (solved_schedule fulltime_runtime fulltime_scheduler)
               (full_timer "F") monday_2025_01_06) = 10
  ∧ (size (worked_dates
             (week_of (solved_schedule fulltime_runtime fulltime_scheduler)
                      (full_timer "F") monday_2025_01_06)) ≤ 5)%nat.
Proof.
  assert (Hnames : NoDup (map Employee.name
                            (ORToolsScheduler.employees fulltime_scheduler)))
    by (repeat constructor; apply not_elem_of_nil).
  assert (Hslot : Shift.mk monday_2025_01_06 "早" []
                    ∈ ORToolsScheduler.generate_month_template
                        fulltime_scheduler)
    by (apply (list_elem_of_lookup_2 _ 0%nat); reflexivity).
  exact (solved_schedule_weekly_rules fulltime_runtime fulltime_scheduler
           (full_timer "F") fulltime_solution_found Hnames
           ltac:(left) eq_refl (Shift.mk monday_2025_01_06 "早" []) Hslot).
Defined.

(** ** A start date that is not a Monday *)

(** C2, as the code has it. [generate_schedules] makes no test of
    [start_date] and has no [InvalidStart] path. For every start date,
    Monday or not, whose window ends no later than [date.max], the
    template has [num_weeks * 7 * 3] slots, the slot of week [w], day [d]
    and [k]-th shift time lying [7 * w + d] days after [start_date], all
    of them dates Python has. Once the solver has answered for the model
    built over that template, the call returns by the solver's status
    alone: with [OPTIMAL] or [FEASIBLE] the one schedule read off the
    solver's values, whose shifts have the dates and shift times of the
    template's slots, and otherwise no schedule; the diagnostics carry the
    status name. *)
Theorem generate_schedules_any_start_date (rt : Runtime)
  (self : ORToolsScheduler.t) :
  1 ≤ ORToolsScheduler.start_date self →
  ORToolsScheduler.start_date self + 7 * ORToolsScheduler.num_weeks self - 1
  ≤ date_max →
  let template := ORToolsScheduler.generate_month_template self in
  (length template = (Z.to_nat (ORToolsScheduler.num_weeks self) * 7 * 3)%nat
   ∧ (∀ (w d k : nat) (shift_time : string),
        Z.of_nat w < ORToolsScheduler.num_weeks self → (d < 7)%nat →
        ORToolsScheduler.shift_times !! k = Some shift_time →
        template !! (w * 21 + (d * 3 + k))%nat
        = Some (Shift.mk (ORToolsScheduler.start_date self
                          + (7 * Z.of_nat w + Z.of_nat d)) shift_time []))
   ∧ Forall (fun slot => 1 ≤ Shift.date slot ≤ date_max) template)
  ∧ (status (answer rt self) = OPTIMAL ∨ status (answer rt self) = FEASIBLE →
     ∃ diagnostics,
       ORToolsScheduler.generate_schedules rt self
       = Returned ([solved_schedule rt self], diagnostics)
       ∧ ORToolsScheduler.solver_status diagnostics
         = StatusName (status (answer rt self))
       ∧ Forall2 (fun shift slot =>
                    Shift.date shift = Shift.date slot
                    ∧ Shift.shift_time shift = Shift.shift_time slot)
                 (Schedule.shifts (solved_schedule rt self)) template)
  ∧ (status (answer rt self) ≠ OPTIMAL ∧ status (answer rt self) ≠ FEASIBLE →
     ∃ diagnostics,
       ORToolsScheduler.generate_schedules rt self
       = Returned ([], diagnostics)
       ∧ ORToolsScheduler.solver_status diagnostics
         = StatusName (status (answer rt self))).
Proof.
  intros Hfirst Hlast template. split; [split; [|split]|split].
  - unfold template. rewrite template_length. lia.
  - intros w d k shift_time. apply template_lookup.
  - apply Forall_forall. intros slot Hslot.
    apply list_elem_of_lookup in Hslot as [i Hslot].
    pose proof (lookup_lt_Some _ _ _ Hslot) as Hlt.
    unfold template in Hlt. rewrite template_length in Hlt.
    destruct (template_slot self i slot Hslot) as (-> & _ & _).
    assert (Hdiv : (i / 3 < Z.to_nat (ORToolsScheduler.num_weeks self) * 7)%nat)
      by (apply Nat.Div0.div_lt_upper_bound; lia).
    lia.
  - intros Hstatus.
    destruct (generate_schedules_solved rt self Hstatus)
      as (diagnostics & Hret & Hname & _).
    exists diagnostics. split; [exact Hret|]. split; [exact Hname|].
    apply Forall2_same_length_lookup. split.
    + rewrite solved_schedule_shifts, length_map. apply enumerate_length.
    + intros i shift slot Hshift Hslot.
      rewrite solved_schedule_lookup in Hshift. fold template in Hshift.
      rewrite Hslot in Hshift. injection Hshift as <-. split; reflexivity.
  - intros [Hoptimal Hfeasible]. rewrite generate_schedules_unfold.
    rewrite !bool_decide_eq_false_2 by assumption.
    eexists. split; reflexivity.
Qed.

Example date_max_is_the_last_day :
  datetime.strftime date_max = "9999-12-31"%string
  ∧ datetime.strptime "9999-12-31" = Some date_max
  ∧ datetime.strftime 1 = "0001-01-01"%string.
Proof. vm_compute. repeat split. Qed.

Lemma generate_schedules_any_start_date_witness :
  1 ≤ ORToolsScheduler.start_date tuesday_scheduler
  ∧ ORToolsScheduler.start_date tuesday_scheduler
    + 7 * ORToolsScheduler.num_weeks tuesday_scheduler - 1 ≤ date_max
  ∧ length (ORToolsScheduler.generate_month_template tuesday_scheduler)
    = 21%nat
  ∧ Forall (fun slot => 1 ≤ Shift.date slot ≤ date_max)
           (ORToolsScheduler.generate_month_template tuesday_scheduler).
Proof.
  assert (Hfirst : 1 ≤ ORToolsScheduler.start_date tuesday_scheduler)
    by (vm_compute; discriminate).
  assert (Hlast : ORToolsScheduler.start_date tuesday_scheduler
                  + 7 * ORToolsScheduler.num_weeks tuesday_scheduler - 1
                  ≤ date_max)
    by (vm_compute; discriminate).
  destruct (generate_schedules_any_start_date
              (fixed_answer INFEASIBLE (fun _ => 0)) tuesday_scheduler
              Hfirst Hlast) as ((Hlength & _ & Hrange) & _).
  split; [exact Hfirst|]. split; [exact Hlast|].
  split; [exact Hlength | exact Hrange].
Defined.

(** C2 fails on the code: a scheduler set up on Tuesday 2025-01-07 is not
    refused. Whatever the runtime, the call returns, and the template it
    solved over begins on that Tuesday. *)
Lemma tuesday_start_not_rejected :
  weekday (ORToolsScheduler.start_date tuesday_scheduler) ≠ 0
  ∧ head (ORToolsScheduler.generate_month_template tuesday_scheduler)
    = Some (Shift.mk tuesday_2025_01_07 "早" [])
  ∧ ∀ rt : Runtime,
      ORToolsScheduler.generate_schedules rt tuesday_scheduler
      ≠ Failed InvalidStart.
Proof.
  split; [|split].
  - vm_compute. discriminate.
  - reflexivity.
  - intros rt. rewrite generate_schedules_unfold. discriminate.
Qed.

Lemma filter_enumerate_length {A} (p : nat * A → bool) (l : list A)
  (a c : nat) :
  (∀ i x, l !! i = Some x → p (i, x) = true → (a ≤ i < a + c)%nat) →
  (length (List.filter p (enumerate l)) ≤ c)%nat.
Proof.
  intros Hrange.
  assert (Hnodup : NoDup (List.filter p (enumerate l)).*1).
  { apply NoDup_fst_filter. unfold enumerate.
    rewrite fst_zip by (rewrite length_seq; lia). apply NoDup_seq. }
  assert (Hsub : (List.filter p (enumerate l)).*1 ⊆+ seq a c).
  { apply NoDup_submseteq; [exact Hnodup|]. intros i Hi.
    apply list_elem_of_fmap in Hi as ([j x] & -> & Hjx).
    apply list_elem_of_In, filter_In in Hjx as [Hjx Hp].
    apply list_elem_of_In, enumerate_elem in Hjx.
    apply elem_of_seq. cbn [fst]. apply (Hrange j x Hjx Hp). }
  apply submseteq_length in Hsub.
  rewrite length_seq, length_fmap in Hsub. exact Hsub.
Qed.

(** Two dates of one week lie as far apart as their weekdays. *)
Lemma same_week (d1 d2 : date) :
  ORToolsScheduler.iso_week_key d1 = ORToolsScheduler.iso_week_key d2 →
  d2 - d1 = weekday d2 - weekday d1.
Proof. unfold ORToolsScheduler.iso_week_key. lia. Qed.

Lemma weekday_last (start n : Z) :
  1 ≤ weekday start → weekday (start + 7 * n - 1) = weekday start - 1.
Proof. unfold weekday. intros Hstart. Z.div_mod_to_equations. lia. Qed.

(** In a solution, the slots of a week number at least the shifts a
    full-time employee must have in it. *)
Lemma satisfying_week_size (σ : IntVar → Z) (self : ORToolsScheduler.t)
  (emp_idx : nat) (employee : Employee.t) (shift_idx : nat) (slot : Shift.t) :
  satisfies σ (snd (ORToolsScheduler.build_model self)) = true →
  ORToolsScheduler.relaxed_shifts self = false →
  ORToolsScheduler.employees self !! emp_idx = Some employee →
  Employee.is_fulltime employee = true →
  ORToolsScheduler.generate_month_template self !! shift_idx = Some slot →
  (10 ≤ length (week_slots self
                  (ORToolsScheduler.iso_week_key (Shift.date slot))))%nat.
Proof.
  intros Hsat Hstrict Hemp Hfull Hslot.
  pose proof (satisfying_week_count σ self emp_idx employee shift_idx slot
                Hsat Hemp Hfull Hslot) as Hcount.
  rewrite Hstrict in Hcount. unfold shift_count_ok in Hcount.
  set (G := week_slots self
              (ORToolsScheduler.iso_week_key (Shift.date slot))) in *.
  assert (Hbool : ∀ p, p ∈ G →
                       is_bool (σ (ORToolsScheduler.var_at
                                     (fst (ORToolsScheduler.build_model self))
                                     emp_idx (fst p))) = true).
  { intros p Hp. apply week_slots_elem in Hp as [Hp _].
    apply satisfying_shift_var; [exact Hsat | |].
    - apply lookup_lt_Some in Hemp. exact Hemp.
    - apply lookup_lt_Some in Hp. exact Hp. }
  pose proof (total_worked σ
                (fun s_idx =>
                   ORToolsScheduler.var_at
                     (fst (ORToolsScheduler.build_model self)) emp_idx s_idx)
                G Hbool) as Htotal.
  rewrite Htotal in Hcount. unfold len in Hcount.
  pose proof (filter_length_le
                (fun p => negb (σ (ORToolsScheduler.var_at
                                     (fst (ORToolsScheduler.build_model self))
                                     emp_idx (fst p)) =? 0)) G) as Hle.
  lia.
Qed.

Lemma partial_week_unsatisfiable (σ : IntVar → Z)
  (self : ORToolsScheduler.t) (employee : Employee.t) :
  weekday (ORToolsScheduler.start_date self) ≠ 0 →
  1 ≤ ORToolsScheduler.num_weeks self →
  ORToolsScheduler.relaxed_shifts self = false →
  employee ∈ ORToolsScheduler.employees self →
  Employee.is_fulltime employee = true →
  satisfies σ (snd (ORToolsScheduler.build_model self)) = false.
Proof.
  intros Hstart Hweeks Hstrict Hemp Hfull.
  destruct (satisfies σ _) eqn:Hsat; [exfalso | reflexivity].
  apply list_elem_of_lookup in Hemp as (emp_idx & Hemp).
  pose proof (weekday_range (ORToolsScheduler.start_date self)) as Hwd.
  pose proof (template_length self) as Hlength.
  set (start := ORToolsScheduler.start_date self) in *.
  set (shifts := ORToolsScheduler.generate_month_template self) in *.
  set (n := Z.to_nat (ORToolsScheduler.num_weeks self)) in *.
  assert (Hn : (1 ≤ n)%nat) by lia.
  assert (Hshort : ∃ shift_idx slot a,
             shifts !! shift_idx = Some slot
             ∧ ∀ i x, shifts !! i = Some x →
                      ORToolsScheduler.iso_week_key (Shift.date x)
                      = ORToolsScheduler.iso_week_key (Shift.date slot) →
                      (a ≤ i < a + 9)%nat).
  { destruct (Z_le_gt_dec 4 (weekday start)) as [Hlate|Hearly].
    - destruct (lookup_lt_is_Some_2 shifts 0%nat ltac:(lia)) as [slot Hslot].
      exists 0%nat, slot, 0%nat. split; [exact Hslot|].
      intros i x Hx Hkey.
      apply template_slot in Hslot as (Hdate0 & _).
      apply template_slot in Hx as (Hdate & _).
      fold start in Hdate0, Hdate.
      apply same_week in Hkey. rewrite Hdate, Hdate0 in Hkey.
      change (Z.of_nat (0 / 3)) with 0 in Hkey.
      pose proof (weekday_range (start + Z.of_nat (i / 3))) as Hwi.
      replace (start + 0) with start in Hkey by lia.
      pose proof (Nat.div_mod_eq i 3) as Hi.
      pose proof (Nat.mod_upper_bound i 3 ltac:(lia)) as Hr.
      lia.
    - destruct (lookup_lt_is_Some_2 shifts (n * 21 - 1)%nat ltac:(lia))
        as [slot Hslot].
      exists (n * 21 - 1)%nat, slot, (n * 21 - 9)%nat.
      split; [exact Hslot|].
      intros i x Hx Hkey.
      pose proof (lookup_lt_Some _ _ _ Hx) as Hlt.
      apply template_slot in Hslot as (Hdate0 & _).
      apply template_slot in Hx as (Hdate & _).
      fold start in Hdate0, Hdate.
      assert (Hdiv : ((n * 21 - 1) / 3 = 7 * n - 1)%nat).
      { symmetry. apply (Nat.div_unique _ 3 _ 2); lia. }
      rewrite Hdiv in Hdate0.
      apply same_week in Hkey. rewrite Hdate, Hdate0 in Hkey.
      pose proof (weekday_range (start + Z.of_nat (i / 3))) as Hwi.
      pose proof (weekday_last start (Z.of_nat n) ltac:(lia)) as Hlast.
      replace (start + Z.of_nat (7 * n - 1))
        with (start + 7 * Z.of_nat n - 1) in Hkey by lia.
      rewrite Hlast in Hkey.
      pose proof (Nat.div_mod_eq i 3) as Hi.
      pose proof (Nat.mod_upper_bound i 3 ltac:(lia)) as Hr.
      lia. }
  destruct Hshort as (shift_idx & slot & a & Hslot & Hrange).
  pose proof (satisfying_week_size σ self emp_idx employee shift_idx slot
                Hsat Hstrict Hemp Hfull Hslot) as Hsize.
  unfold week_slots, members in Hsize. fold shifts in Hsize.
  pose proof (filter_enumerate_length
                (fun v => slot_week v
                          =? ORToolsScheduler.iso_week_key (Shift.date slot))
                shifts a 9) as Hle.
  pose proof (Hle (fun i x Hx Hp =>
                     Hrange i x Hx (proj1 (Z.eqb_eq _ _) Hp))) as Hnine.
  lia.
Qed.

(** X9. When the start date is not a Monday, the strict model of a roster
    with a full-time employee has no solution: the template then cuts a
    calendar week down to three days or fewer, nine slots at most, and the
    model asks the full-time employee for exactly ten shifts in it. With a
    sound solver [generate_schedules] then returns no schedule. *)
Theorem partial_week_infeasible (self : ORToolsScheduler.t)
  (employee : Employee.t) :
  weekday (ORToolsScheduler.start_date self) ≠ 0 →
  1 ≤ ORToolsScheduler.num_weeks self →
  ORToolsScheduler.relaxed_shifts self = false →
  employee ∈ ORToolsScheduler.employees self →
  Employee.is_fulltime employee = true →
  ¬ feasible (snd (ORToolsScheduler.build_model self))
  ∧ (∀ rt, sound rt →
           ∃ diagnostics,
             ORToolsScheduler.generate_schedules rt self
             = Returned ([], diagnostics)
             ∧ ORToolsScheduler.valid_count diagnostics = 0).
Proof.
  intros Hstart Hweeks Hstrict Hemp Hfull.
  pose proof (fun σ => partial_week_unsatisfiable σ self employee
                         Hstart Hweeks Hstrict Hemp Hfull) as Hnone.
  split.
  - intros [σ Hsat]. rewrite Hnone in Hsat. discriminate.
  - intros rt Hsound. rewrite generate_schedules_unfold.
    destruct (Hsound (parameters_of self)
                (snd (ORToolsScheduler.build_model self))) as [_ Hfound].
    fold (answer rt self) in Hfound.
    assert (Hno : bool_decide (status (answer rt self) = OPTIMAL)
                  || bool_decide (status (answer rt self) = FEASIBLE)
                  = false).
    { destruct (bool_decide (status (answer rt self) = OPTIMAL)
                || bool_decide (status (answer rt self) = FEASIBLE))
        eqn:Hyes; [|reflexivity].
      apply orb_true_iff in Hyes.
      rewrite !bool_decide_eq_true in Hyes.
      rewrite Hnone in Hfound. specialize (Hfound Hyes). discriminate. }
    rewrite Hno. eexists. split; reflexivity.
Qed.

Lemma partial_week_infeasible_witness :
  ¬ feasible (snd (ORToolsScheduler.build_model tuesday_fulltime_scheduler)).
Proof.
  apply (partial_week_infeasible tuesday_fulltime_scheduler (full_timer "F"));
    [discriminate | reflexivity + lia | reflexivity | left | reflexivity].
Defined.

(** ** Relaxing the model *)

Lemma pool_vars_elem (flag : Employee.t → bool) (employees : list Employee.t)
  (shift_vars : list (list IntVar)) (shift_idx : nat) (v : IntVar) :
  v ∈ pool_vars flag employees shift_vars shift_idx →
  ∃ emp_idx,
    (emp_idx < length employees)%nat
    ∧ v = ORToolsScheduler.var_at shift_vars emp_idx shift_idx.
Proof.
  unfold pool_vars. intros Hv.
  apply list_elem_of_In, in_map_iff in Hv as (emp_idx & <- & Hin).
  apply in_map_iff in Hin as ([i emp] & <- & Hin).
  apply filter_In in Hin as [Hin _].
  apply list_elem_of_In, enumerate_elem, lookup_lt_Some in Hin.
  exists i. split; [exact Hin | reflexivity].
Qed.

(** A minimum that holds still holds halved, over Boolean values. *)
Lemma posted_minimum_relaxed (σ : IntVar → Z) (pool : list IntVar)
  (minimum : Z) (relaxed : bool) (c : Constraint) :
  (∀ v, v ∈ pool → is_bool (σ v) = true) →
  (∀ c, c ∈ posted_minimum pool minimum → holds σ c = true) →
  c ∈ posted_minimum pool (required_minimum relaxed minimum) →
  holds σ c = true.
Proof.
  intros Hbool Hstrict Hc. unfold posted_minimum in *.
  destruct pool as [|v pool]; [inversion Hc|].
  apply list_elem_of_singleton in Hc. subst c.
  specialize (Hstrict _ ltac:(left)). cbn [holds eval] in *.
  rewrite eval_py_sum in *. apply Z.geb_le in Hstrict. apply Z.geb_le.
  pose proof (total_nonneg σ (v :: pool) Hbool) as Hnonneg.
  unfold required_minimum. destruct relaxed; [|exact Hstrict].
  pose proof (required_minimum_floor minimum) as Hfloor.
  unfold required_minimum in Hfloor. lia.
Qed.

(** What is posted for a week when the weekly rules are relaxed holds
    wherever what is posted without relaxation does. *)
Lemma posted_week_relaxed (σ : IntVar → Z) (self : ORToolsScheduler.t)
  (requirements shifts days_off : option bool)
  (shift_vars : list (list IntVar)) (emp_idx : nat)
  (week : Z * list (nat * Shift.t)) (c : Constraint) :
  ORToolsScheduler.relaxed_shifts self = false →
  ORToolsScheduler.relaxed_days_off self = false →
  (∀ c, c ∈ posted_week self shift_vars emp_idx week → holds σ c = true) →
  c ∈ posted_week
        (ORToolsScheduler.relax_constraints self requirements shifts days_off)
        shift_vars emp_idx week →
  holds σ c = true.
Proof.
  intros Hshifts Hdays Hstrict Hc. unfold posted_week in *.
  cbn [ORToolsScheduler.relax_constraints ORToolsScheduler.relaxed_shifts
       ORToolsScheduler.relaxed_days_off] in Hc.
  rewrite Hshifts, Hdays in Hstrict. unfold posted_week_count in *.
  pose proof (Hstrict _ ltac:(left)) as Hcount.
  pose proof (Hstrict
                (Linear (ExprLe (py_sum (working_vars emp_idx (fst week)
                                           (snd week))) (Const 5)))
                ltac:(cbn [app]; right; apply elem_of_app; right; left))
    as Hfive.
  cbn [holds eval] in Hcount, Hfive. rewrite eval_py_sum in Hcount, Hfive.
  apply Z.eqb_eq in Hcount. apply Z.leb_le in Hfive.
  apply elem_of_app in Hc as [Hc|Hc]; [|apply elem_of_app in Hc as [Hc|Hc]].
  - destruct (default false shifts).
    + apply elem_of_cons in Hc as [->|Hc];
        [|apply list_elem_of_singleton in Hc; subst c];
        cbn [holds eval]; rewrite eval_py_sum, Hcount; reflexivity.
    + apply list_elem_of_singleton in Hc. subst c.
      cbn [holds eval]. rewrite eval_py_sum, Hcount. reflexivity.
  - apply Hstrict. cbn [app]. right. apply elem_of_app. left. exact Hc.
  - apply list_elem_of_singleton in Hc. subst c.
    cbn [holds eval]. rewrite eval_py_sum. apply Z.leb_le.
    destruct (default false days_off); lia.
Qed.

Lemma relaxed_model_satisfied (σ : IntVar → Z) (self : ORToolsScheduler.t)
  (requirements shifts days_off : option bool) :
  ORToolsScheduler.relaxed_requirements self = false →
  ORToolsScheduler.relaxed_shifts self = false →
  ORToolsScheduler.relaxed_days_off self = false →
  satisfies σ (snd (ORToolsScheduler.build_model self)) = true →
  satisfies σ
    (snd (ORToolsScheduler.build_model
            (ORToolsScheduler.relax_constraints self requirements shifts
               days_off))) = true.
Proof.
  intros Hreq Hshifts Hdays Hsat.
  set (self' := ORToolsScheduler.relax_constraints self requirements shifts
                  days_off).
  pose proof (fun c => satisfying_holds σ _ c Hsat) as Hholds.
  pose proof (fun e i => satisfying_shift_var σ self e i Hsat) as Hbool.
  destruct (built_model_spec self) as (Hrows & Hvars & Hcs).
  destruct (built_model_spec self') as (_ & Hvars' & Hcs').
  cbv zeta in Hrows, Hvars, Hcs, Hvars', Hcs'.
  rewrite Hrows in Hbool. rewrite Hcs in Hholds.
  set (template := ORToolsScheduler.generate_month_template self) in *.
  change (ORToolsScheduler.generate_month_template self') with template
    in Hvars', Hcs'.
  change (created_rows self' template) with (created_rows self template)
    in Hvars', Hcs'.
  set (rows := created_rows self template) in *.
  unfold satisfies in *. apply andb_true_iff in Hsat as [Hbools _].
  apply andb_true_iff. split.
  - rewrite Hvars'. rewrite Hvars in Hbools. exact Hbools.
  - apply forallb_forall. intros c Hc. apply list_elem_of_In in Hc.
    rewrite Hcs' in Hc.
    apply elem_of_app in Hc as [Hc|Hc];
      [apply Hholds, elem_of_app; left; exact Hc|].
    apply elem_of_app in Hc as [Hc|Hc];
      [apply Hholds; do 1 (apply elem_of_app; right); apply elem_of_app;
       left; exact Hc|].
    apply elem_of_app in Hc as [Hc|Hc];
      [apply Hholds; do 2 (apply elem_of_app; right); apply elem_of_app;
       left; exact Hc|].
    apply elem_of_app in Hc as [Hc|Hc]; [|apply elem_of_app in Hc as [Hc|Hc]];
      [| apply Hholds; do 4 (apply elem_of_app; right); apply elem_of_app;
         left; exact Hc |].
    + unfold posted_requirements in Hc.
      apply list_elem_of_In, in_flat_map in Hc as ([shift_idx slot] & Hin & Hc).
      change (requirement_of self' slot) with (requirement_of self slot) in Hc.
      destruct (requirement_of self slot) as [requirement|] eqn:Hrequirement;
        [|inversion Hc].
      apply list_elem_of_In, enumerate_elem in Hin.
      pose proof (lookup_lt_Some _ _ _ Hin) as Hlt.
      assert (Hstrict : ∀ c, c ∈ posted_requirement self rows shift_idx
                                   requirement → holds σ c = true).
      { intros c' Hc'. apply Hholds.
        do 3 (apply elem_of_app; right). apply elem_of_app. left.
        unfold posted_requirements. apply list_elem_of_In, in_flat_map.
        exists (shift_idx, slot). split.
        - apply list_elem_of_In, enumerate_elem. exact Hin.
        - rewrite Hrequirement. apply list_elem_of_In, Hc'. }
      assert (Hpool : ∀ flag v,
                 v ∈ pool_vars flag (ORToolsScheduler.employees self) rows
                       shift_idx → is_bool (σ v) = true).
      { intros flag v Hv.
        apply pool_vars_elem in Hv as (emp_idx & Hemp & ->).
        apply Hbool; assumption. }
      unfold posted_requirement in Hc, Hstrict. cbv zeta in Hc, Hstrict.
      cbn [ORToolsScheduler.relax_constraints ORToolsScheduler.employees
           ORToolsScheduler.relaxed_requirements self'] in Hc.
      rewrite Hreq in Hstrict.
      change (required_minimum false ?n) with n in Hstrict.
      apply list_elem_of_In in Hc.
      apply elem_of_cons in Hc as [->|Hc]; [apply Hstrict; left|].
      apply elem_of_app in Hc as [Hc|Hc]; [|apply elem_of_app in Hc as [Hc|Hc]].
      * apply (posted_minimum_relaxed σ _ _ _ c (Hpool _)) in Hc;
          [exact Hc|].
        intros c' Hc'. apply Hstrict. right. apply elem_of_app. left.
        exact Hc'.
      * apply (posted_minimum_relaxed σ _ _ _ c (Hpool _)) in Hc;
          [exact Hc|].
        intros c' Hc'. apply Hstrict. right. apply elem_of_app. right.
        apply elem_of_app. left. exact Hc'.
      * apply (posted_minimum_relaxed σ _ _ _ c (Hpool _)) in Hc;
          [exact Hc|].
        intros c' Hc'. apply Hstrict. right. apply elem_of_app. right.
        apply elem_of_app. right. exact Hc'.
    + apply elem_of_app in Hc as [Hc|Hc];
        [|apply Hholds; do 6 (apply elem_of_app; right); exact Hc].
      unfold posted_fulltime in Hc.
      apply list_elem_of_In, in_flat_map in Hc as ([emp_idx employee] & Hin & Hc).
      cbn [ORToolsScheduler.relax_constraints ORToolsScheduler.employees self']
        in Hin.
      destruct (Employee.is_fulltime employee) eqn:Hfull; [|inversion Hc].
      cbn [negb] in Hc. apply in_flat_map in Hc as (week & Hweek & Hc).
      apply list_elem_of_In in Hc.
      apply (posted_week_relaxed σ self requirements shifts days_off rows
               emp_idx week c Hshifts Hdays); [|exact Hc].
      intros c' Hc'. apply Hholds.
      do 5 (apply elem_of_app; right). apply elem_of_app. left.
      unfold posted_fulltime. apply list_elem_of_In, in_flat_map.
      exists (emp_idx, employee). split; [exact Hin|].
      rewrite Hfull. cbn [negb]. apply in_flat_map. exists week.
      split; [exact Hweek | apply list_elem_of_In, Hc'].
Qed.

(** X10. Relaxing never loses a schedule: on a scheduler with no flag
    set, whatever flags [relax_constraints] is called with, every
    solution of the model built before the call is a solution of the
    model built after it; so the relaxed model is feasible whenever the
    strict one is. *)
Theorem relaxation_keeps_solutions (self : ORToolsScheduler.t)
  (requirements shifts days_off : option bool) :
  ORToolsScheduler.relaxed_requirements self = false →
  ORToolsScheduler.relaxed_shifts self = false →
  ORToolsScheduler.relaxed_days_off self = false →
  let relaxed :=
    ORToolsScheduler.relax_constraints self requirements shifts days_off in
  (∀ σ, satisfies σ (snd (ORToolsScheduler.build_model self)) = true →
        satisfies σ (snd (ORToolsScheduler.build_model relaxed)) = true)
  ∧ (feasible (snd (ORToolsScheduler.build_model self)) →
     feasible (snd (ORToolsScheduler.build_model relaxed))).
Proof.
  intros Hreq Hshifts Hdays relaxed.
  assert (Hkeep : ∀ σ,
             satisfies σ (snd (ORToolsScheduler.build_model self)) = true →
             satisfies σ (snd (ORToolsScheduler.build_model relaxed)) = true).
  { intros σ. apply relaxed_model_satisfied; assumption. }
  split; [exact Hkeep|].
  intros [σ Hsat]. exists σ. apply Hkeep, Hsat.
Qed.

Lemma relaxation_keeps_solutions_witness :
  satisfies clinic_values
    (snd (ORToolsScheduler.build_model
            (ORToolsScheduler.relax_constraints clinic_scheduler
               (Some true) (Some true) (Some true)))) = true.
Proof.
  destruct (relaxation_keeps_solutions clinic_scheduler
              (Some true) (Some true) (Some true) eq_refl eq_refl eq_refl)
    as [Hkeep _].
  apply Hkeep. vm_compute. reflexivity.
Defined.

(** ** Worksheets *)

Lemma matching_rows_cons (p : list string → bool) (start : nat)
  (row : list string) (rows : list (list string)) :
  matching_rows p start (row :: rows)
  = if p row then start :: matching_rows p (S start) rows
    else matching_rows p (S start) rows.
Proof.
  unfold matching_rows, SheetsManager.enumerate_from.
  cbn [length seq zip zip_with List.filter]. destruct (p row); reflexivity.
Qed.

Lemma matching_rows_lower (p : list string → bool) (start : nat)
  (rows : list (list string)) (i : nat) :
  i ∈ matching_rows p start rows → (start ≤ i)%nat.
Proof.
  revert start. induction rows as [|row rows IH]; intros start Hi.
  - inversion Hi.
  - rewrite matching_rows_cons in Hi. destruct (p row).
    + apply elem_of_cons in Hi as [->|Hi]; [lia|].
      apply IH in Hi. lia.
    + apply IH in Hi. lia.
Qed.

Lemma insert_descending_least (x : nat) (l : list nat) :
  (∀ y, y ∈ l → (x < y)%nat) →
  SheetsManager.insert_descending x l = l ++ [x].
Proof.
  induction l as [|y l IH]; intros Hleast; [reflexivity|].
  cbn [SheetsManager.insert_descending].
  pose proof (Hleast y ltac:(left)) as Hy.
  destruct (Nat.leb_spec y x) as [Hle|_]; [lia|].
  rewrite IH; [reflexivity|]. intros z Hz. apply Hleast. right. exact Hz.
Qed.

(** The row numbers are collected from the top down, so sorting them from
    the largest to the smallest reverses the list. *)
Lemma sort_reverse_matching_rows (p : list string → bool) (start : nat)
  (rows : list (list string)) :
  SheetsManager.sort_reverse (matching_rows p start rows)
  = rev (matching_rows p start rows).
Proof.
  revert start. induction rows as [|row rows IH]; intros start;
    [reflexivity|].
  rewrite matching_rows_cons. destruct (p row); [|apply IH].
  cbn [SheetsManager.sort_reverse foldr rev].
  fold (SheetsManager.sort_reverse (matching_rows p (S start) rows)).
  rewrite IH. apply insert_descending_least.
  intros y Hy. apply list_elem_of_In in Hy.
  apply (proj2 (in_rev _ _)), list_elem_of_In, matching_rows_lower in Hy. lia.
Qed.

(** Deleting the matching rows from the bottom up leaves the others, in
    their order. *)
Lemma delete_rows_bottom_up (p : list string → bool)
  (rows above : list (list string)) :
  fold_left (fun sheet row_index => SheetsManager.delete_rows row_index sheet)
            (rev (matching_rows p (S (length above)) rows)) (above ++ rows)
  = above ++ List.filter (fun row => negb (p row)) rows.
Proof.
  revert above. induction rows as [|row rows IH]; intros above;
    [reflexivity|].
  rewrite matching_rows_cons.
  pose proof (IH (above ++ [row])) as Hrest.
  rewrite length_app, Nat.add_1_r, <- !app_assoc in Hrest.
  cbn [app] in Hrest. cbn [List.filter].
  destruct (p row); cbn [negb].
  - cbn [rev]. rewrite fold_left_app, Hrest. cbn [fold_left].
    unfold SheetsManager.delete_rows.
    replace (S (length above) - 1)%nat with (length above) by lia.
    apply delete_middle.
  - exact Hrest.
Qed.

Lemma matching_rows_length (p : list string → bool) (start : nat)
  (rows : list (list string)) :
  (0 <? len (matching_rows p start rows)) = existsb p rows.
Proof.
  unfold len. revert start. induction rows as [|row rows IH]; intros start;
    [reflexivity|].
  rewrite matching_rows_cons. cbn [existsb]. destruct (p row); [|apply IH].
  cbn [length orb]. apply Z.ltb_lt. lia.
Qed.

Lemma delete_schedule_rows (header : list string)
  (rows : list (list string)) (schedule_name saved_at : string) :
  SheetsManager.delete_schedule (header :: rows) schedule_name saved_at
  = (existsb (SheetsManager.is_schedule_row schedule_name saved_at) rows,
     header
     :: List.filter
          (fun row =>
             negb (SheetsManager.is_schedule_row schedule_name saved_at row))
          rows).
Proof.
  unfold SheetsManager.delete_schedule. cbv zeta.
  destruct rows as [|row rows]; [reflexivity|].
  assert (Hlong : (len (header :: row :: rows) <=? 1) = false).
  { apply Z.leb_gt. unfold len. cbn [length]. lia. }
  rewrite Hlong. cbn [tail].
  fold (matching_rows (SheetsManager.is_schedule_row schedule_name saved_at)
          2 (row :: rows)).
  rewrite sort_reverse_matching_rows. f_equal.
  - unfold len. rewrite length_rev.
    apply (matching_rows_length _ 2 (row :: rows)).
  - exact (delete_rows_bottom_up _ (row :: rows) [header]).
Qed.

(** X11. [delete_schedule] leaves the header and, in their order, exactly
    the rows that do not carry the schedule's name and saving time in
    their first two cells, and it returns [True] exactly when it deleted
    a row: deleting by row number from the bottom up removes the rows
    meant. On a worksheet without rows it returns [False]. *)
Theorem delete_schedule_spec (header : list string)
  (rows : list (list string)) (schedule_name saved_at : string) :
  SheetsManager.delete_schedule (header :: rows) schedule_name saved_at
  = (existsb (SheetsManager.is_schedule_row schedule_name saved_at) rows,
     header
     :: List.filter
          (fun row =>
             negb (SheetsManager.is_schedule_row schedule_name saved_at row))
          rows)
  ∧ SheetsManager.delete_schedule [] schedule_name saved_at = (false, []).
Proof. split; [apply delete_schedule_rows | reflexivity]. Qed.

Lemma enumerate_from_cons {A} (start : nat) (x : A) (l : list A) :
  SheetsManager.enumerate_from start (x :: l)
  = (start, x) :: SheetsManager.enumerate_from (S start) l.
Proof. reflexivity. Qed.

Lemma remove_request_loop_first (employee_name request_date shift_time : string)
  (before : list (list string)) (row : list string)
  (after sheet : list (list string)) (start : nat) :
  Forall (fun r => SheetsManager.is_request_row employee_name request_date
                     shift_time r = Some false) before →
  SheetsManager.is_request_row employee_name request_date shift_time row
  = Some true →
  SheetsManager.remove_request_loop employee_name request_date shift_time
    (SheetsManager.enumerate_from start (before ++ row :: after)) sheet
  = (true, SheetsManager.delete_rows (start + length before) sheet).
Proof.
  intros Hbefore Hrow. revert start.
  induction Hbefore as [|r before Hr _ IH]; intros start.
  - cbn [app]. rewrite enumerate_from_cons.
    cbn [SheetsManager.remove_request_loop]. rewrite Hrow.
    cbn [length]. rewrite Nat.add_0_r. reflexivity.
  - cbn [app]. rewrite enumerate_from_cons.
    cbn [SheetsManager.remove_request_loop]. rewrite Hr, IH.
    cbn [length]. rewrite Nat.add_succ_r. reflexivity.
Qed.

Lemma remove_request_loop_none (employee_name request_date shift_time : string)
  (rows sheet : list (list string)) (start : nat) :
  Forall (fun r => SheetsManager.is_request_row employee_name request_date
                     shift_time r = Some false) rows →
  SheetsManager.remove_request_loop employee_name request_date shift_time
    (SheetsManager.enumerate_from start rows) sheet
  = (false, sheet).
Proof.
  intros Hrows. revert start.
  induction Hrows as [|r rows Hr _ IH]; intros start; [reflexivity|].
  rewrite enumerate_from_cons. cbn [SheetsManager.remove_request_loop].
  rewrite Hr. apply IH.
Qed.

(** The test of the loop on a row: it goes on to the next row when the
    first three cells of the row are not a beginning of the three asked
    for, finds a hit when they are the three asked for, and raises when
    the row breaks off before the third cell with every cell it has as
    asked for. *)
Lemma is_request_row_spec (employee_name request_date shift_time : string)
  (row : list string) :
  let wanted := [employee_name; request_date; shift_time] in
  (¬ take 3 row `prefix_of` wanted →
   SheetsManager.is_request_row employee_name request_date shift_time row
   = Some false)
  ∧ (take 3 row = wanted →
     SheetsManager.is_request_row employee_name request_date shift_time row
     = Some true)
  ∧ ((length row < 3)%nat → row `prefix_of` wanted →
     SheetsManager.is_request_row employee_name request_date shift_time row
     = None).
Proof.
  intros wanted. unfold wanted, SheetsManager.is_request_row.
  destruct row as [|c0 [|c1 [|c2 rest]]]; cbn [lookup list_lookup take length].
  - split; [|split]; [|discriminate|reflexivity].
    intros Hnot. exfalso. apply Hnot. apply prefix_nil.
  - destruct (String.eqb_spec c0 employee_name) as [->|Hc0]; cbn [negb].
    + split; [|split]; [|discriminate|reflexivity].
      intros Hnot. exfalso. apply Hnot. eexists. reflexivity.
    + split; [|split]; [reflexivity|intros [= ?]; contradiction|].
      intros _ [k Hk]. injection Hk as Hk _. congruence.
  - destruct (String.eqb_spec c0 employee_name) as [->|Hc0]; cbn [negb].
    + destruct (String.eqb_spec c1 request_date) as [->|Hc1]; cbn [negb].
      * split; [|split]; [|discriminate|reflexivity].
        intros Hnot. exfalso. apply Hnot. eexists. reflexivity.
      * split; [|split]; [reflexivity|intros [= ?]; contradiction|].
        intros _ [k Hk]. injection Hk as Hk _. congruence.
    + split; [|split]; [reflexivity|intros [= ? ?]; contradiction|].
      intros _ [k Hk]. injection Hk as Hk _. congruence.
  - destruct (String.eqb_spec c0 employee_name) as [->|Hc0]; cbn [negb].
    + destruct (String.eqb_spec c1 request_date) as [->|Hc1]; cbn [negb].
      * destruct (String.eqb_spec c2 shift_time) as [->|Hc2].
        -- split; [|split]; [|reflexivity|lia].
           intros Hnot. exfalso. apply Hnot. exists []. reflexivity.
        -- split; [|split]; [reflexivity| |lia].
           intros [= ?]. contradiction.
      * split; [|split]; [reflexivity| |lia].
        intros [= ? ?]. contradiction.
    + split; [|split]; [reflexivity| |lia].
      intros [= ? ? ?]. contradiction.
Qed.

Lemma passed_over_rows (employee_name request_date shift_time : string)
  (rows : list (list string)) :
  Forall (fun row =>
            ¬ take 3 row `prefix_of` [employee_name; request_date; shift_time])
         rows →
  Forall (fun row =>
            SheetsManager.is_request_row employee_name request_date
              shift_time row = Some false) rows.
Proof.
  intros Hrows. eapply Forall_impl; [exact Hrows|]. intros row.
  apply (is_request_row_spec employee_name request_date shift_time row).
Qed.

Lemma remove_request_loop_raises
  (employee_name request_date shift_time : string)
  (before : list (list string)) (row : list string)
  (after sheet : list (list string)) (start : nat) :
  Forall (fun r => SheetsManager.is_request_row employee_name request_date
                     shift_time r = Some false) before →
  SheetsManager.is_request_row employee_name request_date shift_time row
  = None →
  SheetsManager.remove_request_loop employee_name request_date shift_time
    (SheetsManager.enumerate_from start (before ++ row :: after)) sheet
  = (false, sheet).
Proof.
  intros Hbefore Hrow. revert start.
  induction Hbefore as [|r before Hr _ IH]; intros start.
  - cbn [app]. rewrite enumerate_from_cons.
    cbn [SheetsManager.remove_request_loop]. rewrite Hrow. reflexivity.
  - cbn [app]. rewrite enumerate_from_cons.
    cbn [SheetsManager.remove_request_loop]. rewrite Hr. apply IH.
Qed.

(** X12. [remove_time_off_request] (and [remove_pre_assigned_shift], the
    same code on another worksheet) goes down the rows below the header
    and passes over a row whose first three cells are not a beginning of
    the name, date and shift time asked for. The first row it does not
    pass over decides the call. If the first three cells of that row are
    the three asked for, that row is deleted and no other: the rows above
    and below it stay, later copies of the record included, and the call
    returns [True]. If that row breaks off before its third cell, with
    every cell it has as asked for (an empty row is one), the
    [IndexError] is caught: nothing is deleted, not even a matching row
    further down, and the call returns [False]. When every row is passed
    over, the worksheet is left as it is and the call returns [False]. *)
Theorem remove_time_off_request_first (employee_name request_date
  shift_time : string) (header : list string)
  (before : list (list string)) :
  Forall (fun row =>
            ¬ take 3 row `prefix_of` [employee_name; request_date; shift_time])
         before →
  (∀ row after,
     take 3 row = [employee_name; request_date; shift_time] →
     SheetsManager.remove_time_off_request (header :: before ++ row :: after)
       employee_name request_date shift_time
     = (true, header :: before ++ after))
  ∧ (∀ row after,
       (length row < 3)%nat →
       row `prefix_of` [employee_name; request_date; shift_time] →
       SheetsManager.remove_time_off_request
         (header :: before ++ row :: after)
         employee_name request_date shift_time
       = (false, header :: before ++ row :: after))
  ∧ SheetsManager.remove_time_off_request (header :: before)
      employee_name request_date shift_time
    = (false, header :: before).
Proof.
  intros Hbefore. apply passed_over_rows in Hbefore.
  unfold SheetsManager.remove_time_off_request. cbv zeta. cbn [tail].
  split; [|split].
  - intros row after Hrow.
    apply (is_request_row_spec employee_name request_date shift_time row)
      in Hrow.
    rewrite (remove_request_loop_first _ _ _ before row after _ 2
               Hbefore Hrow).
    f_equal. unfold SheetsManager.delete_rows.
    replace (2 + length before - 1)%nat with (length (header :: before))
      by (cbn [length]; lia).
    exact (delete_middle (header :: before) after row).
  - intros row after Hshort Hrow.
    apply remove_request_loop_raises; [exact Hbefore|].
    apply (is_request_row_spec employee_name request_date shift_time row);
      assumption.
  - apply remove_request_loop_none, Hbefore.
Qed.

Lemma remove_time_off_request_first_witness :
  SheetsManager.remove_time_off_request
    [["員工"; "日期"; "班次"]; ["B"; "2025-01-06"; "早"];
     ["A"; "2025-01-06"; "中"]; ["A"; "2025-01-06"; "中"]]%string
    "A" "2025-01-06" "中"
  = (true,
     [["員工"; "日期"; "班次"]; ["B"; "2025-01-06"; "早"];
      ["A"; "2025-01-06"; "中"]]%string)
  ∧ SheetsManager.remove_time_off_request
      [["員工"; "日期"; "班次"]; ["B"; "2025-01-06"; "早"]; ["A"];
       ["A"; "2025-01-06"; "中"]]%string
      "A" "2025-01-06" "中"
    = (false,
       [["員工"; "日期"; "班次"]; ["B"; "2025-01-06"; "早"]; ["A"];
        ["A"; "2025-01-06"; "中"]]%string).
Proof.
  destruct (remove_time_off_request_first "A" "2025-01-06" "中"
              ["員工"; "日期"; "班次"]%string
              [["B"; "2025-01-06"; "早"]]%string) as (Hhit & Hraise & _).
  - repeat constructor. intros [k Hk]. discriminate Hk.
  - split.
    + apply (Hhit ["A"; "2025-01-06"; "中"]%string
                  [["A"; "2025-01-06"; "中"]]%string). reflexivity.
    + apply (Hraise ["A"]%string [["A"; "2025-01-06"; "中"]]%string).
      * cbn [length]. lia.
      * eexists. reflexivity.
Defined.

(** ** A schedule saved and loaded *)

Lemma employee_dict_lookup (employees : list Employee.t) (emp : Employee.t) :
  NoDup (map Employee.name employees) → emp ∈ employees →
  employee_dict employees !! Employee.name emp = Some emp.
Proof.
  unfold employee_dict.
  induction employees as [|last employees IH] using rev_ind;
    intros Hnames Hin; [inversion Hin|].
  rewrite fold_left_app. cbn [fold_left].
  rewrite map_app in Hnames. apply NoDup_app in Hnames as (Hnames & Hfresh & _).
  apply elem_of_app in Hin as [Hin|Hin].
  - rewrite lookup_insert_ne; [apply IH; assumption|].
    intros Hsame. apply (Hfresh (Employee.name emp)).
    + apply list_elem_of_In, in_map, list_elem_of_In, Hin.
    + rewrite <- Hsame. left.
  - apply list_elem_of_singleton in Hin. subst emp. apply lookup_insert_eq.
Qed.

Lemma omap_replicate_empty (employees : list Employee.t) (n : nat) :
  omap (resolve employees) (replicate n EmptyString) = [].
Proof. induction n as [|n IH]; [reflexivity | exact IH]. Qed.

Lemma omap_map_total {A B C} (f : B → option C) (g : A → B) (h : A → C)
  (l : list A) :
  Forall (fun x => f (g x) = Some (h x)) l → omap f (map g l) = map h l.
Proof.
  induction 1 as [|x l Hx _ IH]; [reflexivity|].
  cbn [map].
  change (omap f (g x :: map g l))
    with (match f (g x) with
          | Some y => y :: omap f (map g l)
          | None => omap f (map g l)
          end).
  rewrite Hx, IH. reflexivity.
Qed.

Lemma omap_none {A B} (f : A → option B) (l : list A) :
  Forall (fun x => f x = None) l → omap f l = [].
Proof.
  induction 1 as [|x l Hx _ IH]; [reflexivity|].
  change (omap f (x :: l))
    with (match f x with
          | Some y => y :: omap f l
          | None => omap f l
          end).
  rewrite Hx, IH. reflexivity.
Qed.

(** A shift a row holds in full comes back as it was. *)
Lemma reloaded_fits (employees : list Employee.t) (shift : Shift.t) :
  NoDup (map Employee.name employees) → fits_a_row employees shift →
  reloaded employees shift = shift.
Proof.
  intros Hnames [Hfive Hknown]. unfold reloaded. destruct shift as [d t crew].
  cbn [Shift.date Shift.shift_time Shift.assigned_employees] in *. f_equal.
  rewrite take_ge by (rewrite length_map; exact Hfive).
  rewrite <- (map_id crew) at 2. apply omap_map_total.
  eapply Forall_impl; [exact Hknown|]. intros emp [Hname Hin]. cbn beta.
  unfold resolve. destruct (Employee.name emp) eqn:Hn; [contradiction|].
  rewrite <- Hn. apply employee_dict_lookup; assumption.
Qed.

Section SavedSchedules.

Variable strftime : date → string.
Variable strptime : string → option date.

(** The row written for a shift reads back as the shift's first five
    employees, looked up by name. *)
Lemma load_row_schedule_row (employees : list Employee.t)
  (schedule_name saved_at : string) (shift : Shift.t) :
  strptime (strftime (Shift.date shift)) = Some (Shift.date shift) →
  SheetsManager.load_row strptime (employee_dict employees)
    schedule_name saved_at
    (SheetsManager.schedule_row strftime schedule_name saved_at shift)
  = Some (reloaded employees shift).
Proof.
  intros Hdate. unfold SheetsManager.load_row, SheetsManager.schedule_row.
  cbv zeta. cbn [app SheetsManager.cell nth drop].
  rewrite !String.eqb_refl, Hdate.
  assert (Hlen : (5 <=? len (schedule_name :: saved_at
                             :: strftime (Shift.date shift)
                             :: nth (Z.to_nat (weekday (Shift.date shift)
                                               + 1 - 1))
                                    SheetsManager.weekday_names EmptyString
                             :: Shift.shift_time shift
                             :: take 5 (map Employee.name
                                          (Shift.assigned_employees shift))
                                ++ replicate
                                     (10 - length
                                             (schedule_name :: saved_at
                                              :: strftime (Shift.date shift)
                                              :: nth (Z.to_nat
                                                        (weekday
                                                           (Shift.date shift)
                                                         + 1 - 1))
                                                     SheetsManager.weekday_names
                                                     EmptyString
                                              :: Shift.shift_time shift
                                              :: take 5
                                                   (map Employee.name
                                                      (Shift.assigned_employees
                                                         shift))))
                                     EmptyString)) = true).
  { apply Z.leb_le. unfold len. cbn [length]. lia. }
  rewrite Hlen. cbn [andb]. unfold reloaded. f_equal. f_equal.
  rewrite drop_0. fold (resolve employees).
  rewrite omap_app, omap_replicate_empty, app_nil_r. reflexivity.
Qed.

(** X13. A schedule of at least one shift is saved into a worksheet that
    is new, or that has its header row and below it no row that loads as
    a shift under the schedule's name and saving time; [strptime] reads
    the date of every shift back from the text [strftime] wrote for it.
    Then loading under the same name and saving time gives, for every
    shift, the shift's date and shift time and its first five employees,
    each looked up by name in the roster at hand: a sixth employee, and
    one whose name is empty or not in the roster, are lost. When moreover
    no shift has more than five employees, all of them in a roster
    without a name twice and none with an empty name, the schedule comes
    back as it was. *)
Theorem load_saved_schedule (sheet : option (list (list string)))
  (header : list string) (old : list (list string))
  (schedule : Schedule.t) (start_date : date) (now : string)
  (employees : list Employee.t) :
  match sheet with
  | Some sheet => sheet
  | None => [SheetsManager.headers]
  end = header :: old →
  Forall (fun row =>
            SheetsManager.load_row strptime (employee_dict employees)
              (strftime start_date) now row = None) old →
  Forall (fun shift =>
            strptime (strftime (Shift.date shift)) = Some (Shift.date shift))
         (Schedule.shifts schedule) →
  Schedule.shifts schedule ≠ [] →
  let saved :=
    SheetsManager.save_schedule strftime sheet schedule start_date now in
  SheetsManager.load_schedule strptime saved employees
    (strftime start_date) now
  = Some (Schedule.mk (map (reloaded employees) (Schedule.shifts schedule)))
  ∧ (NoDup (map Employee.name employees) →
     Forall (fits_a_row employees) (Schedule.shifts schedule) →
     SheetsManager.load_schedule strptime saved employees
       (strftime start_date) now
     = Some schedule).
Proof.
  intros Hsheet Hold Hdates Hsome saved.
  assert (Hload :
            SheetsManager.load_schedule strptime saved employees
              (strftime start_date) now
            = Some (Schedule.mk (map (reloaded employees)
                                     (Schedule.shifts schedule)))).
  { unfold saved, SheetsManager.save_schedule. cbv zeta. rewrite Hsheet.
    destruct (Schedule.shifts schedule) as [|shift shifts] eqn:Hshifts;
      [contradiction|].
    set (rows := map (SheetsManager.schedule_row strftime
                        (strftime start_date) now) (shift :: shifts)).
    change (match rows with
            | [] => header :: old
            | _ :: _ => (header :: old) ++ rows
            end) with (header :: old ++ rows).
    unfold SheetsManager.load_schedule. cbv zeta.
    assert (Hlong : (len (header :: old ++ rows) <=? 1) = false).
    { apply Z.leb_gt. unfold len, rows.
      cbn [length map]. rewrite length_app. cbn [length]. lia. }
    rewrite Hlong. cbn [tail]. fold (employee_dict employees).
    rewrite omap_app, (omap_none _ old Hold). cbn [app]. unfold rows.
    rewrite (omap_map_total _ _ (reloaded employees)).
    - reflexivity.
    - eapply Forall_impl; [exact Hdates|]. intros s Hs. cbn beta.
      apply load_row_schedule_row, Hs. }
  split; [exact Hload|].
  intros Hnames Hfits. rewrite Hload. f_equal.
  destruct schedule as [shifts]. cbn [Schedule.shifts] in *. f_equal.
  rewrite <- (map_id shifts) at 2. apply map_ext_Forall.
  eapply Forall_impl; [exact Hfits|]. intros s Hs. cbn beta.
  apply reloaded_fits; assumption.
Qed.

End SavedSchedules.

Lemma Forall_bool_decide {A} (P : A → Prop) `{∀ x, Decision (P x)}
  (l : list A) :
  forallb (fun x => bool_decide (P x)) l = true → Forall P l.
Proof.
  intros Hall. apply Forall_forall. intros x Hx.
  rewrite forallb_forall in Hall.
  apply list_elem_of_In, Hall in Hx. apply bool_decide_eq_true in Hx. exact Hx.
Qed.

(** The shifts of a solved schedule are made of employees of the roster,
    so with five named employees each fits a row. *)
Lemma solved_schedule_fits (rt : Runtime) (self : ORToolsScheduler.t) :
  (length (ORToolsScheduler.employees self) ≤ 5)%nat →
  Forall (fun emp => Employee.name emp ≠ EmptyString)
         (ORToolsScheduler.employees self) →
  Forall (fits_a_row (ORToolsScheduler.employees self))
         (Schedule.shifts (solved_schedule rt self)).
Proof.
  intros Hfive Hnamed. apply Forall_forall. intros shift Hshift.
  apply solved_shift_elem in Hshift as (shift_idx & slot & _ & ->).
  pose proof (assigned_at_sublist rt self shift_idx) as Hsub.
  split; cbn [Shift.assigned_employees].
  - apply sublist_length in Hsub. lia.
  - apply Forall_forall. intros emp Hemp.
    assert (Hin : emp ∈ ORToolsScheduler.employees self)
      by (apply (elem_of_sublist _ _ _ Hemp Hsub)).
    split; [|exact Hin]. rewrite Forall_forall in Hnamed. apply Hnamed, Hin.
Qed.

Lemma load_saved_schedule_witness :
  SheetsManager.load_schedule datetime.strptime
    (SheetsManager.save_schedule datetime.strftime None clinic_schedule
       monday_2025_01_06 "2025-01-05 12:00:00")
    clinic_roster "2025-01-06" "2025-01-05 12:00:00"
  = Some clinic_schedule
  ∧ SheetsManager.load_schedule datetime.strptime
      (SheetsManager.save_schedule datetime.strftime None
         (Schedule.mk [crowded_shift])
         monday_2025_01_06 "2025-01-05 12:00:00")
      (clinic_roster ++ [staff "F" false false false])
      "2025-01-06" "2025-01-05 12:00:00"
    = Some (Schedule.mk [Shift.mk monday_2025_01_06 "早" clinic_roster]).
Proof.
  split.
  - destruct (load_saved_schedule datetime.strftime datetime.strptime None
                SheetsManager.headers [] clinic_schedule monday_2025_01_06
                "2025-01-05 12:00:00" clinic_roster) as [_ Hback].
    + reflexivity.
    + constructor.
    + apply (Forall_bool_decide
               (fun shift =>
                  datetime.strptime (datetime.strftime (Shift.date shift))
                  = Some (Shift.date shift))).
      vm_compute. reflexivity.
    + vm_compute. discriminate.
    + apply Hback.
      * unfold clinic_roster, staff. cbn [map Employee.name].
        repeat constructor; rewrite ?elem_of_cons, elem_of_nil;
          intros H; repeat destruct H as [H|H]; try discriminate H; exact H.
      * apply (solved_schedule_fits clinic_runtime clinic_scheduler).
        -- cbn [ORToolsScheduler.employees clinic_scheduler
                 ORToolsScheduler.__init__ clinic_roster length]. lia.
        -- repeat constructor; discriminate.
  - destruct (load_saved_schedule datetime.strftime datetime.strptime None
                SheetsManager.headers [] (Schedule.mk [crowded_shift])
                monday_2025_01_06 "2025-01-05 12:00:00"
                (clinic_roster ++ [staff "F" false false false]))
      as [Hload _].
    + reflexivity.
    + constructor.
    + apply (Forall_bool_decide
               (fun shift =>
                  datetime.strptime (datetime.strftime (Shift.date shift))
                  = Some (Shift.date shift))).
      vm_compute. reflexivity.
    + discriminate.
    + etrans; [exact Hload|]. vm_compute. reflexivity.
Defined.

(** ** The availability cell, written and read back *)

Lemma contains_append (c : ascii) (a b : string) :
  SheetsManager.contains c (String.append a b)
  = SheetsManager.contains c a || SheetsManager.contains c b.
Proof.
  induction a as [|x a IH]; [reflexivity|].
  change (String.append (String x a) b) with (String x (String.append a b)).
  cbn [SheetsManager.contains]. rewrite IH. apply orb_assoc.
Qed.

Lemma split_no_separator (sep : ascii) (s : string) :
  SheetsManager.contains sep s = false → SheetsManager.split sep s = [s].
Proof.
  induction s as [|x s IH]; [reflexivity|].
  cbn [SheetsManager.contains SheetsManager.split]. intros Hs.
  apply orb_false_iff in Hs as [Hx Hs]. rewrite Hx, (IH Hs). reflexivity.
Qed.

Lemma split_append (sep : ascii) (a b : string) :
  SheetsManager.contains sep a = false →
  SheetsManager.split sep (String.append a (String sep b))
  = a :: SheetsManager.split sep b.
Proof.
  induction a as [|x a IH]; intros Ha.
  - change (String.append EmptyString (String sep b)) with (String sep b).
    cbn [SheetsManager.split]. rewrite Ascii.eqb_refl. reflexivity.
  - cbn [SheetsManager.contains] in Ha.
    apply orb_false_iff in Ha as [Hx Ha].
    change (String.append (String x a) (String sep b))
      with (String x (String.append a (String sep b))).
    cbn [SheetsManager.split]. rewrite Hx, (IH Ha). reflexivity.
Qed.

Lemma split_once_append (sep : ascii) (a b : string) :
  SheetsManager.contains sep a = false →
  SheetsManager.split_once sep (String.append a (String sep b)) = Some (a, b).
Proof.
  induction a as [|x a IH]; intros Ha.
  - change (String.append EmptyString (String sep b)) with (String sep b).
    cbn [SheetsManager.split_once]. rewrite Ascii.eqb_refl. reflexivity.
  - cbn [SheetsManager.contains] in Ha.
    apply orb_false_iff in Ha as [Hx Ha].
    change (String.append (String x a) (String sep b))
      with (String x (String.append a (String sep b))).
    cbn [SheetsManager.split_once]. rewrite Hx, (IH Ha). reflexivity.
Qed.

Lemma join_cons (sep : ascii) (piece other : string) (rest : list string) :
  SheetsManager.join sep (piece :: other :: rest)
  = String.append piece (String sep (SheetsManager.join sep (other :: rest))).
Proof. reflexivity. Qed.

(** Splitting what was joined gives the pieces back, when there is a piece
    and none holds the separator. *)
Lemma split_join (sep : ascii) (l : list string) :
  l ≠ [] → Forall (fun piece => SheetsManager.contains sep piece = false) l →
  SheetsManager.split sep (SheetsManager.join sep l) = l.
Proof.
  intros Hsome Hfree. induction Hfree as [|piece l Hpiece Hfree IH];
    [contradiction|].
  destruct l as [|other rest]; [apply split_no_separator, Hpiece|].
  rewrite join_cons, (split_append _ _ _ Hpiece), IH by discriminate.
  reflexivity.
Qed.

(** A character other than the separator is in the joined text exactly
    when it is in a piece. *)
Lemma contains_join (c sep : ascii) (l : list string) :
  Ascii.eqb sep c = false →
  SheetsManager.contains c (SheetsManager.join sep l)
  = existsb (SheetsManager.contains c) l.
Proof.
  intros Hsep. induction l as [|piece l IH]; [reflexivity|].
  destruct l as [|other rest].
  - cbn [SheetsManager.join existsb]. rewrite orb_false_r. reflexivity.
  - rewrite join_cons, contains_append.
    cbn [SheetsManager.contains]. rewrite Hsep, IH. reflexivity.
Qed.

Lemma existsb_false {A} (p : A → bool) (l : list A) :
  Forall (fun x => p x = false) l → existsb p l = false.
Proof.
  induction 1 as [|x l Hx _ IH]; [reflexivity|].
  cbn [existsb]. rewrite Hx, IH. reflexivity.
Qed.

Section WrittenAvailability.

Variable py_strip : string → string.
Variable py_int : string → option Z.
Variable py_str : Z → string.

(** The labels of one day, joined and split again. *)
Lemma labels_back (labels : list string) :
  labels ≠ [] → Forall (plain_label py_strip) labels →
  map py_strip (SheetsManager.split ","%char
                  (SheetsManager.join ","%char labels)) = labels.
Proof.
  intros Hsome Hplain. rewrite split_join; [|exact Hsome|].
  - rewrite <- (map_id labels) at 2. apply map_ext_Forall.
    eapply Forall_impl; [exact Hplain|]. intros label (_ & _ & _ & Hstrip).
    exact Hstrip.
  - eapply Forall_impl; [exact Hplain|]. intros label (Hcomma & _). exact Hcomma.
Qed.

Lemma labels_without (c : ascii) (labels : list string) :
  Ascii.eqb "," c = false →
  Forall (fun label => SheetsManager.contains c label = false) labels →
  SheetsManager.contains c (SheetsManager.join ","%char labels) = false.
Proof.
  intros Hsep Hfree. rewrite contains_join by exact Hsep.
  apply existsb_false, Hfree.
Qed.

(** X14. An availability names at least one day and has the same list of
    labels on every day it names; the list is not empty, and its labels
    hold no comma, semicolon or colon and are left as they are by
    [strip], as is the cell written for them. Such an availability is
    written in the short form, the labels joined by commas without the
    days, and read back as that list on each of the days 1 to 7 and on no
    other day: the days it did not name are gained. So an employee
    available on Monday mornings only comes back from the worksheet
    available every morning. *)
Theorem uniform_availability_widens (available_shifts : gmap Z (list string))
  (labels : list string) :
  available_shifts ≠ ∅ →
  (∀ day shifts, available_shifts !! day = Some shifts → shifts = labels) →
  labels ≠ [] →
  Forall (plain_label py_strip) labels →
  py_strip (SheetsManager.join ","%char labels)
  = SheetsManager.join ","%char labels →
  SheetsManager.format_available_shifts py_str available_shifts
  = SheetsManager.join ","%char labels
  ∧ ∀ day,
      SheetsManager.parse_available_shifts py_strip py_int
        (SheetsManager.format_available_shifts py_str available_shifts)
        !! day
      = if bool_decide (1 ≤ day ≤ 7) then Some labels else None.
Proof.
  intros Hsome Hsame Hlabels Hplain Hstrip.
  assert (Hformat :
            SheetsManager.format_available_shifts py_str available_shifts
            = SheetsManager.join ","%char labels).
  { unfold SheetsManager.format_available_shifts. cbv zeta.
    assert (Hall : Forall (fun day_shifts => day_shifts = labels)
                          (map_to_list available_shifts).*2).
    { apply Forall_forall. intros shifts Hin.
      apply list_elem_of_fmap in Hin as ([day shifts'] & -> & Hin).
      apply elem_of_map_to_list in Hin. apply (Hsame day), Hin. }
    destruct ((map_to_list available_shifts).*2) as [|first rest] eqn:Hdays.
    - apply fmap_nil_inv, map_to_list_empty_iff in Hdays. contradiction.
    - pose proof (Forall_inv Hall) as Hfirst. cbn beta in Hfirst. subst first.
      rewrite (proj2 (forallb_forall _ _)); [reflexivity|].
      intros shifts Hin. apply bool_decide_eq_true.
      rewrite Forall_forall in Hall. apply Hall, list_elem_of_In, Hin. }
  split; [exact Hformat|]. intros day. rewrite Hformat.
  unfold SheetsManager.parse_available_shifts. cbv zeta. rewrite Hstrip.
  rewrite labels_without; [|reflexivity|].
  - rewrite (labels_back labels Hlabels Hplain), every_day_lookup.
    rewrite lookup_empty.
    destruct (decide (1 ≤ day ≤ 7)) as [Hin|Hout].
    + rewrite !bool_decide_eq_true_2; [reflexivity | exact Hin|].
      apply elem_of_seqZ. lia.
    + rewrite !bool_decide_eq_false_2; [reflexivity | exact Hout|].
      rewrite elem_of_seqZ. lia.
  - eapply Forall_impl; [exact Hplain|]. intros label (_ & _ & Hcolon & _).
    exact Hcolon.
Qed.

End WrittenAvailability.

Lemma uniform_availability_widens_witness :
  SheetsManager.format_available_shifts pretty monday_mornings = "早"%string
  ∧ monday_mornings !! 2 = None
  ∧ SheetsManager.parse_available_shifts
      SheetsManager.ascii_strip SheetsManager.ascii_int
      (SheetsManager.format_available_shifts pretty monday_mornings) !! 2
    = Some ["早"%string].
Proof.
  destruct (uniform_availability_widens
              SheetsManager.ascii_strip SheetsManager.ascii_int pretty
              monday_mornings ["早"%string]) as [Hformat Hparse].
  - intros Hempty. apply (f_equal (lookup 1)) in Hempty. discriminate Hempty.
  - intros day shifts Hday. unfold monday_mornings in Hday.
    apply lookup_insert_Some in Hday as [[_ <-]|[_ Hday]];
      [reflexivity | rewrite lookup_empty in Hday; discriminate].
  - discriminate.
  - repeat constructor.
  - reflexivity.
  - split; [exact Hformat|]. split; [reflexivity|]. exact (Hparse 2).
Defined.

(** *** The per-day form *)

Section MixedAvailability.

Variable py_strip : string → string.
Variable py_int : string → option Z.
Variable py_str : Z → string.

Lemma format_day_Some (available_shifts : gmap Z (list string)) (day : Z)
  (entry : string) :
  SheetsManager.format_day py_str available_shifts day = Some entry
  ↔ ∃ shifts,
      shifts ≠ [] ∧ available_shifts !! day = Some shifts
      ∧ entry = String.append (py_str day)
                  (String ":" (SheetsManager.join ","%char shifts)).
Proof.
  unfold SheetsManager.format_day. split.
  - destruct (available_shifts !! day) as [[|label labels]|];
      cbn [default]; intros Hentry; try discriminate Hentry.
    injection Hentry as <-. exists (label :: labels).
    split; [discriminate|]. split; reflexivity.
  - intros (shifts & Hsome & -> & ->). cbn [default].
    destruct shifts; [contradiction | reflexivity].
Qed.

Lemma written_entry_day (day : Z) (shifts : list string) :
  plain_day py_strip py_int py_str day →
  entry_day py_strip py_int
    (String.append (py_str day)
       (String ":" (SheetsManager.join ","%char shifts))) = Some day.
Proof.
  intros (Hint & Hcolon & _). unfold entry_day.
  rewrite (split_once_append _ _ _ Hcolon). exact Hint.
Qed.

Lemma written_entry_labels (day : Z) (shifts : list string) :
  plain_day py_strip py_int py_str day → shifts ≠ [] →
  Forall (plain_label py_strip) shifts →
  entry_labels py_strip
    (String.append (py_str day)
       (String ":" (SheetsManager.join ","%char shifts))) = shifts.
Proof.
  intros (_ & Hcolon & _) Hsome Hplain. unfold entry_labels.
  rewrite (split_once_append _ _ _ Hcolon).
  apply labels_back; assumption.
Qed.

Lemma written_entry_no_semicolon (day : Z) (shifts : list string) :
  plain_day py_strip py_int py_str day →
  Forall (plain_label py_strip) shifts →
  SheetsManager.contains ";"%char
    (String.append (py_str day)
       (String ":" (SheetsManager.join ","%char shifts))) = false.
Proof.
  intros (_ & _ & Hsemi) Hplain. rewrite contains_append, Hsemi.
  cbn [SheetsManager.contains orb].
  change (Ascii.eqb ":" ";") with false. cbn [orb].
  apply labels_without; [reflexivity|].
  eapply Forall_impl; [exact Hplain|]. intros label (_ & H & _). exact H.
Qed.

Lemma written_entry_colon (day : Z) (shifts : list string) :
  SheetsManager.contains ":"%char
    (String.append (py_str day)
       (String ":" (SheetsManager.join ","%char shifts))) = true.
Proof.
  rewrite contains_append. cbn [SheetsManager.contains].
  rewrite Ascii.eqb_refl. cbn [orb]. apply orb_true_r.
Qed.

(** X15. An availability that differs between two of its days is written
    in the per-day form and read back as it was, up to the days without a
    shift, which are left out of the cell and of what is read: every other
    day comes back with its own labels, and no day is gained. *)
Theorem mixed_availability_round_trip
  (available_shifts : gmap Z (list string)) :
  (∃ day1 day2 shifts1 shifts2,
     available_shifts !! day1 = Some shifts1
     ∧ available_shifts !! day2 = Some shifts2
     ∧ shifts1 ≠ shifts2) →
  (∀ day shifts,
     available_shifts !! day = Some shifts →
     plain_day py_strip py_int py_str day
     ∧ Forall (plain_label py_strip) shifts) →
  py_strip (SheetsManager.format_available_shifts py_str available_shifts)
  = SheetsManager.format_available_shifts py_str available_shifts →
  ∀ day,
    SheetsManager.parse_available_shifts py_strip py_int
      (SheetsManager.format_available_shifts py_str available_shifts) !! day
    = days_with_shifts available_shifts day.
Proof.
  intros (day1 & day2 & shifts1 & shifts2 & Hday1 & Hday2 & Hdiffer)
         Hplain Hstrip.
  set (keys := merge_sort Z.le (map_to_list available_shifts).*1).
  set (parts := omap (SheetsManager.format_day py_str available_shifts) keys).
  assert (Hkeys : ∀ k shifts, available_shifts !! k = Some shifts → k ∈ keys).
  { intros k shifts Hk. unfold keys. rewrite merge_sort_Permutation.
    apply list_elem_of_fmap. exists (k, shifts). split; [reflexivity|].
    apply elem_of_map_to_list, Hk. }
  assert (Hformat :
            SheetsManager.format_available_shifts py_str available_shifts
            = SheetsManager.join ";"%char parts).
  { unfold SheetsManager.format_available_shifts. cbv zeta.
    fold keys. fold parts.
    destruct ((map_to_list available_shifts).*2) as [|first rest] eqn:Hdays.
    - apply fmap_nil_inv, map_to_list_empty_iff in Hdays.
      rewrite Hdays, lookup_empty in Hday1. discriminate.
    - destruct (forallb _ (first :: rest)) eqn:Hall; [|reflexivity].
      exfalso. apply Hdiffer. rewrite forallb_forall in Hall.
      assert (Hin : ∀ k shifts, available_shifts !! k = Some shifts →
                                shifts = first).
      { intros k shifts Hk.
        assert (Hmember : shifts ∈ first :: rest).
        { rewrite <- Hdays. apply list_elem_of_fmap. exists (k, shifts).
          split; [reflexivity|]. apply elem_of_map_to_list, Hk. }
        apply list_elem_of_In, Hall in Hmember.
        apply bool_decide_eq_true in Hmember. exact Hmember. }
      rewrite (Hin _ _ Hday1), (Hin _ _ Hday2). reflexivity. }
  assert (Hparts : ∀ entry,
             entry ∈ parts
             ↔ ∃ k shifts,
                 shifts ≠ [] ∧ available_shifts !! k = Some shifts
                 ∧ entry = String.append (py_str k)
                             (String ":" (SheetsManager.join ","%char shifts))).
  { intros entry. unfold parts. rewrite list_elem_of_omap. split.
    - intros (k & _ & Hentry). apply format_day_Some in Hentry
        as (shifts & Hsome & Hk & ->). exists k, shifts. auto.
    - intros (k & shifts & Hsome & Hk & ->). exists k.
      split; [apply (Hkeys k shifts Hk)|].
      apply format_day_Some. exists shifts. auto. }
  assert (Hentry : ∃ entry, entry ∈ parts).
  { destruct shifts1 as [|label labels].
    - destruct shifts2 as [|label labels]; [contradiction|].
      eexists. apply Hparts. exists day2, (label :: labels).
      split; [discriminate|]. split; [exact Hday2 | reflexivity].
    - eexists. apply Hparts. exists day1, (label :: labels).
      split; [discriminate|]. split; [exact Hday1 | reflexivity]. }
  assert (Hsplit : SheetsManager.split ";"%char
                     (SheetsManager.join ";"%char parts) = parts).
  { apply split_join.
    - destruct Hentry as [entry Hentry]. intros Hnil. rewrite Hnil in Hentry.
      inversion Hentry.
    - apply Forall_forall. intros entry Hin.
      apply Hparts in Hin as (k & shifts & _ & Hk & ->).
      destruct (Hplain k shifts Hk) as [Hday Hlabels].
      apply written_entry_no_semicolon; assumption. }
  assert (Hcolon : SheetsManager.contains ":"%char
                     (SheetsManager.join ";"%char parts) = true).
  { rewrite contains_join by reflexivity. apply existsb_exists.
    destruct Hentry as [entry Hentry]. exists entry.
    split; [apply list_elem_of_In, Hentry|].
    apply Hparts in Hentry as (k & shifts & _ & _ & ->).
    apply written_entry_colon. }
  intros day. unfold SheetsManager.parse_available_shifts. cbv zeta.
  rewrite Hstrip, Hformat, Hcolon, Hsplit, day_entries_lookup, lookup_empty.
  unfold days_with_shifts.
  destruct (List.find _ (rev parts)) as [entry|] eqn:Hfind.
  - apply find_some in Hfind as [Hin Hday].
    apply (proj2 (in_rev _ _)), list_elem_of_In, Hparts in Hin
      as (k & shifts & Hsome & Hk & ->).
    destruct (Hplain k shifts Hk) as [Hplain_day Hlabels].
    apply bool_decide_eq_true in Hday.
    rewrite (written_entry_day k shifts Hplain_day) in Hday.
    injection Hday as ->.
    rewrite (written_entry_labels day shifts Hplain_day Hsome Hlabels), Hk.
    destruct shifts; [contradiction | reflexivity].
  - destruct (available_shifts !! day) as [[|label labels]|] eqn:Hk;
      try reflexivity.
    exfalso.
    destruct (Hplain day _ Hk) as [Hplain_day Hlabels].
    pose proof (find_none _ _ Hfind
                  (String.append (py_str day)
                     (String ":" (SheetsManager.join ","%char
                                    (label :: labels))))) as Hnone.
    cbn beta in Hnone. rewrite (written_entry_day day _ Hplain_day) in Hnone.
    rewrite bool_decide_eq_true_2 in Hnone by reflexivity.
    assert (true = false); [|discriminate].
    apply Hnone. apply (proj1 (in_rev _ _)), list_elem_of_In, Hparts.
    exists day, (label :: labels).
    split; [discriminate|]. split; [exact Hk | reflexivity].
Qed.

End MixedAvailability.

Lemma mixed_availability_round_trip_witness :
  SheetsManager.format_available_shifts pretty mixed_week
  = "1:早;3:早,晚"%string
  ∧ SheetsManager.parse_available_shifts
      SheetsManager.ascii_strip SheetsManager.ascii_int
      (SheetsManager.format_available_shifts pretty mixed_week) !! 3
    = Some ["早"; "晚"]%string
  ∧ SheetsManager.parse_available_shifts
      SheetsManager.ascii_strip SheetsManager.ascii_int
      (SheetsManager.format_available_shifts pretty mixed_week) !! 2
    = None.
Proof.
  pose proof (mixed_availability_round_trip
                SheetsManager.ascii_strip SheetsManager.ascii_int pretty
                mixed_week) as Hback.
  assert (Hlookup : ∀ day shifts,
             mixed_week !! day = Some shifts →
             (day = 3 ∧ shifts = ["早"; "晚"]%string)
             ∨ (day = 1 ∧ shifts = ["早"]%string)
             ∨ (day = 2 ∧ shifts = [])).
  { intros day shifts Hday. unfold mixed_week in Hday.
    apply lookup_insert_Some in Hday as [[<- <-]|[_ Hday]]; [auto|].
    apply lookup_insert_Some in Hday as [[<- <-]|[_ Hday]]; [auto|].
    apply lookup_insert_Some in Hday as [[<- <-]|[_ Hday]]; [auto|].
    rewrite lookup_empty in Hday. discriminate. }
  split; [vm_compute; reflexivity|].
  split.
  - rewrite Hback; [reflexivity | | |].
    + exists 3, 1, ["早"; "晚"]%string, ["早"]%string.
      split; [reflexivity|]. split; [reflexivity | discriminate].
    + intros day shifts Hday.
      destruct (Hlookup day shifts Hday) as [[-> ->]|[[-> ->]|[-> ->]]];
        (split; [split; [|split]; vm_compute; reflexivity
                | repeat constructor]).
    + vm_compute. reflexivity.
  - rewrite Hback; [reflexivity | | |].
    + exists 3, 1, ["早"; "晚"]%string, ["早"]%string.
      split; [reflexivity|]. split; [reflexivity | discriminate].
    + intros day shifts Hday.
      destruct (Hlookup day shifts Hday) as [[-> ->]|[[-> ->]|[-> ->]]];
        (split; [split; [|split]; vm_compute; reflexivity
                | repeat constructor]).
    + vm_compute. reflexivity.
Defined.

(** ** The daily limit *)

Lemma total_at_most_length (σ : IntVar → Z) (vars : list IntVar) :
  Forall (fun v => is_bool (σ v) = true) vars → total σ vars ≤ len vars.
Proof.
  intros Hbool. rewrite (total_counts_ones σ vars Hbool). unfold len.
  pose proof (filter_length_le (fun v => σ v =? 1) vars). lia.
Qed.

(** The daily limits posted over the template: for an employee and a
    date, the sum of the employee's three decision variables of that date
    is at most 3. *)
Lemma posted_daily_limits_elem (self : ORToolsScheduler.t) (c : Constraint) :
  c ∈ posted_daily_limits self
        (ORToolsScheduler.generate_month_template self)
        (fst (ORToolsScheduler.build_model self)) →
  ∃ emp_idx j,
    (emp_idx < length (ORToolsScheduler.employees self))%nat
    ∧ (j < 7 * Z.to_nat (ORToolsScheduler.num_weeks self))%nat
    ∧ c = Linear (ExprLe
                    (py_sum [ShiftVar emp_idx (3 * j);
                             ShiftVar emp_idx (3 * j + 1);
                             ShiftVar emp_idx (3 * j + 2)])
                    (Const 3)).
Proof.
  intros Hc. unfold posted_daily_limits in Hc.
  apply list_elem_of_In, in_flat_map in Hc as (emp_idx & Hemp & Hc).
  apply in_seq in Hemp.
  apply in_flat_map in Hc as ([date_val shift_indices] & Hgroup & Hc).
  destruct Hc as [<-|[]].
  rewrite template_shifts_by_date in Hgroup.
  apply in_map_iff in Hgroup as (j & Hj & Hin).
  injection Hj as _ <-. apply in_seq in Hin.
  pose proof (template_length self) as Hlength.
  destruct (built_model_spec self) as (-> & _ & _).
  exists emp_idx, j. split; [lia|]. split; [lia|].
  cbn [map]. rewrite !created_rows_lookup by lia. reflexivity.
Qed.

(** X16. The daily limit never binds. Over the template and the table of
    decision variables, [_add_daily_limit_constraints] adds to a model one
    constraint for every employee and every date, and changes nothing
    else: the constraint says that the employee's decision variables of
    the date sum to at most 3, and every date of the template has exactly
    three of them. So each constraint it adds holds under every
    assignment of 0 and 1 to the decision variables, and such an
    assignment satisfies the model after the call exactly when it
    satisfies the model before. *)
Theorem daily_limit_never_binds (self : ORToolsScheduler.t) (m : CpModel)
  (σ : IntVar → Z) :
  (∀ emp_idx shift_idx,
     (emp_idx < length (ORToolsScheduler.employees self))%nat →
     (shift_idx < length (ORToolsScheduler.generate_month_template self))%nat →
     is_bool (σ (ShiftVar emp_idx shift_idx)) = true) →
  let after :=
    ORToolsScheduler._add_daily_limit_constraints self
      (ORToolsScheduler.generate_month_template self)
      (fst (ORToolsScheduler.build_model self)) m in
  (∃ added,
     constraints after = constraints m ++ added
     ∧ length added
       = (length (ORToolsScheduler.employees self)
          * (7 * Z.to_nat (ORToolsScheduler.num_weeks self)))%nat
     ∧ Forall
         (fun c =>
            ∃ emp_idx j,
              (emp_idx < length (ORToolsScheduler.employees self))%nat
              ∧ (j < 7 * Z.to_nat (ORToolsScheduler.num_weeks self))%nat
              ∧ c = Linear (ExprLe
                              (py_sum [ShiftVar emp_idx (3 * j);
                                       ShiftVar emp_idx (3 * j + 1);
                                       ShiftVar emp_idx (3 * j + 2)])
                              (Const 3)))
         added
     ∧ Forall (fun c => holds σ c = true) added)
  ∧ variables after = variables m
  ∧ objective after = objective m
  ∧ satisfies σ after = satisfies σ m.
Proof.
  intros Hbool after. unfold after. rewrite daily_limits_posted.
  set (added := posted_daily_limits self
                  (ORToolsScheduler.generate_month_template self)
                  (fst (ORToolsScheduler.build_model self))).
  pose proof (template_length self) as Hlength.
  assert (Hhold : Forall (fun c => holds σ c = true) added).
  { apply Forall_forall. intros c Hc.
    apply posted_daily_limits_elem in Hc as (emp_idx & j & Hemp & Hj & ->).
    cbn [holds eval]. rewrite eval_py_sum. apply Z.leb_le.
    etrans; [apply total_at_most_length|].
    - repeat constructor; apply Hbool; lia.
    - unfold len. cbn [length]. lia. }
  split; [|split; [|split]].
  - exists added. split; [reflexivity|]. split; [|split].
    + unfold added, posted_daily_limits.
      rewrite (flat_map_length_const
                 _ (7 * Z.to_nat (ORToolsScheduler.num_weeks self))).
      * rewrite length_seq. reflexivity.
      * intros emp_idx. rewrite template_shifts_by_date.
        rewrite (flat_map_length_const _ 1).
        -- rewrite length_map, length_seq. lia.
        -- intros [date_val shift_indices]. reflexivity.
    + apply Forall_forall. intros c Hc.
      apply posted_daily_limits_elem, Hc.
    + exact Hhold.
  - unfold extend. cbn [variables]. apply app_nil_r.
  - reflexivity.
  - unfold satisfies, extend. cbn [variables constraints].
    rewrite app_nil_r, forallb_app.
    rewrite (proj2 (forallb_forall (holds σ) added));
      [rewrite andb_true_r; reflexivity|].
    intros c Hc. rewrite Forall_forall in Hhold.
    apply Hhold, list_elem_of_In, Hc.
Qed.

Lemma daily_limit_never_binds_witness :
  satisfies clinic_values
    (ORToolsScheduler._add_daily_limit_constraints clinic_scheduler
       (ORToolsScheduler.generate_month_template clinic_scheduler)
       (fst (ORToolsScheduler.build_model clinic_scheduler)) cp_model.empty)
  = true.
Proof.
  destruct (daily_limit_never_binds clinic_scheduler cp_model.empty
              clinic_values) as (_ & _ & _ & Hsame).
  - intros emp_idx shift_idx _ _. cbn [clinic_values].
    destruct (shift_idx =? 1)%nat;
      [destruct ((emp_idx =? 1)%nat || (emp_idx =? 2)%nat)
      | destruct (emp_idx <? 2)%nat]; reflexivity.
  - etrans; [exact Hsame|]. reflexivity.
Defined.

(** ** The form and the calendar *)

(** X17. The scheduler the form sets up always starts on a Monday, the one
    on or before the date chosen, and runs for one week: every slot of
    its template lies in the calendar week of the date chosen, which is
    one of the seven dates of the template. *)
Theorem form_schedules_whole_week (employees : list Employee.t)
  (requirements : list ShiftRequirement.t)
  (time_off_requests : list TimeOffRequest.t)
  (pre_assigned_shifts : list PreAssignedShift.t) (chosen : date) :
  let self :=
    schedule_generator.scheduler employees requirements time_off_requests
      pre_assigned_shifts chosen in
  weekday (ORToolsScheduler.start_date self) = 0
  ∧ ORToolsScheduler.start_date self ≤ chosen
    ≤ ORToolsScheduler.start_date self + 6
  ∧ ORToolsScheduler.num_weeks self = 1
  ∧ (∀ slot,
       slot ∈ ORToolsScheduler.generate_month_template self →
       ORToolsScheduler.iso_week_key (Shift.date slot)
       = ORToolsScheduler.iso_week_key chosen)
  ∧ (∃ slot,
       slot ∈ ORToolsScheduler.generate_month_template self
       ∧ Shift.date slot = chosen).
Proof.
  intros self.
  assert (Hstart : ORToolsScheduler.start_date self
                   = chosen - weekday chosen).
  { cbn. unfold schedule_generator.adjusted_start.
    destruct (Z.eqb_spec (weekday chosen) 0) as [Hzero|_]; cbn [negb]; lia. }
  pose proof (weekday_range chosen) as Hrange.
  assert (Hmonday : weekday (chosen - weekday chosen) = 0).
  { clear. unfold weekday. Z.div_mod_to_equations. lia. }
  split; [rewrite Hstart; exact Hmonday|].
  split; [rewrite Hstart; lia|]. split; [reflexivity|]. split.
  - intros slot Hslot. apply list_elem_of_lookup in Hslot as (i & Hslot).
    pose proof (lookup_lt_Some _ _ _ Hslot) as Hlt.
    rewrite template_length in Hlt.
    apply template_slot in Hslot as (Hdate & _).
    rewrite Hdate, Hstart. unfold ORToolsScheduler.iso_week_key.
    change (Z.to_nat (ORToolsScheduler.num_weeks self)) with 1%nat in Hlt.
    pose proof (Nat.div_mod_eq i 3) as Hi.
    pose proof (Nat.mod_upper_bound i 3 ltac:(lia)) as Hr.
    assert (Hday : 0 ≤ Z.of_nat (i / 3) ≤ 6) by lia.
    revert Hday. generalize (Z.of_nat (i / 3)). intros j Hj.
    unfold weekday in *. Z.div_mod_to_equations. lia.
  - destruct (lookup_lt_is_Some_2
                (ORToolsScheduler.generate_month_template self)
                (3 * Z.to_nat (weekday chosen))%nat) as [slot Hslot].
    { rewrite template_length.
      change (Z.to_nat (ORToolsScheduler.num_weeks self)) with 1%nat. lia. }
    exists slot. split; [apply (list_elem_of_lookup_2 _ _ _ Hslot)|].
    apply template_slot in Hslot as (Hdate & _). rewrite Hdate, Hstart.
    rewrite Nat.mul_comm, Nat.div_mul by lia. lia.
Qed.

Lemma matching_shift_get_shift (schedule : Schedule.t) (current_date : date)
  (shift_time : string) :
  calendar_view.matching_shift schedule current_date shift_time
  = Schedule.get_shift schedule current_date shift_time.
Proof.
  unfold calendar_view.matching_shift, Schedule.get_shift.
  induction (Schedule.shifts schedule) as [|shift shifts IH]; [reflexivity|].
  cbn [List.find Schedule.get_shift_loop].
  destruct ((Shift.date shift =? current_date)
            && String.eqb (Shift.shift_time shift) shift_time);
    [reflexivity | exact IH].
Qed.

Lemma fold_min_spec (ds : list Z) (d : Z) :
  fold_left Z.min ds d ∈ d :: ds
  ∧ ∀ x, x ∈ d :: ds → fold_left Z.min ds d ≤ x.
Proof.
  revert d. induction ds as [|e ds IH]; intros d; cbn [fold_left].
  - split; [left|]. intros x Hx. apply list_elem_of_singleton in Hx. lia.
  - destruct (IH (Z.min d e)) as [Hin Hle]. split.
    + apply elem_of_cons in Hin as [Hin|Hin].
      * rewrite Hin. destruct (Z.min_spec d e) as [[_ ->]|[_ ->]];
          [left | right; left].
      * right. right. exact Hin.
    + intros x Hx. apply elem_of_cons in Hx as [->|Hx].
      * pose proof (Hle (Z.min d e) ltac:(left)). lia.
      * apply elem_of_cons in Hx as [->|Hx].
        -- pose proof (Hle (Z.min d e) ltac:(left)). lia.
        -- apply Hle. right. exact Hx.
Qed.

Lemma fold_max_spec (ds : list Z) (d : Z) :
  fold_left Z.max ds d ∈ d :: ds
  ∧ ∀ x, x ∈ d :: ds → x ≤ fold_left Z.max ds d.
Proof.
  revert d. induction ds as [|e ds IH]; intros d; cbn [fold_left].
  - split; [left|]. intros x Hx. apply list_elem_of_singleton in Hx. lia.
  - destruct (IH (Z.max d e)) as [Hin Hle]. split.
    + apply elem_of_cons in Hin as [Hin|Hin].
      * rewrite Hin. destruct (Z.max_spec d e) as [[_ ->]|[_ ->]];
          [right; left | left].
      * right. right. exact Hin.
    + intros x Hx. apply elem_of_cons in Hx as [->|Hx].
      * pose proof (Hle (Z.max d e) ltac:(left)). lia.
      * apply elem_of_cons in Hx as [->|Hx].
        -- pose proof (Hle (Z.max d e) ltac:(left)). lia.
        -- apply Hle. right. exact Hx.
Qed.

(** The dates of the solved schedule run from the start date to the last
    day of the last week, both reached. *)
Lemma solved_dates (rt : Runtime) (self : ORToolsScheduler.t) :
  1 ≤ ORToolsScheduler.num_weeks self →
  let dates := map Shift.date (Schedule.shifts (solved_schedule rt self)) in
  let first := ORToolsScheduler.start_date self in
  let last := first + 7 * ORToolsScheduler.num_weeks self - 1 in
  first ∈ dates ∧ last ∈ dates ∧ ∀ x, x ∈ dates → first ≤ x ≤ last.
Proof.
  intros Hweeks dates first last.
  pose proof (template_length self) as Hlength.
  set (n := Z.to_nat (ORToolsScheduler.num_weeks self)) in *.
  assert (Hdate : ∀ i,
             (i < n * 21)%nat →
             first + Z.of_nat (i / 3) ∈ dates).
  { intros i Hi.
    destruct (lookup_lt_is_Some_2
                (ORToolsScheduler.generate_month_template self) i
                ltac:(lia)) as [slot Hslot].
    apply list_elem_of_In, in_map_iff.
    exists (Shift.mk (Shift.date slot) (Shift.shift_time slot)
                     (assigned_at rt self i)).
    split.
    - apply template_slot in Hslot as (-> & _). reflexivity.
    - apply list_elem_of_In, solved_shift_elem. exists i, slot.
      split; [exact Hslot | reflexivity]. }
  split; [|split].
  - pose proof (Hdate 0%nat ltac:(lia)) as Hfirst.
    change (Z.of_nat (0 / 3)) with 0 in Hfirst.
    replace (first + 0) with first in Hfirst by lia. exact Hfirst.
  - pose proof (Hdate (n * 21 - 1)%nat ltac:(lia)) as Hlast.
    assert (Hdiv : ((n * 21 - 1) / 3 = 7 * n - 1)%nat).
    { symmetry. apply (Nat.div_unique _ 3 _ 2); lia. }
    rewrite Hdiv in Hlast.
    replace (first + Z.of_nat (7 * n - 1)) with last in Hlast
      by (unfold last, n; lia).
    exact Hlast.
  - intros x Hx. apply list_elem_of_In, in_map_iff in Hx as (shift & <- & Hx).
    apply list_elem_of_In, solved_shift_elem in Hx
      as (i & slot & Hslot & ->).
    pose proof (lookup_lt_Some _ _ _ Hslot) as Hlt. rewrite Hlength in Hlt.
    apply template_slot in Hslot as (Hdate' & _).
    cbn [Shift.date]. rewrite Hdate'. fold first.
    pose proof (Nat.div_mod_eq i 3) as Hi.
    pose proof (Nat.mod_upper_bound i 3 ltac:(lia)) as Hr.
    unfold last, n in *. lia.
Qed.

(** X18. The calendar drawn for the schedule read off the solver's values
    has as many weeks as were scheduled, and each of its cells, for every
    week, day and shift time, finds the shift of that slot. *)
Theorem calendar_shows_schedule (rt : Runtime) (self : ORToolsScheduler.t) :
  1 ≤ ORToolsScheduler.num_weeks self →
  calendar_view.num_weeks (solved_schedule rt self)
  = Some (ORToolsScheduler.num_weeks self)
  ∧ ∀ (w d k : nat) (shift_time : string),
      Z.of_nat w < ORToolsScheduler.num_weeks self → (d < 7)%nat →
      ORToolsScheduler.shift_times !! k = Some shift_time →
      calendar_view.matching_shift (solved_schedule rt self)
        (calendar_view.cell_date (ORToolsScheduler.start_date self)
           (Z.of_nat w) (Z.of_nat d))
        shift_time
      = Some (Shift.mk (ORToolsScheduler.start_date self
                        + (7 * Z.of_nat w + Z.of_nat d)) shift_time
                       (assigned_at rt self (w * 21 + (d * 3 + k)))).
Proof.
  intros Hweeks. split.
  - destruct (solved_dates rt self Hweeks) as (Hfirst & Hlast & Hbounds).
    unfold calendar_view.num_weeks. cbv zeta.
    destruct (map Shift.date (Schedule.shifts (solved_schedule rt self)))
      as [|date_val dates]; [inversion Hfirst|].
    destruct (fold_min_spec dates date_val) as [Hmin_in Hmin].
    destruct (fold_max_spec dates date_val) as [Hmax_in Hmax].
    pose proof (Hbounds _ Hmin_in) as Hmin_range.
    pose proof (Hbounds _ Hmax_in) as Hmax_range.
    pose proof (Hmin _ Hfirst) as Hmin_first.
    pose proof (Hmax _ Hlast) as Hmax_last.
    f_equal.
    replace (fold_left Z.max dates date_val - fold_left Z.min dates date_val)
      with (7 * (ORToolsScheduler.num_weeks self - 1) + 6) by lia.
    Z.div_mod_to_equations. lia.
  - intros w d k shift_time Hw Hd Hk.
    rewrite matching_shift_get_shift. unfold calendar_view.cell_date.
    cbv zeta. rewrite <- Z.add_assoc. apply solved_get_shift; assumption.
Qed.

Lemma calendar_shows_schedule_witness :
  calendar_view.num_weeks clinic_schedule = Some 1
  ∧ calendar_view.matching_shift clinic_schedule (monday_2025_01_06 + 2) "晚"
    = Some (Shift.mk (monday_2025_01_06 + 2) "晚"
                     (assigned_at clinic_runtime clinic_scheduler 8)).
Proof.
  destruct (calendar_shows_schedule clinic_runtime clinic_scheduler)
    as [Hweeks Hcells]; [reflexivity + (cbn; lia)|].
  split; [exact Hweeks|].
  exact (Hcells 0%nat 2%nat 2%nat "晚"%string eq_refl ltac:(lia) eq_refl).
Defined.

(** ** The preference score *)

Section Dictionaries.

Context {K V : Type} (eqb : K → K → bool).
Hypothesis eqb_eq : ∀ a b, eqb a b = true ↔ a = b.

Lemma eqb_neq (a b : K) : eqb a b = false ↔ a ≠ b.
Proof.
  destruct (eqb a b) eqn:Hab.
  - apply eqb_eq in Hab. split; [discriminate | contradiction].
  - split; [|reflexivity]. intros _ Heq. apply eqb_eq in Heq. congruence.
Qed.

Lemma dict_get_cons (k0 : K) (v0 : V) (d : list (K * V)) (k : K) :
  dict_get eqb ((k0, v0) :: d) k
  = if eqb k0 k then Some v0 else dict_get eqb d k.
Proof.
  unfold dict_get. cbn [List.find fst]. destruct (eqb k0 k); reflexivity.
Qed.

(** Reading a dictionary after [d[k] = f(d.get(k))]. *)
Lemma dict_get_update (k : K) (f : option V → V) (d : list (K * V)) (k' : K) :
  dict_get eqb (dict_update eqb k f d) k'
  = if eqb k k' then Some (f (dict_get eqb d k)) else dict_get eqb d k'.
Proof.
  induction d as [|[k0 v0] d IH].
  - cbn [dict_update]. rewrite dict_get_cons. reflexivity.
  - cbn [dict_update]. rewrite !dict_get_cons.
    destruct (eqb k0 k) eqn:Hk0.
    + apply eqb_eq in Hk0. subst k0. rewrite dict_get_cons.
      destruct (eqb k k'); reflexivity.
    + rewrite dict_get_cons, IH. destruct (eqb k0 k') eqn:Hk'.
      * apply eqb_eq in Hk'. subst k0.
        destruct (eqb k k') eqn:Hkk'; [|reflexivity].
        apply eqb_eq in Hkk'. subst k'.
        assert (eqb k k = true) by (apply eqb_eq; reflexivity). congruence.
      * reflexivity.
Qed.

Lemma dict_update_keys (k : K) (f : option V → V) (d : list (K * V))
  (k' : K) :
  k' ∈ (dict_update eqb k f d).*1 ↔ k' = k ∨ k' ∈ d.*1.
Proof.
  induction d as [|[k0 v0] d IH].
  - cbn [dict_update]. rewrite fmap_cons, fmap_nil, elem_of_cons.
    cbn [fst]. rewrite elem_of_nil. reflexivity.
  - cbn [dict_update]. destruct (eqb k0 k) eqn:Hk0.
    + apply eqb_eq in Hk0. subst k0. rewrite !fmap_cons. cbn [fst].
      rewrite !elem_of_cons. tauto.
    + rewrite !fmap_cons. cbn [fst]. rewrite !elem_of_cons, IH. tauto.
Qed.

Lemma dict_update_NoDup (k : K) (f : option V → V) (d : list (K * V)) :
  NoDup d.*1 → NoDup (dict_update eqb k f d).*1.
Proof.
  induction d as [|[k0 v0] d IH]; intros Hnodup.
  - cbn [dict_update]. rewrite fmap_cons, fmap_nil. apply NoDup_singleton.
  - rewrite fmap_cons in Hnodup. cbn [fst] in Hnodup.
    apply NoDup_cons in Hnodup as [Hfresh Hnodup].
    cbn [dict_update]. destruct (eqb k0 k) eqn:Hk0.
    + rewrite fmap_cons. cbn [fst]. apply NoDup_cons. split; assumption.
    + rewrite fmap_cons. cbn [fst]. apply NoDup_cons.
      split; [|apply IH, Hnodup].
      rewrite dict_update_keys. intros [->|Hin]; [|contradiction].
      assert (eqb k k = true) by (apply eqb_eq; reflexivity). congruence.
Qed.

(** With no key twice, the entries of a dictionary are what reading it
    gives. *)
Lemma dict_get_elem (d : list (K * V)) (k : K) (v : V) :
  NoDup d.*1 → ((k, v) ∈ d ↔ dict_get eqb d k = Some v).
Proof.
  induction d as [|[k0 v0] d IH]; intros Hnodup.
  - unfold dict_get. cbn. rewrite elem_of_nil. split; [contradiction|].
    discriminate.
  - rewrite fmap_cons in Hnodup. cbn [fst] in Hnodup.
    apply NoDup_cons in Hnodup as [Hfresh Hnodup].
    rewrite dict_get_cons, elem_of_cons. destruct (eqb k0 k) eqn:Hk0.
    + apply eqb_eq in Hk0. subst k0. split.
      * intros [Heq|Hin]; [congruence|].
        exfalso. apply Hfresh. apply list_elem_of_fmap.
        exists (k, v). split; [reflexivity | exact Hin].
      * intros Heq. left. congruence.
    + rewrite <- (IH Hnodup). split.
      * intros [Heq|Hin]; [|exact Hin]. injection Heq as -> ->.
        assert (eqb k0 k0 = true) by (apply eqb_eq; reflexivity). congruence.
      * intros Hin. right. exact Hin.
Qed.

End Dictionaries.

Lemma string_eqb_eq (a b : string) : String.eqb a b = true ↔ a = b.
Proof. apply String.eqb_eq. Qed.

Lemma times_nonneg (p : string * date) (l : list (string * date)) :
  0 ≤ times p l.
Proof. unfold times, len. lia. Qed.

Lemma times_snoc (p q : string * date) (l : list (string * date)) :
  times p (l ++ [q]) = times p l + (if bool_decide (q = p) then 1 else 0).
Proof.
  unfold times, len. rewrite List.filter_app, length_app. cbn [List.filter].
  destruct (bool_decide (q = p)); cbn [length]; lia.
Qed.

Lemma times_elem (p : string * date) (l : list (string * date)) :
  times p l ≠ 0 ↔ p ∈ l.
Proof.
  unfold times, len. split.
  - intros Hsome.
    destruct (List.filter (fun q => bool_decide (q = p)) l) as [|q qs] eqn:Hq;
      [contradiction|].
    assert (Hin : In q (List.filter (fun q => bool_decide (q = p)) l))
      by (rewrite Hq; left; reflexivity).
    apply filter_In in Hin as [Hin Heq]. apply bool_decide_eq_true in Heq.
    subst q. apply list_elem_of_In, Hin.
  - intros Hin.
    assert (Hp : In p (List.filter (fun q => bool_decide (q = p)) l)).
    { apply filter_In. split; [apply list_elem_of_In, Hin|].
      apply bool_decide_eq_true. reflexivity. }
    destruct (List.filter _ l); [contradiction | cbn [length]; lia].
Qed.

(** The dictionary of counts is filled pair by pair. *)
Lemma daily_shift_counts_fold (schedule : Schedule.t) :
  constraints.daily_shift_counts schedule
  = fold_left count_step (incidences schedule) [].
Proof.
  unfold constraints.daily_shift_counts, incidences.
  generalize (@nil (string * list (date * Z))) as acc.
  induction (Schedule.shifts schedule) as [|shift shifts IH]; intros acc;
    [reflexivity|].
  cbn [fold_left flat_map]. rewrite fold_left_app, IH. f_equal.
  generalize acc as acc'.
  induction (Shift.assigned_employees shift) as [|employee crew IHcrew];
    intros acc'; [reflexivity|].
  cbn [fold_left map]. rewrite IHcrew. reflexivity.
Qed.

Lemma counts_of_step (l : list (string * date))
  (daily_shifts : list (string * list (date * Z))) (p : string * date) :
  counts_of l daily_shifts → counts_of (l ++ [p]) (count_step daily_shifts p).
Proof.
  intros (Hnames & Hdates & Hcounts). destruct p as [n d].
  unfold count_step. cbn [fst snd].
  assert (Hinner : NoDup (default [] (dict_get String.eqb daily_shifts n)).*1).
  { destruct (dict_get String.eqb daily_shifts n) as [date_shifts|] eqn:Hget;
      cbn [from_option id]; [|constructor].
    apply (dict_get_elem String.eqb string_eqb_eq _ _ _ Hnames) in Hget.
    apply (Hdates _ _ Hget). }
  split; [|split].
  - apply (dict_update_NoDup String.eqb string_eqb_eq), Hnames.
  - intros name date_shifts Hin.
    apply (dict_get_elem String.eqb string_eqb_eq) in Hin;
      [|apply (dict_update_NoDup String.eqb string_eqb_eq), Hnames].
    rewrite (dict_get_update String.eqb string_eqb_eq) in Hin.
    destruct (String.eqb n name).
    + injection Hin as <-.
      apply (dict_update_NoDup Z.eqb Z.eqb_eq), Hinner.
    + apply (dict_get_elem String.eqb string_eqb_eq _ _ _ Hnames) in Hin.
      apply (Hdates _ _ Hin).
  - intros name shift_date. rewrite times_snoc.
    rewrite (dict_get_update String.eqb string_eqb_eq).
    pose proof (times_nonneg (name, shift_date) l) as Hnonneg.
    destruct (String.eqb_spec n name) as [->|Hname].
    + cbn [from_option id]. rewrite (dict_get_update Z.eqb Z.eqb_eq).
      destruct (Z.eqb_spec d shift_date) as [->|Hdate].
      * rewrite bool_decide_eq_true_2 by reflexivity.
        rewrite Hcounts.
        destruct (Z.eqb_spec (times (name, shift_date) l) 0) as [->|Hsome];
          cbn [from_option id].
        -- reflexivity.
        -- destruct (Z.eqb_spec (times (name, shift_date) l + 1) 0); [lia|].
           reflexivity.
      * rewrite bool_decide_eq_false_2 by congruence.
        rewrite Z.add_0_r. apply Hcounts.
    + rewrite bool_decide_eq_false_2 by congruence.
      rewrite Z.add_0_r. apply Hcounts.
Qed.

Lemma counts_of_fold (l : list (string * date)) :
  counts_of l (fold_left count_step l []).
Proof.
  induction l as [|p l IH] using rev_ind.
  - split; [constructor|]. split.
    + intros name date_shifts Hin. inversion Hin.
    + intros name shift_date. reflexivity.
  - rewrite fold_left_app. cbn [fold_left]. apply counts_of_step, IH.
Qed.

Lemma entries_elem (daily_shifts : list (string * list (date * Z)))
  (name : string) (shift_date : date) (count : Z) :
  ((name, shift_date), count) ∈ entries daily_shifts
  ↔ ∃ date_shifts,
      (name, date_shifts) ∈ daily_shifts ∧ (shift_date, count) ∈ date_shifts.
Proof.
  unfold entries. rewrite list_elem_of_In, in_flat_map. split.
  - intros ([n ds] & Hin & Hentry).
    apply in_map_iff in Hentry as ([d c] & Heq & Hdc).
    injection Heq as -> -> ->. exists ds.
    split; apply list_elem_of_In; assumption.
  - intros (ds & Hin & Hdc). exists (name, ds).
    split; [apply list_elem_of_In, Hin|].
    apply in_map_iff. exists (shift_date, count).
    split; [reflexivity | apply list_elem_of_In, Hdc].
Qed.

Lemma entries_NoDup (daily_shifts : list (string * list (date * Z))) :
  NoDup daily_shifts.*1 →
  (∀ name date_shifts,
     (name, date_shifts) ∈ daily_shifts → NoDup date_shifts.*1) →
  NoDup (entries daily_shifts).*1.
Proof.
  induction daily_shifts as [|[name date_shifts] daily_shifts IH];
    intros Hnames Hdates; [constructor|].
  rewrite fmap_cons in Hnames. cbn [fst] in Hnames.
  apply NoDup_cons in Hnames as [Hfresh Hnames].
  unfold entries. cbn [flat_map]. fold (entries daily_shifts).
  rewrite fmap_app. apply NoDup_app. split; [|split].
  - pose proof (Hdates name date_shifts ltac:(left)) as Hinner.
    clear -Hinner. induction date_shifts as [|[d c] date_shifts IH];
      [constructor|].
    rewrite fmap_cons in Hinner. cbn [fst] in Hinner.
    apply NoDup_cons in Hinner as [Hfresh Hinner].
    cbn [map]. rewrite fmap_cons. cbn [fst]. apply NoDup_cons.
    split; [|apply IH, Hinner].
    intros Hin. apply Hfresh.
    apply list_elem_of_fmap in Hin as ([[n1 d1] c1] & Heq & Hin).
    cbn [fst] in Heq. injection Heq as Hn1 Hd1. subst n1 d1.
    apply list_elem_of_In, in_map_iff in Hin as ([d2 c2] & Heq & Hin).
    injection Heq as Hd2 Hc2. subst d2 c2. apply list_elem_of_fmap.
    exists (d, c1). split; [reflexivity | apply list_elem_of_In, Hin].
  - intros [n d] Hhere Hthere.
    apply list_elem_of_fmap in Hhere as ([[n1 d1] c1] & Heq & Hhere).
    cbn [fst] in Heq. injection Heq as Hn1 Hd1. subst n1 d1.
    apply list_elem_of_In, in_map_iff in Hhere as ([d2 c2] & Heq & _).
    injection Heq as Hn _ _. subst n.
    apply list_elem_of_fmap in Hthere as ([[n3 d3] c3] & Heq & Hthere).
    cbn [fst] in Heq. injection Heq as Hn3 Hd3. subst n3 d3.
    apply entries_elem in Hthere as (ds & Hin & _).
    apply Hfresh. apply list_elem_of_fmap. exists (name, ds).
    split; [reflexivity | exact Hin].
  - apply IH; [exact Hnames|]. intros n ds Hin.
    apply (Hdates n ds). right. exact Hin.
Qed.

(** The entries of the dictionary of counts: every pair that occurs, with
    the number of times it does. *)
Lemma counts_of_entries (l : list (string * date))
  (daily_shifts : list (string * list (date * Z))) (p : string * date)
  (count : Z) :
  counts_of l daily_shifts →
  ((p, count) ∈ entries daily_shifts ↔ count = times p l ∧ p ∈ l).
Proof.
  intros (Hnames & Hdates & Hcounts). destruct p as [name shift_date].
  rewrite entries_elem, <- times_elem.
  specialize (Hcounts name shift_date). split.
  - intros (ds & Hin & Hdc).
    pose proof (Hdates _ _ Hin) as Hinner.
    apply (dict_get_elem String.eqb string_eqb_eq _ _ _ Hnames) in Hin.
    apply (dict_get_elem Z.eqb Z.eqb_eq _ _ _ Hinner) in Hdc.
    rewrite Hin in Hcounts. cbn [from_option id] in Hcounts.
    rewrite Hdc in Hcounts.
    destruct (Z.eqb_spec (times (name, shift_date) l) 0); [discriminate|].
    injection Hcounts as ->. split; [reflexivity | assumption].
  - intros [-> Hsome].
    destruct (Z.eqb_spec (times (name, shift_date) l) 0); [contradiction|].
    destruct (dict_get String.eqb daily_shifts name) as [ds|] eqn:Hget;
      cbn [from_option id] in Hcounts; [|discriminate].
    apply (dict_get_elem String.eqb string_eqb_eq _ _ _ Hnames) in Hget.
    exists ds. split; [exact Hget|].
    apply (dict_get_elem Z.eqb Z.eqb_eq _ _ _ (Hdates _ _ Hget)).
    exact Hcounts.
Qed.

Lemma score_fold_dates (date_shifts : list (date * Z)) (score : Z) :
  fold_left
    (fun score '(shift_date, count) =>
       if count =? 2 then score + 10
       else if count =? 1 then score + 0
       else score - 5)
    date_shifts score
  = score + foldr (fun c acc => points c + acc) 0 date_shifts.*2.
Proof.
  revert score. induction date_shifts as [|[d c] date_shifts IH];
    intros score; [cbn; lia|].
  cbn [fold_left]. rewrite IH, fmap_cons. cbn [foldr snd]. unfold points.
  destruct (c =? 2); [lia|]. destruct (c =? 1); lia.
Qed.

Lemma score_fold_names (daily_shifts : list (string * list (date * Z)))
  (score : Z) :
  fold_left
    (fun score '(employee_name, date_shifts) =>
       fold_left
         (fun score '(shift_date, count) =>
            if count =? 2 then score + 10
            else if count =? 1 then score + 0
            else score - 5)
         date_shifts score)
    daily_shifts score
  = score + foldr (fun c acc => points c + acc) 0 (entries daily_shifts).*2.
Proof.
  revert score.
  induction daily_shifts as [|[name date_shifts] daily_shifts IH];
    intros score; [cbn; lia|].
  cbn [fold_left]. rewrite IH, score_fold_dates.
  unfold entries. cbn [flat_map]. fold (entries daily_shifts).
  rewrite fmap_app, foldr_app.
  assert (Hsnd : (map (fun '(shift_date, count) =>
                         ((name, shift_date), count)) date_shifts).*2
                 = date_shifts.*2).
  { clear. induction date_shifts as [|[d c] ds IH]; [reflexivity|].
    cbn [map]. rewrite !fmap_cons, IH. reflexivity. }
  rewrite Hsnd.
  generalize (foldr (fun c acc => points c + acc) 0 (entries daily_shifts).*2).
  intros rest. clear. induction (date_shifts.*2) as [|c cs IH];
    cbn [foldr]; lia.
Qed.

Lemma sum_points_permutation (f : string * date → Z)
  (l k : list (string * date)) :
  l ≡ₚ k →
  foldr (fun p acc => f p + acc) 0 l = foldr (fun p acc => f p + acc) 0 k.
Proof.
  induction 1 as [|x l k _ IH|x y l|l k m _ IH1 _ IH2]; cbn [foldr]; lia.
Qed.

Lemma sum_points_count (f : string * date → Z) (l : list (string * date)) :
  (∀ p, p ∈ l → 1 ≤ f p) →
  foldr (fun p acc => points (f p) + acc) 0 l
  = 10 * len (List.filter (fun p => f p =? 2) l)
    - 5 * len (List.filter (fun p => 3 <=? f p) l).
Proof.
  unfold len. induction l as [|p l IH]; intros Hone; [reflexivity|].
  cbn [foldr List.filter]. rewrite IH by (intros q Hq; apply Hone; right;
                                          exact Hq).
  pose proof (Hone p ltac:(left)) as Hp. unfold points.
  destruct (Z.eqb_spec (f p) 2), (Z.eqb_spec (f p) 1), (Z.leb_spec 3 (f p));
    cbn [length]; rewrite ?Nat2Z.inj_succ; lia.
Qed.

(** X19. The score of a schedule is ten points for every day on which an
    employee has exactly two shifts, less five for every day on which an
    employee has three or more, employees being told apart by name; a
    day with one shift counts for nothing. *)
Theorem calculate_schedule_score_spec (schedule : Schedule.t) :
  constraints.calculate_schedule_score schedule
  = 10 * len (List.filter
                (fun p => times p (incidences schedule) =? 2)
                (employee_days schedule))
    - 5 * len (List.filter
                 (fun p => 3 <=? times p (incidences schedule))
                 (employee_days schedule)).
Proof.
  unfold constraints.calculate_schedule_score.
  rewrite score_fold_names, daily_shift_counts_fold, Z.add_0_l.
  set (l := incidences schedule).
  pose proof (counts_of_fold l) as Hcounts.
  set (daily_shifts := fold_left count_step l []) in *.
  pose proof (fun p count =>
                counts_of_entries l daily_shifts p count Hcounts) as Hentries.
  destruct Hcounts as (Hnames & Hdates & _).
  pose proof (entries_NoDup daily_shifts Hnames Hdates) as Hnodup.
  assert (Hvalues : (entries daily_shifts).*2
                    = map (fun p => times p l) (entries daily_shifts).*1).
  { change (?f <$> ?x) with (map f x). rewrite map_map.
    apply map_ext_in. intros [p c] Hin.
    apply list_elem_of_In, Hentries in Hin as [-> _]. reflexivity. }
  rewrite Hvalues.
  assert (Hsame : (entries daily_shifts).*1 ≡ₚ employee_days schedule).
  { apply NoDup_Permutation; [exact Hnodup | apply NoDup_remove_dups|].
    intros p. unfold employee_days. fold l. rewrite elem_of_remove_dups.
    split.
    - intros Hin. apply list_elem_of_fmap in Hin as ([q c] & -> & Hin).
      apply Hentries in Hin as [_ Hin]. exact Hin.
    - intros Hin. apply list_elem_of_fmap. exists (p, times p l).
      split; [reflexivity|]. apply Hentries. split; [reflexivity | exact Hin]. }
  assert (Hsum : ∀ pairs,
             foldr (fun c acc => points c + acc) 0
                   (map (fun p => times p l) pairs)
             = foldr (fun p acc => points (times p l) + acc) 0 pairs).
  { intros pairs. induction pairs as [|p pairs IH]; [reflexivity|].
    cbn [map foldr]. rewrite IH. reflexivity. }
  rewrite Hsum.
  rewrite (sum_points_permutation (fun p => points (times p l)) _ _ Hsame).
  apply sum_points_count. intros p Hp. unfold employee_days in Hp.
  fold l in Hp. apply (proj1 (elem_of_remove_dups _ _)) in Hp.
  apply (proj2 (times_elem p l)) in Hp.
  pose proof (times_nonneg p l). cbn beta. lia.
Qed.

Example score_of_a_monday :
  constraints.calculate_schedule_score scored_schedule = 5.
Proof. vm_compute. reflexivity. Qed.

(** ** The full-time check on the solved schedule *)

(** A week in which the solved schedule gives an employee a shift is a
    week the template reaches. *)
Lemma week_of_solved_slot (rt : Runtime) (self : ORToolsScheduler.t)
  (employee : Employee.t) (week_start : date) :
  week_of (solved_schedule rt self) employee week_start ≠ [] →
  ∃ slot,
    slot ∈ ORToolsScheduler.generate_month_template self
    ∧ monday_of (Shift.date slot) = week_start.
Proof.
  intros Hsome.
  destruct (week_of (solved_schedule rt self) employee week_start)
    as [|shift shifts] eqn:Hweek; [contradiction|].
  assert (Hin : shift ∈ week_of (solved_schedule rt self) employee week_start)
    by (rewrite Hweek; left).
  unfold week_of in Hin. apply members_elem in Hin as [Hin Hkey].
  unfold Schedule.get_employee_shifts in Hin.
  apply list_elem_of_In, filter_In in Hin as [Hin _].
  apply list_elem_of_In, solved_shift_elem in Hin
    as (shift_idx & slot & Hslot & ->).
  exists slot. split; [apply (list_elem_of_lookup_2 _ _ _ Hslot) | exact Hkey].
Qed.

(** X20. With the days off relaxed, the schedule read off a solution
    passes [validate_fulltime_constraints], run with the scheduler's own
    flag for the shift count and with [relaxed_days_off], for every
    employee of a roster without a name twice: there the check and the
    model ask the same, 10 shifts a week (8 to 10 when relaxed) on at most
    six days. *)
Theorem solved_schedule_passes_fulltime_check (rt : Runtime)
  (self : ORToolsScheduler.t) (employee : Employee.t) :
  solution_found rt self →
  NoDup (map Employee.name (ORToolsScheduler.employees self)) →
  employee ∈ ORToolsScheduler.employees self →
  ORToolsScheduler.relaxed_days_off self = true →
  constraints.validate_fulltime_constraints (solved_schedule rt self) employee
    (ORToolsScheduler.relaxed_shifts self) true = true.
Proof.
  intros Hfound Hnames Hemp Hrelaxed.
  destruct (validate_fulltime_constraints_iff (solved_schedule rt self)
              employee (ORToolsScheduler.relaxed_shifts self) true)
    as [Hiff Hpart].
  destruct (Employee.is_fulltime employee) eqn:Hfull; [|apply Hpart, eq_refl].
  apply Hiff. intros _ week_start Hsome.
  destruct (week_of_solved_slot rt self employee week_start Hsome)
    as (slot & Hslot & <-).
  destruct (solution_weekly_rules rt self employee Hfound Hnames Hemp Hfull
              slot Hslot) as [Hcount Hdays].
  split; [exact Hcount|]. rewrite Hrelaxed in Hdays. exact Hdays.
Qed.

Lemma relaxed_fulltime_solution_found :
  solution_found fulltime_runtime relaxed_fulltime_scheduler.
Proof. split; [left; reflexivity | vm_compute; reflexivity]. Qed.

Lemma solved_schedule_passes_fulltime_check_witness :
  constraints.validate_fulltime_constraints
    (solved_schedule fulltime_runtime relaxed_fulltime_scheduler)
    (full_timer "F") false true = true.
Proof.
  apply (solved_schedule_passes_fulltime_check fulltime_runtime
           relaxed_fulltime_scheduler (full_timer "F")
           relaxed_fulltime_solution_found);
    [repeat constructor; apply not_elem_of_nil | left | reflexivity].
Defined.

(** ** A schedule saved and deleted *)

Lemma filter_none {A} (p : A → bool) (l : list A) :
  Forall (fun x => p x = false) l → List.filter p l = [].
Proof.
  induction 1 as [|x l Hx _ IH]; [reflexivity|].
  cbn [List.filter]. rewrite Hx. exact IH.
Qed.

Lemma filter_all {A} (p : A → bool) (l : list A) :
  Forall (fun x => p x = true) l → List.filter p l = l.
Proof.
  induction 1 as [|x l Hx _ IH]; [reflexivity|].
  cbn [List.filter]. rewrite Hx, IH. reflexivity.
Qed.

Section DeletedSchedules.

Variable strftime : date → string.

(** Every row written for a schedule carries its name and saving time. *)
Lemma schedule_row_is_schedule_row (schedule_name saved_at : string)
  (shift : Shift.t) :
  SheetsManager.is_schedule_row schedule_name saved_at
    (SheetsManager.schedule_row strftime schedule_name saved_at shift) = true.
Proof.
  unfold SheetsManager.is_schedule_row, SheetsManager.schedule_row.
  cbv zeta. cbn [app SheetsManager.cell nth]. rewrite !String.eqb_refl.
  rewrite !andb_true_r. apply Z.leb_le. unfold len. cbn [length]. lia.
Qed.

(** X21. A schedule is saved into a worksheet that is new, and so has the
    header row alone, or that has at least its header row, with no row
    below the header that already carries the schedule's name and saving
    time in its first two cells. Deleting the schedule right after, under
    the name and the saving time it was saved with, gives the worksheet
    back as it was before the save; the call returns [True] when the
    schedule had a shift and [False] when it had none. *)
Theorem save_then_delete (sheet : option (list (list string)))
  (header : list string) (old : list (list string))
  (schedule : Schedule.t) (start_date : date) (now : string) :
  match sheet with
  | Some sheet => sheet
  | None => [SheetsManager.headers]
  end = header :: old →
  Forall (fun row =>
            SheetsManager.is_schedule_row (strftime start_date) now row
            = false) old →
  SheetsManager.delete_schedule
    (SheetsManager.save_schedule strftime sheet schedule start_date now)
    (strftime start_date) now
  = (match Schedule.shifts schedule with
     | [] => false
     | _ :: _ => true
     end,
     header :: old).
Proof.
  intros Hsheet Hold. unfold SheetsManager.save_schedule. cbv zeta.
  rewrite Hsheet.
  set (rows := map (SheetsManager.schedule_row strftime (strftime start_date)
                      now) (Schedule.shifts schedule)).
  assert (Hrows : Forall (fun row =>
                            SheetsManager.is_schedule_row
                              (strftime start_date) now row = true) rows).
  { unfold rows. apply Forall_forall. intros row Hrow.
    apply list_elem_of_In, in_map_iff in Hrow as (shift & <- & _).
    apply schedule_row_is_schedule_row. }
  assert (Hsaved : match rows with
                   | [] => header :: old
                   | _ :: _ => (header :: old) ++ rows
                   end = header :: old ++ rows).
  { destruct rows; [rewrite app_nil_r|]; reflexivity. }
  rewrite Hsaved, delete_schedule_rows. f_equal.
  - rewrite existsb_app, (existsb_false _ old Hold). cbn [orb].
    unfold rows. destruct (Schedule.shifts schedule) as [|shift shifts];
      [reflexivity|].
    cbn [map existsb]. rewrite schedule_row_is_schedule_row. reflexivity.
  - f_equal. rewrite List.filter_app.
    rewrite (filter_all _ old), (filter_none _ rows), app_nil_r;
      [reflexivity | |].
    + eapply Forall_impl; [exact Hrows|]. intros row Hrow. cbn beta.
      rewrite Hrow. reflexivity.
    + eapply Forall_impl; [exact Hold|]. intros row Hrow. cbn beta.
      rewrite Hrow. reflexivity.
Qed.

End DeletedSchedules.

Lemma save_then_delete_witness :
  SheetsManager.delete_schedule
    (SheetsManager.save_schedule datetime.strftime None clinic_schedule
       monday_2025_01_06 "2025-01-05 12:00:00")
    "2025-01-06" "2025-01-05 12:00:00"
  = (true, [SheetsManager.headers]).
Proof.
  etrans.
  - apply (save_then_delete datetime.strftime None SheetsManager.headers []
             clinic_schedule monday_2025_01_06 "2025-01-05 12:00:00");
      [reflexivity | constructor].
  - vm_compute. reflexivity.
Defined.

(** ** Inputs no schedule can meet *)

(** Values that satisfy the model are a solution a solver could report. *)
Lemma satisfying_values_found (σ : IntVar → Z) (self : ORToolsScheduler.t) :
  satisfies σ (snd (ORToolsScheduler.build_model self)) = true →
  solution_found (fixed_answer FEASIBLE σ) self.
Proof. intros Hsat. split; [right; reflexivity | exact Hsat]. Qed.

(** With an infeasible model a sound solver reports no solution, and
    [generate_schedules] returns no schedule. *)
Lemma infeasible_no_schedule (self : ORToolsScheduler.t) :
  ¬ feasible (snd (ORToolsScheduler.build_model self)) →
  ∀ rt, sound rt →
        ∃ diagnostics,
          ORToolsScheduler.generate_schedules rt self
          = Returned ([], diagnostics)
          ∧ ORToolsScheduler.valid_count diagnostics = 0.
Proof.
  intros Hnone rt Hsound. rewrite generate_schedules_unfold.
  destruct (Hsound (parameters_of self)
              (snd (ORToolsScheduler.build_model self))) as [_ Hfound].
  fold (answer rt self) in Hfound.
  assert (Hno : bool_decide (status (answer rt self) = OPTIMAL)
                || bool_decide (status (answer rt self) = FEASIBLE)
                = false).
  { destruct (bool_decide (status (answer rt self) = OPTIMAL)
              || bool_decide (status (answer rt self) = FEASIBLE))
      eqn:Hyes; [|reflexivity].
    apply orb_true_iff in Hyes.
    rewrite !bool_decide_eq_true in Hyes.
    exfalso. apply Hnone. eexists. exact (Hfound Hyes). }
  rewrite Hno. eexists. split; reflexivity.
Qed.

(** X22. A pre-assignment for a slot of the window that no employee of
    that name may take, by the availability check with the time-off
    requests, makes the model infeasible: a sound solver finds nothing and
    [generate_schedules] returns no schedule. *)
Theorem unavailable_pre_assignment_infeasible (self : ORToolsScheduler.t)
  (pre : PreAssignedShift.t) (slot : Shift.t) :
  pre ∈ ORToolsScheduler.pre_assigned_shifts self →
  in_roster (ORToolsScheduler.employees self)
            (PreAssignedShift.employee_name pre) = true →
  slot ∈ ORToolsScheduler.generate_month_template self →
  Shift.date slot = PreAssignedShift.date pre →
  Shift.shift_time slot = PreAssignedShift.shift_time pre →
  (∀ employee,
     employee ∈ ORToolsScheduler.employees self →
     Employee.name employee = PreAssignedShift.employee_name pre →
     constraints.validate_availability slot employee
       (ORToolsScheduler.time_off_requests self) = false) →
  ¬ feasible (snd (ORToolsScheduler.build_model self))
  ∧ (∀ rt, sound rt →
           ∃ diagnostics,
             ORToolsScheduler.generate_schedules rt self
             = Returned ([], diagnostics)
             ∧ ORToolsScheduler.valid_count diagnostics = 0).
Proof.
  intros Hpre Hknown Hslot Hdate Htime Hnever.
  assert (Hnone : ¬ feasible (snd (ORToolsScheduler.build_model self))).
  { intros [σ Hsat]. apply satisfying_values_found in Hsat.
    apply list_elem_of_lookup in Hslot as [shift_idx Hslot].
    destruct (solution_pre_assigned _ self pre shift_idx slot
                Hsat Hpre Hknown Hslot Hdate Htime)
      as (employee & Hin & Hname).
    pose proof (solution_available _ self shift_idx slot employee
                  Hsat Hslot Hin) as Hmay.
    rewrite (Hnever employee) in Hmay; [discriminate| |exact Hname].
    eapply elem_of_sublist; [exact Hin|]. apply assigned_at_sublist. }
  split; [exact Hnone|]. apply infeasible_no_schedule, Hnone.
Qed.

Lemma unavailable_pre_assignment_infeasible_witness :
  ¬ feasible (snd (ORToolsScheduler.build_model conflicting_scheduler)).
Proof.
  apply (unavailable_pre_assignment_infeasible conflicting_scheduler
           (PreAssignedShift.mk "A" monday_2025_01_06 "中")
           (Shift.mk monday_2025_01_06 "中" [])).
  - left.
  - reflexivity.
  - right. left.
  - reflexivity.
  - reflexivity.
  - intros employee Hin Hname.
    repeat (apply elem_of_cons in Hin as [->|Hin];
            [first [reflexivity | discriminate Hname]|]).
    inversion Hin.
Defined.

Lemma sublist_filter_both {A} (p : A → bool) (l k : list A) :
  l `sublist_of` k → List.filter p l `sublist_of` List.filter p k.
Proof.
  induction 1 as [|x l k _ IH|x l k _ IH]; simpl.
  - constructor.
  - destruct (p x); [apply sublist_skip|]; exact IH.
  - destruct (p x); [apply sublist_cons|]; exact IH.
Qed.

Lemma sublist_into_filter {A} (q : A → bool) (l k : list A) :
  l `sublist_of` k → Forall (fun x => q x = true) l →
  l `sublist_of` List.filter q k.
Proof.
  induction 1 as [|x l k _ IH|x l k _ IH]; intros Hall; simpl.
  - constructor.
  - inversion Hall as [|? ? Hx Hl]; subst. rewrite Hx.
    apply sublist_skip, IH, Hl.
  - destruct (q x); [apply sublist_cons|]; apply IH, Hall.
Qed.

Lemma len_sublist {A} (l k : list A) : l `sublist_of` k → len l ≤ len k.
Proof. intros H. apply sublist_length in H. unfold len. lia. Qed.

(** The employees a solution puts on a slot are among those available for
    it, in the roster's order. *)
Lemma assigned_available (rt : Runtime) (self : ORToolsScheduler.t)
  (shift_idx : nat) (slot : Shift.t) :
  solution_found rt self →
  ORToolsScheduler.generate_month_template self !! shift_idx = Some slot →
  assigned_at rt self shift_idx `sublist_of` available_for self slot.
Proof.
  intros Hfound Hslot. apply sublist_into_filter.
  - apply assigned_at_sublist.
  - apply Forall_forall. intros employee Hin.
    exact (solution_available rt self shift_idx slot employee
             Hfound Hslot Hin).
Qed.

(** X23. A slot of the window whose requirement the employees available
    for it cannot meet makes the model infeasible: a sound solver finds
    nothing and [generate_schedules] returns no schedule. *)
Theorem requirement_out_of_reach_infeasible (self : ORToolsScheduler.t)
  (slot : Shift.t) (requirement : ShiftRequirement.t) :
  slot ∈ ORToolsScheduler.generate_month_template self →
  requirement_of self slot = Some requirement →
  out_of_reach self slot requirement →
  ¬ feasible (snd (ORToolsScheduler.build_model self))
  ∧ (∀ rt, sound rt →
           ∃ diagnostics,
             ORToolsScheduler.generate_schedules rt self
             = Returned ([], diagnostics)
             ∧ ORToolsScheduler.valid_count diagnostics = 0).
Proof.
  intros Hslot Hreq Hout.
  assert (Hnone : ¬ feasible (snd (ORToolsScheduler.build_model self))).
  { intros [σ Hsat]. apply satisfying_values_found in Hsat.
    apply list_elem_of_lookup in Hslot as [shift_idx Hslot].
    destruct (solution_requirement _ self shift_idx slot requirement
                Hsat Hslot Hreq)
      as (Hpeople & Hleaders & Hinjectors & Heither).
    pose proof (assigned_available _ self shift_idx slot Hsat Hslot)
      as Hsub.
    pose proof (len_sublist _ _ Hsub) as Hall.
    pose proof (fun flag =>
                  len_sublist _ _ (sublist_filter_both flag _ _ Hsub))
      as Hflag.
    assert (Hnonneg : 0 ≤ len (assigned_at (fixed_answer FEASIBLE σ) self
                                            shift_idx))
      by (unfold len; lia).
    destruct Hout as [Hmany|[Hneg|[[Hsome Hshort]|[[Hsome Hshort]
                                                  |[Hsome Hshort]]]]].
    - lia.
    - lia.
    - specialize (Hleaders Hsome).
      specialize (Hflag Employee.is_leader). lia.
    - specialize (Hinjectors Hsome).
      specialize (Hflag Employee.can_inject). lia.
    - specialize (Heither Hsome).
      specialize (Hflag is_leader_or_injector). lia. }
  split; [exact Hnone|]. apply infeasible_no_schedule, Hnone.
Qed.

Lemma requirement_out_of_reach_infeasible_witness :
  ¬ feasible (snd (ORToolsScheduler.build_model understaffed_scheduler)).
Proof.
  apply (requirement_out_of_reach_infeasible understaffed_scheduler
           (Shift.mk monday_2025_01_06 "早" [])
           (ShiftRequirement.mk 1 "早" 6 1 1 2)).
  - left.
  - vm_compute. reflexivity.
  - left. vm_compute. reflexivity.
Defined.
